(** * frictionless_ckan_mapper.converter

    A shallow embedding of [src/frictionless_ckan_mapper/converter.py]: the
    conversion of a CKAN dataset dict into a Data Package dict
    ([dataset_to_datapackage]) and back ([datapackage_to_dataset]).

    Python values are an inductive type, dicts are insertion-ordered
    association lists, and a raised exception is the [Raise] outcome of a
    small error monad.  The two libraries the module imports but does not
    define ([slugify], [json]) are Section variables. *)

From Stdlib Require Import String Ascii List ZArith Bool Lia DecimalString.
Import ListNotations.
Local Open Scope string_scope.
#[local] Set Warnings "-register-all".

(** ** Python values

    [None], [bool], [int], [str], [list] and [dict].  Numbers are integers
    (no float), and a string is a sequence of code points below 256 (the
    Latin-1 range of [str]), with the case and whitespace classes Python
    gives these code points. *)
Inductive value : Type :=
| VNone
| VBool (b : bool)
| VInt (z : Z)
| VStr (s : string)
| VList (l : list value)
| VDict (d : list (value * value)).

Definition dict : Type := list (value * value).

Coercion VStr : string >-> value.

(** ** Exceptions and the error monad *)
Inductive exn : Type :=
| KeyError (k : value)
| IndexError
| TypeError
| AttributeError
| NotImplementedError.

Inductive result (A : Type) : Type :=
| Ok (a : A)
| Raise (e : exn).
Arguments Ok {A} a.
Arguments Raise {A} e.

Definition bind {A B : Type} (c : result A) (k : A -> result B) : result B :=
  match c with
  | Ok a => k a
  | Raise e => Raise e
  end.

Notation "x <- c ;; k" := (bind c (fun x => k))
  (at level 61, c at next level, right associativity).
Notation "' p <- c ;; k" := (bind c (fun x => match x with p => k end))
  (at level 61, p pattern, c at next level, right associativity).

(** [[f(x) for x in xs]]: the first exception aborts the comprehension. *)
Fixpoint map_result {A B : Type} (f : A -> result B) (xs : list A)
  : result (list B) :=
  match xs with
  | [] => Ok []
  | x :: xs' => y <- f x ;; ys <- map_result f xs' ;; Ok (y :: ys)
  end.

(** ** Dict keys

    A key is looked up by hash and [==]: [True == 1] and [False == 0], a
    string only equals the same string, and lists and dicts are unhashable. *)
Inductive hkey : Type :=
| KNone
| KNum (z : Z)
| KStr (s : string).

Definition hash_key (v : value) : option hkey :=
  match v with
  | VNone => Some KNone
  | VBool b => Some (KNum (Z.b2z b))
  | VInt z => Some (KNum z)
  | VStr s => Some (KStr s)
  | VList _ | VDict _ => None
  end.

Definition hkey_eqb (a b : hkey) : bool :=
  match a, b with
  | KNone, KNone => true
  | KNum x, KNum y => Z.eqb x y
  | KStr s, KStr t => String.eqb s t
  | _, _ => false
  end.

Definition key_eqb (a b : value) : bool :=
  match hash_key a, hash_key b with
  | Some x, Some y => hkey_eqb x y
  | _, _ => false
  end.

(** ** Dicts as insertion-ordered association lists *)
Fixpoint lookup {A : Type} (k : value) (d : list (value * A)) : option A :=
  match d with
  | [] => None
  | (k', v) :: d' => if key_eqb k k' then Some v else lookup k d'
  end.

(** [d[k] = v]: an existing key keeps its place, a new one goes last. *)
Fixpoint set_item {A : Type} (k : value) (v : A) (d : list (value * A))
  : list (value * A) :=
  match d with
  | [] => [(k, v)]
  | (k', v') :: d' =>
      if key_eqb k k' then (k', v) :: d' else (k', v') :: set_item k v d'
  end.

(** [d.update(e)] *)
Definition update (d e : dict) : dict :=
  fold_left (fun acc kv => set_item (fst kv) (snd kv) acc) e d.

(** [d.get(k, default)] *)
Definition get_default (d : dict) (k : value) (default : value) : value :=
  match lookup k d with
  | Some v => v
  | None => default
  end.

(** [d.get(k)] *)
Definition get (d : dict) (k : value) : value := get_default d k VNone.

(** [d[k]] on a dict *)
Definition item (d : dict) (k : value) : result value :=
  match lookup k d with
  | Some v => Ok v
  | None => Raise (KeyError k)
  end.

(** ** Operations on a value whose type is only known at run time *)
Definition truthy (v : value) : bool :=
  match v with
  | VNone => false
  | VBool b => b
  | VInt z => negb (Z.eqb z 0)
  | VStr s => negb (String.eqb s "")
  | VList l => match l with [] => false | _ => true end
  | VDict d => match d with [] => false | _ => true end
  end.

(** [a or b] *)
Definition py_or (a b : value) : value := if truthy a then a else b.

(** [v.get(k)]: only a dict has the method. *)
Definition py_get (v k : value) : result value :=
  match v with
  | VDict d => Ok (get d k)
  | _ => Raise AttributeError
  end.

Definition index_of (k : value) : option Z :=
  match k with
  | VInt z => Some z
  | VBool b => Some (Z.b2z b)
  | _ => None
  end.

(** Sequence indexing, negative indices counting from the end. *)
Definition seq_item {A : Type} (l : list A) (i : Z) : option A :=
  let n := Z.of_nat (List.length l) in
  let j := if (i <? 0)%Z then (i + n)%Z else i in
  if ((0 <=? j) && (j <? n))%Z then nth_error l (Z.to_nat j) else None.

(** [v[k]] *)
Definition subscript (v k : value) : result value :=
  match v with
  | VDict d =>
      match hash_key k with
      | Some _ => item d k
      | None => Raise TypeError
      end
  | VList l =>
      match index_of k with
      | Some i =>
          match seq_item l i with
          | Some x => Ok x
          | None => Raise IndexError
          end
      | None => Raise TypeError
      end
  | VStr s =>
      match index_of k with
      | Some i =>
          match seq_item (list_ascii_of_string s) i with
          | Some c => Ok (VStr (String c ""))
          | None => Raise IndexError
          end
      | None => Raise TypeError
      end
  | _ => Raise TypeError
  end.

(** [for x in v]: a list yields its items, a dict its keys, a string its
    characters; nothing else is iterable. *)
Definition iter (v : value) : result (list value) :=
  match v with
  | VList l => Ok l
  | VDict d => Ok (map fst d)
  | VStr s => Ok (map (fun c => VStr (String c "")) (list_ascii_of_string s))
  | _ => Raise TypeError
  end.

(** [dict(pairs)]: later pairs overwrite, an unhashable key raises. *)
Fixpoint py_dict (pairs : list (value * value)) (acc : dict) : result dict :=
  match pairs with
  | [] => Ok acc
  | (k, v) :: rest =>
      match hash_key k with
      | Some _ => py_dict rest (set_item k v acc)
      | None => Raise TypeError
      end
  end.

(** ** Strings *)

(** The code points below 256 that [str.lower] changes: [A]-[Z], and
    U+00C0-U+00DE but for the multiplication sign U+00D7.  Each is 32
    below its lower-case form. *)
Definition is_upper (c : ascii) : bool :=
  let n := nat_of_ascii c in
  ((65 <=? n) && (n <=? 90) || (192 <=? n) && (n <=? 214)
   || (216 <=? n) && (n <=? 222))%nat.

Definition char_lower (c : ascii) : ascii :=
  if is_upper c then ascii_of_nat (nat_of_ascii c + 32) else c.

Fixpoint str_map (f : ascii -> ascii) (s : string) : string :=
  match s with
  | EmptyString => EmptyString
  | String c t => String (f c) (str_map f t)
  end.

(** [s.lower()] *)
Definition lower (s : string) : string := str_map char_lower s.

(** [c.isspace()], which is also the class [\s] of [re] and what
    [str.strip] removes: U+0009-U+000D, U+001C-U+0020, U+0085 and
    U+00A0. *)
Definition isspace (c : ascii) : bool :=
  let n := nat_of_ascii c in
  ((9 <=? n) && (n <=? 13) || (28 <=? n) && (n <=? 32)
   || (n =? 133) || (n =? 160))%nat.

Fixpoint lstrip (s : string) : string :=
  match s with
  | EmptyString => EmptyString
  | String c t => if isspace c then lstrip t else s
  end.

Definition str_rev (s : string) : string :=
  string_of_list_ascii (rev (list_ascii_of_string s)).

Definition rstrip (s : string) : string := str_rev (lstrip (str_rev s)).

(** [s.strip()] *)
Definition strip (s : string) : string := lstrip (rstrip s).

(** [str(n)] on an int *)
Definition str (z : Z) : string := NilZero.string_of_int (Z.to_int z).

(** [v.lower()] and [v.strip()]: only a string has the methods. *)
Definition py_lower (v : value) : result value :=
  match v with
  | VStr s => Ok (VStr (lower s))
  | _ => Raise AttributeError
  end.

Definition py_strip (v : value) : result value :=
  match v with
  | VStr s => Ok (VStr (strip s))
  | _ => Raise AttributeError
  end.

(** [v + s] with [s] a string *)
Definition py_add_str (v : value) (s : string) : result value :=
  match v with
  | VStr n => Ok (VStr (n ++ s))
  | _ => Raise TypeError
  end.

(** ** The author pattern

    [re.match(r'(?P<name>[^<]+)(?:<(?P<email>\S+)>)?', author)].

    The match is anchored at the start only.  [[^<]+] is greedy and takes
    every character up to the first ['<'] (at least one, or there is no
    match).  The optional group is then tried where the name stopped: a
    ['<'], the greedy [\S+], which runs over the non-space characters that
    follow and backs off to the last ['>'] among them that leaves it at
    least one character, and that ['>'].  When the group fails it is
    skipped and [email] is [None]. *)
Fixpoint span_not_lt (s : string) : string * string :=
  match s with
  | EmptyString => (EmptyString, EmptyString)
  | String c t =>
      if Ascii.eqb c "<" then (EmptyString, s)
      else let (a, b) := span_not_lt t in (String c a, b)
  end.

Fixpoint nonspace_run (s : string) : string :=
  match s with
  | EmptyString => EmptyString
  | String c t => if isspace c then EmptyString else String c (nonspace_run t)
  end.

(** Index of the last ['>'] of [s]. *)
Fixpoint rindex_gt (s : string) : option nat :=
  match s with
  | EmptyString => None
  | String c t =>
      match rindex_gt t with
      | Some i => Some (S i)
      | None => if Ascii.eqb c ">" then Some 0%nat else None
      end
  end.

Definition email_group (rest : string) : option string :=
  match rest with
  | String c t =>
      if Ascii.eqb c "<" then
        let run := nonspace_run t in
        match rindex_gt run with
        | Some (S i) => Some (substring 0 (S i) run)
        | _ => None
        end
      else None
  | EmptyString => None
  end.

Record author_match : Type := {
  group_name : string;
  group_email : option string
}.

Definition author_re_match (author : string) : option author_match :=
  let (name, rest) := span_not_lt author in
  match name with
  | EmptyString => None
  | _ => Some {| group_name := name; group_email := email_group rest |}
  end.

(** ** Data Package objects

    [datapackage_to_dataset] receives an object of the [datapackage]
    library: a descriptor dict and resource objects, each with its own
    descriptor, the three storage-mode flags and its source. *)
Module Resource.
Record t : Type := {
  descriptor : dict;
  local : bool;
  remote : bool;
  inline : bool;
  source : value
}.
End Resource.

Module Package.
Record t : Type := {
  descriptor : dict;
  resources : list Resource.t
}.
End Package.

(** ** The converter *)
Section Converter.

(** [slugify.slugify] of the python-slugify package, on a string. *)
Variable slugify : string -> string.
(** [json.loads] on a string; [None] stands for its [ValueError]. *)
Variable json_loads : string -> option value.
(** [json.dumps] *)
Variable json_dumps : value -> string.

(** [slugify.slugify(v)]: the library decodes anything that is not text
    as bytes, which raises [TypeError] on every other type. *)
Definition py_slugify (v : value) : result string :=
  match v with
  | VStr s => Ok (slugify s)
  | _ => Raise TypeError
  end.

(** The statement pair

    [if src.get(k): dst[k'] = src[k]]

    that most parsers are made of.  Under the guard the key is present,
    so the subscript cannot raise (see [item_of_truthy_get]). *)
Definition copy_if (src : dict) (k k' : string) (dst : dict) : dict :=
  if truthy (get src k) then set_item (VStr k') (get src k) dst else dst.

(** *** Dataset to Data Package *)

Definition _convert_to_datapackage_resource (resource_dict : value)
  : result dict :=
  match resource_dict with
  | VDict rd =>
      let resource := [] in
      let resource := copy_if rd "url" "path" resource in
      let resource := copy_if rd "description" "description" resource in
      let resource := copy_if rd "format" "format" resource in
      let resource := copy_if rd "hash" "hash" resource in
      resource <-
        (if truthy (get rd "name") then
           slug <- py_slugify (get rd "name") ;;
           let resource := set_item (VStr "name") (VStr (lower slug)) resource in
           Ok (set_item (VStr "title") (get rd "name") resource)
         else
           id <- item rd "id" ;;
           Ok (set_item (VStr "name") id resource)) ;;
      let schema := get rd "schema" in
      match schema with
      | VStr s =>
          match json_loads s with
          | Some decoded => Ok (set_item (VStr "schema") decoded resource)
          | None => Ok (set_item (VStr "schema") schema resource)
          end
      | VDict _ => Ok (set_item (VStr "schema") schema resource)
      | _ => Ok resource
      end
  | _ => Raise AttributeError
  end.

Definition _rename_dict_key (original_key destination_key : string)
  (the_dict : dict) : result dict :=
  Ok (copy_if the_dict original_key destination_key []).

Definition _parse_ckan_url (dataset_dict : dict) : result dict :=
  Ok (copy_if dataset_dict "ckan_url" "homepage" []).

Definition _parse_notes (dataset_dict : dict) : result dict :=
  Ok (copy_if dataset_dict "notes" "description" []).

Definition _parse_license (dataset_dict : dict) : result dict :=
  let dataset_license := [] in
  let dataset_license := copy_if dataset_dict "license_id" "type" dataset_license in
  let dataset_license := copy_if dataset_dict "license_title" "title" dataset_license in
  let dataset_license := copy_if dataset_dict "license_url" "url" dataset_license in
  if truthy (VDict dataset_license)
  then Ok [(VStr "license", VDict dataset_license)]
  else Ok [].

Definition _parse_author_and_source (dataset_dict : dict) : result dict :=
  let source := [] in
  let source := copy_if dataset_dict "author" "name" source in
  let source := copy_if dataset_dict "author_email" "email" source in
  let source := copy_if dataset_dict "url" "web" source in
  if truthy (VDict source)
  then Ok [(VStr "sources", VList [VDict source])]
  else Ok [].

Definition _parse_maintainer (dataset_dict : dict) : result dict :=
  let author := [] in
  let author := copy_if dataset_dict "maintainer" "name" author in
  let author := copy_if dataset_dict "maintainer_email" "email" author in
  if truthy (VDict author)
  then Ok [(VStr "author", VDict author)]
  else Ok [].

Definition _parse_tags (dataset_dict : dict) : result dict :=
  tags <- iter (get_default dataset_dict "tags" (VList [])) ;;
  keywords <- map_result (fun tag => subscript tag "name") tags ;;
  if truthy (VList keywords)
  then Ok [(VStr "keywords", VList keywords)]
  else Ok [].

(** [json.loads(v)] under [except (ValueError, TypeError): pass]: a
    value that is not a string, or does not parse, is kept. *)
Definition loads_or_keep (v : value) : value :=
  match v with
  | VStr s =>
      match json_loads s with
      | Some decoded => decoded
      | None => v
      end
  | _ => v
  end.

Definition _parse_extras (dataset_dict : dict) : result dict :=
  entries <- iter (get_default dataset_dict "extras" (VList [])) ;;
  extras <- map_result
              (fun extra =>
                 k <- subscript extra "key" ;;
                 v <- subscript extra "value" ;;
                 Ok (k, v))
              entries ;;
  let extras := map (fun extra => (fst extra, loads_or_keep (snd extra))) extras in
  match extras with
  | [] => Ok []
  | _ => d <- py_dict extras [] ;; Ok [(VStr "extras", VDict d)]
  end.

(** [for parser in parsers: acc.update(parser(source))] *)
Fixpoint run_parsers (parsers : list (dict -> result dict))
  (source acc : dict) : result dict :=
  match parsers with
  | [] => Ok acc
  | parser :: rest =>
      partial <- parser source ;;
      run_parsers rest source (update acc partial)
  end.

(** The loop under [# Ensure unique resource names]; [names] maps a
    name already seen to the suffix its next duplicate gets. *)
Fixpoint ensure_unique_names (resources : list dict)
  (names : list (value * Z)) : result (list dict) :=
  match resources with
  | [] => Ok []
  | resource :: rest =>
      name <- item resource "name" ;;
      match hash_key name with
      | None => Raise TypeError
      | Some _ =>
          match lookup name names with
          | Some count =>
              renamed <- py_add_str name (str count) ;;
              let resource := set_item (VStr "name") renamed resource in
              rest' <- ensure_unique_names rest
                         (set_item name (count + 1)%Z names) ;;
              Ok (resource :: rest')
          | None =>
              rest' <- ensure_unique_names rest (set_item name 0%Z names) ;;
              Ok (resource :: rest')
          end
      end
  end.

Definition dataset_parsers : list (dict -> result dict) :=
  [ _rename_dict_key "title" "title";
    _rename_dict_key "version" "version";
    _parse_ckan_url;
    _parse_notes;
    _parse_license;
    _parse_author_and_source;
    _parse_maintainer;
    _parse_tags;
    _parse_extras ].

(** The resource dicts are created by the comprehension and renamed in
    place by the loop that follows it; when [resources] is missing or
    empty the loop has nothing to visit. *)
Definition dataset_to_datapackage (dataset_dict : dict) : result dict :=
  name <- item dataset_dict "name" ;;
  datapackage <- run_parsers dataset_parsers dataset_dict [(VStr "name", name)] ;;
  let resources := get dataset_dict "resources" in
  if truthy resources then
    rs <- iter resources ;;
    converted <- map_result _convert_to_datapackage_resource rs ;;
    unique <- ensure_unique_names converted [] ;;
    Ok (set_item (VStr "resources") (VList (map VDict unique)) datapackage)
  else Ok datapackage.

(** *** Data Package to dataset *)

Definition _datapackage_resource_to_ckan_resource (resource : Resource.t)
  : result dict :=
  let descriptor := Resource.descriptor resource in
  let resource_dict := [] in
  resource_dict <-
    (if truthy (get descriptor "name") then
       name <- (if truthy (get descriptor "title")
                then Ok (get descriptor "title")
                else item descriptor "name") ;;
       Ok (set_item (VStr "name") name resource_dict)
     else Ok resource_dict) ;;
  resource_dict <-
    (if Resource.local resource then
       Ok (set_item (VStr "path") (Resource.source resource) resource_dict)
     else if Resource.remote resource then
       Ok (set_item (VStr "url") (Resource.source resource) resource_dict)
     else if Resource.inline resource then
       Ok (set_item (VStr "data") (Resource.source resource) resource_dict)
     else Raise NotImplementedError) ;;
  let resource_dict := copy_if descriptor "description" "description" resource_dict in
  let resource_dict := copy_if descriptor "format" "format" resource_dict in
  let resource_dict := copy_if descriptor "hash" "hash" resource_dict in
  let resource_dict := copy_if descriptor "schema" "schema" resource_dict in
  Ok resource_dict.

Definition _datapackage_parse_license (datapackage_dict : dict)
  : result dict :=
  let result := [] in
  let dataset_license := get datapackage_dict "license" in
  if truthy dataset_license then
    match dataset_license with
    | VDict license =>
        let result := copy_if license "type" "license_id" result in
        let result := copy_if license "title" "license_title" result in
        if truthy (get license "title") then
          url <- item license "url" ;;
          Ok (set_item (VStr "license_url") url result)
        else Ok result
    | VStr _ => Ok (set_item (VStr "license_id") dataset_license result)
    | _ => Ok result
    end
  else Ok result.

Definition _datapackage_parse_sources (datapackage_dict : dict)
  : result dict :=
  let result := [] in
  let sources := get datapackage_dict "sources" in
  if truthy sources then
    first <- subscript sources (VInt 0) ;;
    author <- py_get first "name" ;;
    author_email <- py_get first "email" ;;
    source <- py_get first "web" ;;
    let result :=
      if truthy author then set_item (VStr "author") author result else result in
    let result :=
      if truthy author_email
      then set_item (VStr "author_email") author_email result else result in
    let result :=
      if truthy source then set_item (VStr "url") source result else result in
    Ok result
  else Ok result.

Definition _datapackage_parse_author (datapackage_dict : dict)
  : result dict :=
  let result := [] in
  let author := get datapackage_dict "author" in
  if truthy author then
    ' (maintainer, maintainer_email) <-
      match author with
      | VDict a => Ok (get a "name", get a "email")
      | VStr s =>
          match author_re_match s with
          | Some m =>
              Ok (VStr (group_name m),
                  match group_email m with
                  | Some e => VStr e
                  | None => VNone
                  end)
          | None => Raise AttributeError
          end
      | _ => Ok (VNone, VNone)
      end ;;
    result <-
      (if truthy maintainer then
         stripped <- py_strip maintainer ;;
         Ok (set_item (VStr "maintainer") stripped result)
       else Ok result) ;;
    let result :=
      if truthy maintainer_email
      then set_item (VStr "maintainer_email") maintainer_email result
      else result in
    Ok result
  else Ok result.

Definition _datapackage_parse_keywords (datapackage_dict : dict)
  : result dict :=
  let keywords := get datapackage_dict "keywords" in
  if truthy keywords then
    ks <- iter keywords ;;
    tags <- map_result
              (fun keyword =>
                 slug <- py_slugify keyword ;;
                 Ok (VDict [(VStr "name", VStr slug)]))
              ks ;;
    Ok [(VStr "tags", VList tags)]
  else Ok [].

Definition known_fields : list string :=
  [ "name"; "resources"; "license"; "title"; "description"; "homepage";
    "version"; "sources"; "author"; "keywords" ].

(** [k in known_fields], with [==] against strings. *)
Definition in_known_fields (k : value) : bool :=
  existsb (fun field => key_eqb k (VStr field)) known_fields.

(** [json.dumps] of a dict or list value, any other value unchanged. *)
Definition dumps_structured (v : value) : value :=
  match v with
  | VDict _ | VList _ => VStr (json_dumps v)
  | _ => v
  end.

Definition _datapackage_parse_unknown_fields_as_extras
  (datapackage_dict : dict) : result dict :=
  let extras :=
    map (fun kv => (fst kv, dumps_structured (snd kv)))
      (filter (fun kv => negb (in_known_fields (fst kv))) datapackage_dict) in
  match extras with
  | [] => Ok []
  | _ =>
      Ok [(VStr "extras",
           VList (map (fun kv => VDict [(VStr "key", fst kv);
                                        (VStr "value", snd kv)])
                    extras))]
  end.

Definition datapackage_parsers : list (dict -> result dict) :=
  [ _rename_dict_key "title" "title";
    _rename_dict_key "version" "version";
    _rename_dict_key "description" "notes";
    _datapackage_parse_license;
    _datapackage_parse_sources;
    _datapackage_parse_author;
    _datapackage_parse_keywords;
    _datapackage_parse_unknown_fields_as_extras ].

Definition datapackage_to_dataset (datapackage : Package.t) : result dict :=
  let descriptor := Package.descriptor datapackage in
  name <- item descriptor "name" ;;
  name <- py_lower name ;;
  dataset_dict <- run_parsers datapackage_parsers descriptor [(VStr "name", name)] ;;
  match Package.resources datapackage with
  | [] => Ok dataset_dict
  | resources =>
      rs <- map_result _datapackage_resource_to_ckan_resource resources ;;
      Ok (set_item (VStr "resources") (VList (map VDict rs)) dataset_dict)
  end.

End Converter.

Arguments dataset_to_datapackage slugify json_loads dataset_dict : assert.
Arguments datapackage_to_dataset slugify json_dumps datapackage : assert.

(** ** Reading a converted record *)

(** The [name] of every entry of a record's [resources], in list order. *)
Definition resource_names (record : dict) : list value :=
  match lookup (VStr "resources") record with
  | Some (VList rs) =>
      map (fun r => match r with VDict d => get d "name" | _ => VNone end) rs
  | _ => []
  end.

(** A resource object in one of the three storage modes the converter
    handles. *)
Definition supported (r : Resource.t) : bool :=
  Resource.local r || Resource.remote r || Resource.inline r.

(** The characters of [s] up to its first ['<'] are all of [s]. *)
Definition no_lt (s : string) : bool :=
  forallb (fun c => negb (Ascii.eqb c "<")) (list_ascii_of_string s).

(** ** Shapes of a dict *)

(** Every key of [d] is one of the strings [ks]. *)
Definition keys_in (ks : list string) (d : dict) : Prop :=
  Forall (fun kv => exists s, fst kv = VStr s /\ In s ks) d.

(** No key of [d] occurs twice, as in every dict Python builds. *)
Fixpoint distinct (d : dict) : Prop :=
  match d with
  | [] => True
  | (k, _) :: d' => lookup k d' = None /\ distinct d'
  end.

(** A parser that never sets [k]. *)
Definition silent_on (k : value) (parser : dict -> result dict) : Prop :=
  forall source partial, parser source = Ok partial -> lookup k partial = None.

(** A parser whose partial result only has keys among [ks]. *)
Definition emits (ks : list string) (parser : dict -> result dict) : Prop :=
  forall source partial, parser source = Ok partial -> keys_in ks partial.

(** ** Parts of a converted package-side resource *)

(** The display name: [title] when it is set, else [name]; nothing when
    the descriptor has no [name]. *)
Definition ckan_resource_name (descriptor : dict) : dict :=
  if truthy (get descriptor "name")
  then [(VStr "name", py_or (get descriptor "title") (get descriptor "name"))]
  else [].

Definition ckan_resource_tail (descriptor : dict) (resource_dict : dict) : dict :=
  copy_if descriptor "schema" "schema"
    (copy_if descriptor "hash" "hash"
       (copy_if descriptor "format" "format"
          (copy_if descriptor "description" "description" resource_dict))).

(** ** Datasets that convert both ways

    The shape of a dataset on which the conversion to a package and back
    is followed below: a textual [name]; [tags] a list of mappings with a
    textual [name]; [extras] a list of mappings with a hashable [key] and
    a [value]; [resources] unset, or a list of mappings that are named by
    text or else identified by text; a [license_url] whenever there is a
    [license_title]; a [maintainer] that is text when set. *)

Definition is_text (v : value) : bool :=
  match v with
  | VStr _ => true
  | _ => false
  end.

Definition text_if_set (v : value) : bool := is_text v || negb (truthy v).

Definition tag_name (tag : value) : value :=
  match tag with
  | VDict t => get t "name"
  | _ => VNone
  end.

Definition is_tag (tag : value) : bool :=
  match tag with
  | VDict t =>
      match lookup (VStr "name") t with
      | Some (VStr _) => true
      | _ => false
      end
  | _ => false
  end.

Definition dataset_tags (dataset_dict : dict) : list value :=
  match get_default dataset_dict "tags" (VList []) with
  | VList tags => tags
  | _ => []
  end.

Definition tags_ok (dataset_dict : dict) : bool :=
  match get_default dataset_dict "tags" (VList []) with
  | VList tags => forallb is_tag tags
  | _ => false
  end.

Definition extra_pair (extra : value) : value * value :=
  match extra with
  | VDict e => (get e "key", get e "value")
  | _ => (VNone, VNone)
  end.

Definition is_extra (extra : value) : bool :=
  match extra with
  | VDict e =>
      match lookup (VStr "key") e, lookup (VStr "value") e with
      | Some k, Some _ =>
          match hash_key k with
          | Some _ => true
          | None => false
          end
      | _, _ => false
      end
  | _ => false
  end.

Definition dataset_extras (dataset_dict : dict) : list value :=
  match get_default dataset_dict "extras" (VList []) with
  | VList extras => extras
  | _ => []
  end.

Definition extras_ok (dataset_dict : dict) : bool :=
  match get_default dataset_dict "extras" (VList []) with
  | VList extras => forallb is_extra extras
  | _ => false
  end.

Definition is_resource (resource_dict : value) : bool :=
  match resource_dict with
  | VDict rd =>
      if truthy (get rd "name") then is_text (get rd "name")
      else match lookup (VStr "id") rd with
           | Some (VStr _) => true
           | _ => false
           end
  | _ => false
  end.

Definition resources_ok (dataset_dict : dict) : bool :=
  match get dataset_dict "resources" with
  | VList resources => forallb is_resource resources
  | v => negb (truthy v)
  end.

Definition license_ok (dataset_dict : dict) : bool :=
  implb (truthy (get dataset_dict "license_title"))
    (truthy (get dataset_dict "license_url")).

Definition roundtrip_ready (dataset_dict : dict) : bool :=
  is_text (get dataset_dict "name")
  && tags_ok dataset_dict
  && extras_ok dataset_dict
  && resources_ok dataset_dict
  && license_ok dataset_dict
  && text_if_set (get dataset_dict "maintainer").

(** The tag a keyword comes back as. *)
Definition slug_tag (slugify : string -> string) (keyword : value) : value :=
  VDict [(VStr "name",
          match keyword with
          | VStr s => VStr (slugify s)
          | _ => keyword
          end)].

(** The mapping [_parse_extras] builds out of the extras of a dataset. *)
Definition decoded_extras (json_loads : string -> option value)
  (dataset_dict : dict) : dict :=
  update []
    (map (fun extra => (fst (extra_pair extra),
                        loads_or_keep json_loads (snd (extra_pair extra))))
       (dataset_extras dataset_dict)).

(** The nested values [_parse_license], [_parse_author_and_source] and
    [_parse_maintainer] build. *)
Definition package_license (dataset_dict : dict) : dict :=
  copy_if dataset_dict "license_url" "url"
    (copy_if dataset_dict "license_title" "title"
       (copy_if dataset_dict "license_id" "type" [])).

Definition package_source (dataset_dict : dict) : dict :=
  copy_if dataset_dict "url" "web"
    (copy_if dataset_dict "author_email" "email"
       (copy_if dataset_dict "author" "name" [])).

Definition package_author (dataset_dict : dict) : dict :=
  copy_if dataset_dict "maintainer_email" "email"
    (copy_if dataset_dict "maintainer" "name" []).

(** The keys of a package made from a dataset. *)
Definition package_keys : list string :=
  [ "name"; "title"; "version"; "homepage"; "description"; "license";
    "sources"; "author"; "keywords"; "extras"; "resources" ].

(** ** Stand-ins for the two libraries

    The theorems below hold for every [slugify], [json_loads] and
    [json_dumps].  To run the converter on concrete records they are
    instantiated with the following small functions. *)
Module Sample.

Definition is_alnum (c : ascii) : bool :=
  let n := nat_of_ascii c in
  ((48 <=? n) && (n <=? 57) || (65 <=? n) && (n <=? 90)
   || (97 <=? n) && (n <=? 122))%nat.

Fixpoint slug_from (s : string) (started pending : bool) : string :=
  match s with
  | EmptyString => EmptyString
  | String c t =>
      if is_alnum c then
        let tail := String (char_lower c) (slug_from t true false) in
        if started && pending then String "-" tail else tail
      else slug_from t started true
  end.

(** Modelled from the spec: the slugification routine, which lives in
    the python-slugify package and not in this repository.  "Given any
    string, returns a lower-case, ASCII, hyphen-joined token sequence":
    the runs of ASCII letters and digits, lower-cased and joined by
    single hyphens. *)
Definition slugify (s : string) : string := slug_from s false false.

Definition quote : string := String (ascii_of_nat 34) EmptyString.

(** Modelled from the spec: the encoder of the structured-value codec
    ([json.dumps] of the Python standard library), without the escaping
    of special characters inside strings. *)
Fixpoint json_dumps (v : value) : string :=
  match v with
  | VNone => "null"
  | VBool true => "true"
  | VBool false => "false"
  | VInt z => str z
  | VStr s => quote ++ s ++ quote
  | VList l => "[" ++ String.concat ", " (map json_dumps l) ++ "]"
  | VDict d =>
      "{"
      ++ String.concat ", "
           (map (fun kv =>
                   match kv with
                   | (k, x) =>
                       match k with
                       | VStr s => quote ++ s ++ quote
                       | _ => quote ++ json_dumps k ++ quote
                       end ++ ": " ++ json_dumps x
                   end) d)
      ++ "}"
  end.

(** Modelled from the spec: the decoder of the structured-value codec
    ([json.loads]), restricted to the literals below; every other text
    is a decode failure. *)
Definition json_loads (s : string) : option value :=
  if String.eqb s "null" then Some VNone
  else if String.eqb s "true" then Some (VBool true)
  else if String.eqb s "false" then Some (VBool false)
  else if String.eqb s "0" then Some (VInt 0)
  else if String.eqb s "1" then Some (VInt 1)
  else if String.eqb s "[]" then Some (VList [])
  else if String.eqb s "{}" then Some (VDict [])
  else None.

End Sample.

(** ** Sample records *)

Definition gold_dataset : dict :=
  [ (VStr "name", VStr "Gold");
    (VStr "title", VStr "Gold Prices");
    (VStr "version", VStr "1.0");
    (VStr "notes", VStr "Monthly gold prices");
    (VStr "license_id", VStr "cc-by");
    (VStr "maintainer", VStr "Jane Doe");
    (VStr "tags", VList [VDict [(VStr "name", VStr "Big Data")]]);
    (VStr "extras",
     VList [VDict [(VStr "key", VStr "k"); (VStr "value", VStr "plain")]]);
    (VStr "resources",
     VList [VDict [(VStr "name", VStr "Data File");
                   (VStr "url", VStr "http://x/y.csv")]]) ].

Definition gold_resources : list Resource.t :=
  [ {| Resource.descriptor :=
         [(VStr "name", VStr "data-file"); (VStr "title", VStr "Data File")];
       Resource.local := false;
       Resource.remote := true;
       Resource.inline := false;
       Resource.source := VStr "http://x/y.csv" |} ].

(** ** Further shapes *)

(** The keys of a dataset made from a package. *)
Definition dataset_keys : list string :=
  [ "name"; "title"; "version"; "notes"; "license_id"; "license_title";
    "license_url"; "author"; "author_email"; "url"; "maintainer";
    "maintainer_email"; "tags"; "extras"; "resources" ].

(** The keys of a dataset-side resource made from a package-side one. *)
Definition ckan_resource_keys : list string :=
  [ "name"; "path"; "url"; "data"; "description"; "format"; "hash";
    "schema" ].

(** No upper-case letter. *)
Definition all_lower (s : string) : bool :=
  forallb (fun c => negb (is_upper c)) (list_ascii_of_string s).

(** The fields of a descriptor that [datapackage_to_dataset] does not
    know, in descriptor order. *)
Definition unknown_fields (descriptor : dict) : dict :=
  filter (fun kv => negb (in_known_fields (fst kv))) descriptor.

(** [isinstance(v, (dict, list))] *)
Definition is_structured (v : value) : bool :=
  match v with
  | VDict _ | VList _ => true
  | _ => false
  end.

(** What the de-duplicator may do to one resource: nothing, or a new
    [name]. *)
Definition renamed_or_same (r r' : dict) : Prop :=
  r' = r \/ exists v, r' = set_item (VStr "name") v r.

(** A parser whose partial result holds no falsy value. *)
Definition sets_truthy (parser : dict -> result dict) : Prop :=
  forall source partial k v,
    parser source = Ok partial -> lookup k partial = Some v ->
    truthy v = true.

(** A parser whose partial result holds no key twice. *)
Definition sets_distinct (parser : dict -> result dict) : Prop :=
  forall source partial, parser source = Ok partial -> distinct partial.

(** Every value of [d], the one under [name] apart, is truthy. *)
Definition truthy_but_name (d : dict) : Prop :=
  forall k v,
    lookup k d = Some v -> key_eqb k (VStr "name") = true \/ truthy v = true.

(** No whitespace character. *)
Definition no_space (s : string) : bool :=
  forallb (fun c => negb (isspace c)) (list_ascii_of_string s).

(** No whitespace at the start, at the end. *)
Definition starts_clean (s : string) : bool :=
  match s with
  | EmptyString => true
  | String c _ => negb (isspace c)
  end.

Definition ends_clean (s : string) : bool := starts_clean (str_rev s).

(** ** The de-duplicator, by counting

    The names a list of textual names comes out with, said without the
    loop: a name that occurred [c + 1] times before is followed by
    [str c], and a name that did not occur before is kept. *)
Fixpoint deduplicated (seen names : list string) : list string :=
  match names with
  | [] => []
  | s :: rest =>
      match count_occ string_dec seen s with
      | O => s
      | S c => s ++ str (Z.of_nat c)
      end :: deduplicated (s :: seen) rest
  end.

(** The counters of the loop hold, for every name, one less than the
    number of times it was seen. *)
Definition counts_seen (seen : list string) (names : list (value * Z))
  : Prop :=
  forall s,
    lookup (VStr s) names
    = match count_occ string_dec seen s with
      | O => None
      | S c => Some (Z.of_nat c)
      end.

(** * Properties *)

(** ** Character classes

    The two classes, listed: they are the code points below 256 that
    [str.lower] changes and that [str.isspace] accepts. *)

Example is_upper_class :
  filter (fun n => is_upper (ascii_of_nat n)) (seq 0 256)
  = (seq 65 26 ++ seq 192 23 ++ seq 216 7)%list.
Proof. reflexivity. Qed.

Example isspace_class :
  filter (fun n => isspace (ascii_of_nat n)) (seq 0 256)
  = [9; 10; 11; 12; 13; 28; 29; 30; 31; 32; 133; 160]%nat.
Proof. reflexivity. Qed.

Example lower_latin1 :
  lower (String (ascii_of_nat 201) "COLE") = String (ascii_of_nat 233) "cole".
Proof. reflexivity. Qed.

Example strip_nbsp :
  strip (String (ascii_of_nat 160) "Jane Doe") = "Jane Doe".
Proof. reflexivity. Qed.

(** The no-break space U+00A0 is stripped from a maintainer, and it ends
    the run of [\S] so that no email is matched across it. *)
Example author_nbsp :
  _datapackage_parse_author
    [(VStr "author", VStr (String (ascii_of_nat 160) "Jane Doe"))]
  = Ok [(VStr "maintainer", VStr "Jane Doe")].
Proof. reflexivity. Qed.

Example author_email_nbsp :
  _datapackage_parse_author
    [(VStr "author", VStr ("J <a" ++ String (ascii_of_nat 160) "b>"))]
  = Ok [(VStr "maintainer", VStr "J")].
Proof. reflexivity. Qed.

(** ** The error monad *)

Lemma bind_Ok_inv {A B : Type} (c : result A) (k : A -> result B) (b : B) :
  bind c k = Ok b -> exists a, c = Ok a /\ k a = Ok b.
Proof.
  destruct c as [a|e]; simpl; intros H.
  - exists a. split; [reflexivity | exact H].
  - discriminate H.
Qed.

Lemma map_result_total {A B : Type} (f : A -> result B) (g : A -> B) :
  forall xs, (forall x, In x xs -> f x = Ok (g x)) ->
             map_result f xs = Ok (map g xs).
Proof.
  induction xs as [|x xs IH]; simpl; intros H; [reflexivity|].
  rewrite (H x (or_introl eq_refl)). simpl.
  rewrite IH by (intros y Hy; apply H; right; exact Hy).
  reflexivity.
Qed.

Lemma map_result_Raise {A B : Type} (f : A -> result B) (e : exn) :
  forall xs, (exists x, In x xs /\ f x = Raise e) ->
             (forall x, In x xs -> f x = Raise e \/ exists y, f x = Ok y) ->
             map_result f xs = Raise e.
Proof.
  induction xs as [|x xs IH]; simpl; intros [x0 [Hin Hx0]] Hall.
  - contradiction.
  - destruct (Hall x (or_introl eq_refl)) as [Hr | [y Hy]].
    + rewrite Hr. reflexivity.
    + rewrite Hy. simpl.
      destruct Hin as [-> | Hin]; [congruence|].
      rewrite IH; [reflexivity | exists x0; auto | intros; apply Hall; auto].
Qed.

Lemma map_result_In {A B : Type} (f : A -> result B) :
  forall xs ys, map_result f xs = Ok ys ->
                forall x, In x xs -> exists y, f x = Ok y /\ In y ys.
Proof.
  induction xs as [|x0 xs IH]; simpl; intros ys H x Hin; [contradiction|].
  apply bind_Ok_inv in H. destruct H as [y0 [Hy0 H]].
  apply bind_Ok_inv in H. destruct H as [ys' [Hys H]].
  injection H as <-. destruct Hin as [<- | Hin].
  - exists y0. split; [exact Hy0 | left; reflexivity].
  - destruct (IH ys' Hys x Hin) as [y [Hy Hmem]].
    exists y. split; [exact Hy | right; exact Hmem].
Qed.

(** ** Keys and dicts *)

Lemma hkey_eqb_eq (a b : hkey) : hkey_eqb a b = true <-> a = b.
Proof.
  destruct a, b; simpl; split; intros H;
    try discriminate; try reflexivity.
  - apply Z.eqb_eq in H. congruence.
  - injection H as ->. apply Z.eqb_refl.
  - apply String.eqb_eq in H. congruence.
  - injection H as ->. apply String.eqb_refl.
Qed.

Lemma key_eqb_str (s t : string) : key_eqb (VStr s) (VStr t) = String.eqb s t.
Proof. reflexivity. Qed.

Lemma key_eqb_refl (k : value) :
  hash_key k <> None -> key_eqb k k = true.
Proof.
  unfold key_eqb. destruct (hash_key k) as [h|]; intros H.
  - apply hkey_eqb_eq. reflexivity.
  - contradiction.
Qed.

Lemma key_eqb_sym (a b : value) : key_eqb a b = key_eqb b a.
Proof.
  unfold key_eqb.
  destruct (hash_key a) as [x|], (hash_key b) as [y|]; try reflexivity.
  destruct (hkey_eqb x y) eqn:E.
  - apply hkey_eqb_eq in E. subst. symmetry. apply hkey_eqb_eq. reflexivity.
  - destruct (hkey_eqb y x) eqn:E'; [|reflexivity].
    apply hkey_eqb_eq in E'. subst.
    rewrite (proj2 (hkey_eqb_eq x x) eq_refl) in E. discriminate.
Qed.

(** Equal keys are interchangeable in a comparison. *)
Lemma key_eqb_trans (a b c : value) :
  key_eqb a b = true -> key_eqb c b = key_eqb c a.
Proof.
  unfold key_eqb.
  destruct (hash_key a) as [x|], (hash_key b) as [y|]; try discriminate.
  intros H. apply hkey_eqb_eq in H. subst. reflexivity.
Qed.

Lemma lookup_set_item {A : Type} (k k' : value) (v : A) :
  forall d, lookup k (set_item k' v d)
            = if key_eqb k k' then Some v else lookup k d.
Proof.
  induction d as [|[k0 v0] d IH]; simpl.
  - reflexivity.
  - destruct (key_eqb k' k0) eqn:E; simpl.
    + rewrite (key_eqb_trans k' k0 k E).
      destruct (key_eqb k k'); reflexivity.
    + rewrite IH. destruct (key_eqb k k0) eqn:E0; [|reflexivity].
      destruct (key_eqb k k') eqn:E1; [|reflexivity].
      rewrite (key_eqb_sym k' k0), (key_eqb_trans k k' k0 E1) in E.
      rewrite key_eqb_sym in E. congruence.
Qed.

Lemma lookup_set_item_str {A : Type} (k k' : string) (v : A) (d : list (value * A)) :
  lookup (VStr k) (set_item (VStr k') v d)
  = if String.eqb k k' then Some v else lookup (VStr k) d.
Proof. rewrite lookup_set_item. reflexivity. Qed.

(** A partial result that does not hold [k] leaves [k] as it was. *)
Lemma lookup_update_silent (k : value) :
  forall e d, lookup k e = None -> lookup k (update d e) = lookup k d.
Proof.
  unfold update.
  induction e as [|[k0 v0] e IH]; simpl; intros d H; [reflexivity|].
  destruct (key_eqb k k0) eqn:E; [discriminate|].
  rewrite IH by exact H. rewrite lookup_set_item, E. reflexivity.
Qed.

(** Under the guard [d.get(k)], the subscript [d[k]] finds the key. *)
Lemma item_of_truthy_get (d : dict) (k : value) :
  truthy (get d k) = true -> item d k = Ok (get d k).
Proof.
  unfold get, get_default, item.
  destruct (lookup k d); [reflexivity | discriminate].
Qed.

(** ** The name de-duplicator *)

Section Deduplicator.

Variable base : string.

(** Once [base] is registered with counter [c], a run of resources all
    named [base] is renamed [base ++ str c], [base ++ str (c + 1)], ...:
    each takes the counter as it stands and leaves it incremented. *)
Lemma ensure_unique_names_run :
  forall (rs : list dict) (names : list (value * Z)) (c : Z),
    (forall r, In r rs -> item r "name" = Ok (VStr base)) ->
    lookup (VStr base) names = Some c ->
    exists out,
      ensure_unique_names rs names = Ok out
      /\ map (fun r => get r "name") out
         = map (fun i => VStr (base ++ str (c + Z.of_nat i)))
             (seq 0 (List.length rs)).
Proof.
  induction rs as [|r rs IH]; intros names c Hall Hc.
  - exists []. split; reflexivity.
  - simpl ensure_unique_names.
    rewrite (Hall r (or_introl eq_refl)). simpl. rewrite Hc. simpl.
    destruct (IH (set_item (VStr base) (c + 1)%Z names) (c + 1)%Z)
      as [out [Hout Hnames]].
    + intros r' Hr'. apply Hall. right. exact Hr'.
    + rewrite lookup_set_item, key_eqb_refl by discriminate. reflexivity.
    + rewrite Hout. simpl. eexists. split; [reflexivity|].
      simpl. f_equal.
      * unfold get, get_default. rewrite lookup_set_item_str. simpl.
        now rewrite Z.add_0_r.
      * rewrite Hnames, <- seq_shift, map_map.
        apply map_ext. intros i. do 3 f_equal. lia.
Qed.

(** The first of them is left as it is and registers counter 0. *)
Lemma ensure_unique_names_same :
  forall (first : dict) (rest : list dict),
    (forall r, In r (first :: rest) -> item r "name" = Ok (VStr base)) ->
    exists out,
      ensure_unique_names (first :: rest) [] = Ok (first :: out)
      /\ map (fun r => get r "name") out
         = map (fun i => VStr (base ++ str (Z.of_nat i)))
             (seq 0 (List.length rest)).
Proof.
  intros first rest Hall. simpl ensure_unique_names.
  rewrite (Hall first (or_introl eq_refl)). simpl.
  destruct (ensure_unique_names_run rest [(VStr base, 0%Z)] 0%Z)
    as [out [Hout Hnames]].
  - intros r Hr. apply Hall. right. exact Hr.
  - simpl. rewrite key_eqb_refl by discriminate. reflexivity.
  - rewrite Hout. simpl. exists out. split; [reflexivity | exact Hnames].
Qed.

End Deduplicator.

(** C5. A dataset whose resources are three resources all named ["a"]
    (which slugify leaves as it is) converts to a package whose resources
    are named ["a"], ["a0"], ["a1"], in this order.  In general, of
    resources that all carry the same name the first keeps it and
    registers counter 0, and the i-th one after it (from 0) is renamed to
    the name followed by [str i], the counter read before its increment. *)
Theorem dedup_three_a :
  forall (slugify : string -> string) (json_loads : string -> option value)
         (n : value),
    slugify "a" = "a" ->
    (exists p,
        dataset_to_datapackage slugify json_loads
          [(VStr "name", n);
           (VStr "resources",
            VList [VDict [(VStr "name", VStr "a")];
                   VDict [(VStr "name", VStr "a")];
                   VDict [(VStr "name", VStr "a")]])] = Ok p
        /\ resource_names p = [VStr "a"; VStr "a0"; VStr "a1"])
    /\ (forall (base : string) (first : dict) (rest : list dict),
          (forall r, In r (first :: rest) -> item r "name" = Ok (VStr base)) ->
          exists out,
            ensure_unique_names (first :: rest) [] = Ok (first :: out)
            /\ map (fun r => get r "name") out
               = map (fun i => VStr (base ++ str (Z.of_nat i)))
                   (seq 0 (List.length rest))).
Proof.
  intros slugify json_loads n Hslug. split.
  - unfold dataset_to_datapackage, _convert_to_datapackage_resource.
    cbn. rewrite Hslug. cbn. eexists. split; reflexivity.
  - intros base. apply ensure_unique_names_same.
Qed.

Lemma dedup_three_a_witness :
  Sample.slugify "a" = "a"
  /\ exists p,
      dataset_to_datapackage Sample.slugify Sample.json_loads
        [(VStr "name", VStr "d");
         (VStr "resources",
          VList [VDict [(VStr "name", VStr "a")];
                 VDict [(VStr "name", VStr "a")];
                 VDict [(VStr "name", VStr "a")]])] = Ok p
      /\ resource_names p = [VStr "a"; VStr "a0"; VStr "a1"].
Proof.
  split; [reflexivity|].
  exact (proj1 (dedup_three_a Sample.slugify Sample.json_loads (VStr "d")
                  eq_refl)).
Defined.

(** C1. The de-duplicator does not make resource names unique: of three
    resources identified as ["a"], ["a"] and ["a0"] the second is renamed
    ["a0"], which is the name the third one keeps. *)
Theorem dedup_collision :
  forall (slugify : string -> string) (json_loads : string -> option value),
    exists p,
      dataset_to_datapackage slugify json_loads
        [(VStr "name", VStr "d");
         (VStr "resources",
          VList [VDict [(VStr "id", VStr "a")];
                 VDict [(VStr "id", VStr "a")];
                 VDict [(VStr "id", VStr "a0")]])] = Ok p
      /\ resource_names p = [VStr "a"; VStr "a0"; VStr "a0"]
      /\ ~ NoDup (resource_names p).
Proof.
  intros slugify json_loads. eexists. split; [reflexivity|].
  split; [reflexivity|].
  cbn. intros H. inversion H as [|x l Hnot Hrest]; subst.
  inversion Hrest as [|y l' Hnot' _]; subst.
  apply Hnot'. left. reflexivity.
Qed.

(** The same collision with resources that are named rather than
    identified, under the sample slugify. *)
Example dedup_collision_named :
  exists p,
    dataset_to_datapackage Sample.slugify Sample.json_loads
      [(VStr "name", VStr "d");
       (VStr "resources",
        VList [VDict [(VStr "name", VStr "a")];
               VDict [(VStr "name", VStr "a")];
               VDict [(VStr "name", VStr "a0")]])] = Ok p
    /\ resource_names p = [VStr "a"; VStr "a0"; VStr "a0"].
Proof. eexists. split; reflexivity. Qed.

(** C9. A dataset whose only key is [name] converts to a package with
    that one key and the same value. *)
Theorem name_only_dataset :
  forall (slugify : string -> string) (json_loads : string -> option value)
         (v : value),
    dataset_to_datapackage slugify json_loads [(VStr "name", v)]
    = Ok [(VStr "name", v)].
Proof. intros slugify json_loads v. reflexivity. Qed.

(** C10. A package whose descriptor has no [name] is not converted: the
    lookup of the name, the first thing the conversion does, raises
    [KeyError]. *)
Theorem descriptor_without_name :
  forall (slugify : string -> string) (json_dumps : value -> string)
         (datapackage : Package.t),
    lookup (VStr "name") (Package.descriptor datapackage) = None ->
    datapackage_to_dataset slugify json_dumps datapackage
    = Raise (KeyError (VStr "name")).
Proof.
  intros slugify json_dumps datapackage H.
  unfold datapackage_to_dataset, item. rewrite H. reflexivity.
Qed.

Lemma descriptor_without_name_witness :
  lookup (VStr "name") [(VStr "title", VStr "Gold prices")] = None
  /\ datapackage_to_dataset Sample.slugify Sample.json_dumps
       {| Package.descriptor := [(VStr "title", VStr "Gold prices")];
          Package.resources := [] |}
     = Raise (KeyError (VStr "name")).
Proof.
  split; [reflexivity|].
  apply (descriptor_without_name Sample.slugify Sample.json_dumps
           {| Package.descriptor := [(VStr "title", VStr "Gold prices")];
              Package.resources := [] |}).
  reflexivity.
Defined.

(** ** Guarded copies *)

Lemma lookup_copy_if (src : dict) (k a b : string) (dst : dict) :
  lookup (VStr k) (copy_if src a b dst)
  = if truthy (get src a) && String.eqb k b
    then Some (get src a)
    else lookup (VStr k) dst.
Proof.
  unfold copy_if. destruct (truthy (get src a)); simpl; [|reflexivity].
  apply lookup_set_item_str.
Qed.

(** ** Package-side resources *)

Lemma ckan_resource_unfold (r : Resource.t) :
  _datapackage_resource_to_ckan_resource r
  = let named := ckan_resource_name (Resource.descriptor r) in
    if Resource.local r then
      Ok (ckan_resource_tail (Resource.descriptor r)
            (set_item (VStr "path") (Resource.source r) named))
    else if Resource.remote r then
      Ok (ckan_resource_tail (Resource.descriptor r)
            (set_item (VStr "url") (Resource.source r) named))
    else if Resource.inline r then
      Ok (ckan_resource_tail (Resource.descriptor r)
            (set_item (VStr "data") (Resource.source r) named))
    else Raise NotImplementedError.
Proof.
  unfold _datapackage_resource_to_ckan_resource, ckan_resource_name,
    ckan_resource_tail, py_or.
  destruct (truthy (get (Resource.descriptor r) "name")) eqn:Hname.
  - destruct (truthy (get (Resource.descriptor r) "title")) eqn:Htitle.
    + cbn [bind].
      destruct (Resource.local r), (Resource.remote r), (Resource.inline r);
        reflexivity.
    + rewrite (item_of_truthy_get _ _ Hname). cbn [bind].
      destruct (Resource.local r), (Resource.remote r), (Resource.inline r);
        reflexivity.
  - cbn [bind].
    destruct (Resource.local r), (Resource.remote r), (Resource.inline r);
      reflexivity.
Qed.

Lemma lookup_ckan_resource_tail (descriptor : dict) (k : string) (d : dict) :
  String.eqb k "description" = false -> String.eqb k "format" = false ->
  String.eqb k "hash" = false -> String.eqb k "schema" = false ->
  lookup (VStr k) (ckan_resource_tail descriptor d) = lookup (VStr k) d.
Proof.
  intros H1 H2 H3 H4. unfold ckan_resource_tail.
  rewrite !lookup_copy_if, H1, H2, H3, H4, !andb_false_r. reflexivity.
Qed.

Lemma lookup_ckan_resource_name (descriptor : dict) (k : string) :
  String.eqb k "name" = false ->
  lookup (VStr k) (ckan_resource_name descriptor) = None.
Proof.
  intros H. unfold ckan_resource_name.
  destruct (truthy (get descriptor "name")); simpl; [|reflexivity].
  rewrite key_eqb_str, H. reflexivity.
Qed.

(** A resource converts unless it is in none of the three modes, and
    then the only exception is [NotImplementedError]. *)
Lemma ckan_resource_cases (r : Resource.t) :
  (supported r = true /\ exists out, _datapackage_resource_to_ckan_resource r = Ok out)
  \/ (supported r = false
      /\ _datapackage_resource_to_ckan_resource r = Raise NotImplementedError).
Proof.
  rewrite ckan_resource_unfold. unfold supported. cbv zeta.
  destruct (Resource.local r), (Resource.remote r), (Resource.inline r);
    simpl; eauto.
Qed.

Ltac tail_keys :=
  rewrite lookup_ckan_resource_tail by reflexivity;
  rewrite lookup_set_item_str; cbn [String.eqb Ascii.eqb Bool.eqb];
  try rewrite lookup_ckan_resource_name by reflexivity;
  reflexivity.

(** ** Dataset-side resources *)

Ltac resource_keys :=
  repeat first [ rewrite lookup_set_item_str | rewrite lookup_copy_if ];
  cbn [String.eqb Ascii.eqb Bool.eqb andb];
  rewrite ?andb_true_r, ?andb_false_r;
  try reflexivity.




(** ** Key sets and distinct keys *)

Lemma keys_in_nil (ks : list string) : keys_in ks [].
Proof. constructor. Qed.

Lemma keys_in_set_item (ks : list string) (s : string) (v : value) :
  In s ks -> forall d, keys_in ks d -> keys_in ks (set_item (VStr s) v d).
Proof.
  intros Hs. induction d as [|[k0 v0] d IH]; simpl; intros H.
  - constructor; [exists s; split; [reflexivity | exact Hs] | constructor].
  - inversion H as [|x l Hx Hl]; subst.
    destruct (key_eqb (VStr s) k0); constructor;
      try exact Hx; try exact Hl; apply IH; exact Hl.
Qed.

Lemma keys_in_copy_if (ks : list string) (src : dict) (a b : string) (d : dict) :
  In b ks -> keys_in ks d -> keys_in ks (copy_if src a b d).
Proof.
  intros Hb Hd. unfold copy_if.
  destruct (truthy (get src a)); [apply keys_in_set_item|]; assumption.
Qed.

Lemma keys_in_incl (ks ks' : list string) (d : dict) :
  incl ks ks' -> keys_in ks d -> keys_in ks' d.
Proof.
  intros Hincl H. unfold keys_in in *. rewrite Forall_forall in *.
  intros kv Hkv. destruct (H kv Hkv) as [s [Hs Hin]].
  exists s. split; [exact Hs | apply Hincl; exact Hin].
Qed.

Lemma keys_in_update (ks : list string) :
  forall e d, keys_in ks e -> keys_in ks d -> keys_in ks (update d e).
Proof.
  unfold update. induction e as [|[k v] e IH]; simpl; intros d He Hd.
  - exact Hd.
  - inversion He as [|x l [s [Hs Hin]] Hl]; subst. simpl in Hs. subst k.
    apply IH; [exact Hl | apply keys_in_set_item; assumption].
Qed.

Lemma keys_in_lookup (ks : list string) (k : string) :
  forall d, keys_in ks d -> ~ In k ks -> lookup (VStr k) d = None.
Proof.
  induction d as [|[k0 v0] d IH]; simpl; intros H Hk; [reflexivity|].
  inversion H as [|x l [s [Hs Hin]] Hl]; subst. simpl in Hs. subst k0.
  rewrite key_eqb_str. destruct (String.eqb k s) eqn:E.
  - apply String.eqb_eq in E. subst. contradiction.
  - apply IH; assumption.
Qed.

Lemma emits_silent (ks : list string) (k : string) (parser : dict -> result dict) :
  emits ks parser -> ~ In k ks -> silent_on (VStr k) parser.
Proof.
  intros He Hk source partial Hp.
  apply (keys_in_lookup ks); [apply (He source); exact Hp | exact Hk].
Qed.

Lemma lookup_key_eqb {A : Type} (k k' : value) :
  key_eqb k k' = true ->
  forall d : list (value * A), lookup k d = lookup k' d.
Proof.
  intros E. induction d as [|[k0 v0] d IH]; simpl; [reflexivity|].
  rewrite (key_eqb_sym k k0), (key_eqb_sym k' k0).
  rewrite (key_eqb_trans k k' k0 E), IH. reflexivity.
Qed.

Lemma distinct_set_item (k v : value) :
  forall d, distinct d -> distinct (set_item k v d).
Proof.
  induction d as [|[k0 v0] d IH]; simpl; intros H.
  - split; [reflexivity | exact I].
  - destruct H as [Hk0 Hd]. destruct (key_eqb k k0) eqn:E; simpl.
    + split; assumption.
    + split; [|apply IH; exact Hd].
      rewrite lookup_set_item, key_eqb_sym, E. exact Hk0.
Qed.

Lemma distinct_copy_if (src : dict) (a b : string) (d : dict) :
  distinct d -> distinct (copy_if src a b d).
Proof.
  intros H. unfold copy_if.
  destruct (truthy (get src a)); [apply distinct_set_item|]; exact H.
Qed.

Lemma distinct_update :
  forall e d, distinct d -> distinct (update d e).
Proof.
  unfold update. induction e as [|[k v] e IH]; simpl; intros d H.
  - exact H.
  - apply IH, distinct_set_item, H.
Qed.

(** [d.update(e)] read key by key. *)
Lemma lookup_update (k : value) :
  forall e d, distinct e ->
              lookup k (update d e)
              = match lookup k e with
                | Some v => Some v
                | None => lookup k d
                end.
Proof.
  unfold update. induction e as [|[k0 v0] e IH]; simpl; intros d H.
  - reflexivity.
  - destruct H as [Hk0 He]. rewrite (IH _ He), lookup_set_item.
    destruct (key_eqb k k0) eqn:E; [|reflexivity].
    rewrite (lookup_key_eqb k k0 E), Hk0. reflexivity.
Qed.

(** ** Running a parser list *)

Lemma run_parsers_cons (parser : dict -> result dict) rest source acc out :
  run_parsers (parser :: rest) source acc = Ok out ->
  exists partial,
    parser source = Ok partial
    /\ run_parsers rest source (update acc partial) = Ok out.
Proof. simpl. apply bind_Ok_inv. Qed.

Lemma run_parsers_silent (k : value) :
  forall parsers source acc out,
    Forall (silent_on k) parsers ->
    run_parsers parsers source acc = Ok out ->
    lookup k out = lookup k acc.
Proof.
  induction parsers as [|p ps IH]; intros source acc out Hs H.
  - simpl in H. injection H as <-. reflexivity.
  - inversion Hs as [|x l Hp Hps]; subst.
    apply run_parsers_cons in H. destruct H as [partial [Hpart H]].
    rewrite (IH _ _ _ Hps H).
    apply lookup_update_silent, (Hp source), Hpart.
Qed.

(** The one parser of a list that sets [k] decides [k]. *)
Lemma run_parsers_emitter (k : value) :
  forall before parser after source acc out,
    Forall (silent_on k) before ->
    Forall (silent_on k) after ->
    run_parsers (before ++ parser :: after) source acc = Ok out ->
    exists partial,
      parser source = Ok partial
      /\ (distinct partial ->
          lookup k out = match lookup k partial with
                         | Some v => Some v
                         | None => lookup k acc
                         end).
Proof.
  induction before as [|p ps IH]; intros parser after source acc out Hb Ha H.
  - simpl app in H. apply run_parsers_cons in H.
    destruct H as [partial [Hpart H]]. exists partial.
    split; [exact Hpart|]. intros Hd.
    rewrite (run_parsers_silent k _ _ _ _ Ha H). apply lookup_update, Hd.
  - inversion Hb as [|x l Hp Hps]; subst.
    simpl app in H. apply run_parsers_cons in H.
    destruct H as [partial0 [Hpart0 H]].
    destruct (IH _ _ _ _ _ Hps Ha H) as [partial [Hpart Hlook]].
    exists partial. split; [exact Hpart|]. intros Hd.
    rewrite (Hlook Hd).
    rewrite (lookup_update_silent k partial0 acc (Hp _ _ Hpart0)).
    reflexivity.
Qed.

Lemma run_parsers_keys_in (ks : list string) :
  forall parsers source acc out,
    Forall (emits ks) parsers -> keys_in ks acc ->
    run_parsers parsers source acc = Ok out -> keys_in ks out.
Proof.
  induction parsers as [|p ps IH]; intros source acc out He Hacc H.
  - simpl in H. injection H as <-. exact Hacc.
  - inversion He as [|x l Hp Hps]; subst.
    apply run_parsers_cons in H. destruct H as [partial [Hpart H]].
    apply (IH _ _ _ Hps) in H; [exact H|].
    apply keys_in_update; [apply (Hp source), Hpart | exact Hacc].
Qed.

Lemma run_parsers_distinct :
  forall parsers source acc out,
    distinct acc -> run_parsers parsers source acc = Ok out -> distinct out.
Proof.
  induction parsers as [|p ps IH]; intros source acc out Hacc H.
  - simpl in H. injection H as <-. exact Hacc.
  - apply run_parsers_cons in H. destruct H as [partial [_ H]].
    apply (IH _ _ _ (distinct_update _ _ Hacc) H).
Qed.

(** A list of parsers that cannot raise runs to the end. *)
Lemma run_parsers_total :
  forall parsers source acc,
    Forall (fun parser => exists partial, parser source = Ok partial) parsers ->
    exists out, run_parsers parsers source acc = Ok out.
Proof.
  induction parsers as [|p ps IH]; intros source acc H.
  - exists acc. reflexivity.
  - inversion H as [|x l [partial Hp] Hps]; subst.
    simpl. rewrite Hp. simpl. apply IH, Hps.
Qed.

(** ** What each parser can set *)

Ltac invert_ok :=
  repeat match goal with
    | H : Ok _ = Ok _ |- _ => injection H as H; try subst
    | H : Raise _ = Ok _ |- _ => discriminate H
    | H : bind _ _ = Ok _ |- _ =>
        apply bind_Ok_inv in H; destruct H as [? [? H]]
    | H : (if ?b then _ else _) = Ok _ |- _ => destruct b eqn:?
    | H : match ?x with _ => _ end = Ok _ |- _ => destruct x eqn:?
    end.

Ltac split_ifs :=
  repeat match goal with
    | |- context [if ?b then _ else _] => destruct b
    end.

Ltac keys_tac :=
  repeat first
    [ apply keys_in_nil
    | apply keys_in_copy_if; [simpl; tauto|]
    | apply keys_in_set_item; [simpl; tauto|]
    | constructor; [eexists; split; [reflexivity | simpl; tauto]|] ].

Ltac distinct_tac :=
  repeat first
    [ exact I
    | apply distinct_copy_if
    | apply distinct_set_item
    | split; [reflexivity|] ].

Lemma emits_rename (a b : string) : emits [b] (_rename_dict_key a b).
Proof.
  intros source partial H. unfold _rename_dict_key in H.
  invert_ok. keys_tac.
Qed.

Lemma emits_parse_ckan_url : emits ["homepage"] _parse_ckan_url.
Proof.
  intros source partial H. unfold _parse_ckan_url in H.
  invert_ok. keys_tac.
Qed.

Lemma emits_parse_notes : emits ["description"] _parse_notes.
Proof.
  intros source partial H. unfold _parse_notes in H.
  invert_ok. keys_tac.
Qed.

Lemma emits_parse_license : emits ["license"] _parse_license.
Proof.
  intros source partial H. unfold _parse_license in H.
  invert_ok; keys_tac.
Qed.

Lemma emits_parse_author_and_source :
  emits ["sources"] _parse_author_and_source.
Proof.
  intros source partial H. unfold _parse_author_and_source in H.
  invert_ok; keys_tac.
Qed.

Lemma emits_parse_maintainer : emits ["author"] _parse_maintainer.
Proof.
  intros source partial H. unfold _parse_maintainer in H.
  invert_ok; keys_tac.
Qed.

Lemma emits_parse_tags : emits ["keywords"] _parse_tags.
Proof.
  intros source partial H. unfold _parse_tags in H.
  invert_ok; keys_tac.
Qed.

Lemma emits_parse_extras (json_loads : string -> option value) :
  emits ["extras"] (_parse_extras json_loads).
Proof.
  intros source partial H. unfold _parse_extras in H.
  invert_ok; keys_tac.
Qed.

Lemma emits_datapackage_parse_license :
  emits ["license_id"; "license_title"; "license_url"]
    _datapackage_parse_license.
Proof.
  intros source partial H. unfold _datapackage_parse_license in H.
  invert_ok; keys_tac.
Qed.

Lemma emits_datapackage_parse_sources :
  emits ["author"; "author_email"; "url"] _datapackage_parse_sources.
Proof.
  intros source partial H. unfold _datapackage_parse_sources in H.
  invert_ok; split_ifs; keys_tac.
Qed.

Lemma emits_datapackage_parse_author :
  emits ["maintainer"; "maintainer_email"] _datapackage_parse_author.
Proof.
  intros source partial H. unfold _datapackage_parse_author in H.
  invert_ok; split_ifs; keys_tac.
Qed.

Lemma emits_datapackage_parse_keywords (slugify : string -> string) :
  emits ["tags"] (_datapackage_parse_keywords slugify).
Proof.
  intros source partial H. unfold _datapackage_parse_keywords in H.
  invert_ok; keys_tac.
Qed.

Lemma emits_datapackage_parse_unknown (json_dumps : value -> string) :
  emits ["extras"] (_datapackage_parse_unknown_fields_as_extras json_dumps).
Proof.
  intros source partial H.
  unfold _datapackage_parse_unknown_fields_as_extras in H.
  invert_ok; keys_tac.
Qed.

Create HintDb emitters.
#[local] Hint Resolve emits_rename emits_parse_ckan_url emits_parse_notes
  emits_parse_license emits_parse_author_and_source emits_parse_maintainer
  emits_parse_tags emits_parse_extras emits_datapackage_parse_license
  emits_datapackage_parse_sources emits_datapackage_parse_author
  emits_datapackage_parse_keywords emits_datapackage_parse_unknown : emitters.

Ltac not_in_keys := simpl; intuition discriminate.

Ltac silent_tac :=
  repeat (apply Forall_cons;
          [eapply emits_silent; [solve [eauto with emitters] | not_in_keys]|]);
  apply Forall_nil.

(** ** A key of the returned dataset is the key its parser set *)

Section DatasetKeys.

Variable slugify : string -> string.
Variable json_dumps : value -> string.

Lemma datapackage_to_dataset_inv (datapackage : Package.t) (out : dict) :
  datapackage_to_dataset slugify json_dumps datapackage = Ok out ->
  exists n acc,
    lookup (VStr "name") (Package.descriptor datapackage) = Some (VStr n)
    /\ run_parsers (datapackage_parsers slugify json_dumps)
         (Package.descriptor datapackage)
         [(VStr "name", VStr (lower n))] = Ok acc
    /\ forall k, String.eqb k "resources" = false ->
                 lookup (VStr k) out = lookup (VStr k) acc.
Proof.
  unfold datapackage_to_dataset, item, py_lower. intros H.
  destruct (lookup (VStr "name") (Package.descriptor datapackage))
    as [v|]; [|discriminate H].
  cbn [bind] in H. destruct v; try discriminate H. cbn [bind] in H.
  apply bind_Ok_inv in H. destruct H as [acc [Hacc H]].
  exists s, acc. split; [reflexivity|]. split; [exact Hacc|].
  intros k Hk. destruct (Package.resources datapackage).
  - injection H as <-. reflexivity.
  - apply bind_Ok_inv in H. destruct H as [rs [_ H]]. injection H as <-.
    rewrite lookup_set_item_str, Hk. reflexivity.
Qed.

(** With [parser] the only one of the list that sets [k], and [k]
    neither [name] nor [resources], the dataset has [k] as [parser]
    left it. *)
Lemma dataset_key_of_parser (k : string) before parser after
  (datapackage : Package.t) (out : dict) :
  datapackage_parsers slugify json_dumps
  = (before ++ parser :: after)%list ->
  Forall (silent_on (VStr k)) before ->
  Forall (silent_on (VStr k)) after ->
  String.eqb k "name" = false -> String.eqb k "resources" = false ->
  datapackage_to_dataset slugify json_dumps datapackage = Ok out ->
  exists partial,
    parser (Package.descriptor datapackage) = Ok partial
    /\ (distinct partial ->
        lookup (VStr k) out = lookup (VStr k) partial).
Proof.
  intros Hsplit Hb Ha Hname Hres H.
  apply datapackage_to_dataset_inv in H.
  destruct H as [n [acc [_ [Hacc Hout]]]].
  rewrite Hsplit in Hacc.
  destruct (run_parsers_emitter (VStr k) _ _ _ _ _ _ Hb Ha Hacc)
    as [partial [Hpart Hlook]].
  exists partial. split; [exact Hpart|]. intros Hd.
  rewrite (Hout k Hres), (Hlook Hd). simpl. rewrite key_eqb_str, Hname.
  destruct (lookup (VStr k) partial); reflexivity.
Qed.

End DatasetKeys.

(** ** The license *)

Lemma distinct_datapackage_parse_license (d partial : dict) :
  _datapackage_parse_license d = Ok partial -> distinct partial.
Proof.
  unfold _datapackage_parse_license. intros H. invert_ok; distinct_tac.
Qed.

Lemma dataset_license_keys (slugify : string -> string)
  (json_dumps : value -> string) (datapackage : Package.t) (out : dict) :
  datapackage_to_dataset slugify json_dumps datapackage = Ok out ->
  exists partial,
    _datapackage_parse_license (Package.descriptor datapackage) = Ok partial
    /\ lookup (VStr "license_id") out = lookup (VStr "license_id") partial
    /\ lookup (VStr "license_title") out = lookup (VStr "license_title") partial
    /\ lookup (VStr "license_url") out = lookup (VStr "license_url") partial.
Proof.
  intros H.
  pose proof (fun k Hb Ha Hn Hr =>
    dataset_key_of_parser slugify json_dumps k
      [ _rename_dict_key "title" "title";
        _rename_dict_key "version" "version";
        _rename_dict_key "description" "notes" ]
      _datapackage_parse_license
      [ _datapackage_parse_sources;
        _datapackage_parse_author;
        _datapackage_parse_keywords slugify;
        _datapackage_parse_unknown_fields_as_extras json_dumps ]
      datapackage out eq_refl Hb Ha Hn Hr H) as Hkey.
  destruct (Hkey "license_id") as [partial [Hp H1]];
    [silent_tac | silent_tac | reflexivity | reflexivity |].
  destruct (Hkey "license_title") as [partial2 [Hp2 H2]];
    [silent_tac | silent_tac | reflexivity | reflexivity |].
  destruct (Hkey "license_url") as [partial3 [Hp3 H3]];
    [silent_tac | silent_tac | reflexivity | reflexivity |].
  rewrite Hp in Hp2, Hp3. injection Hp2 as <-. injection Hp3 as <-.
  pose proof (distinct_datapackage_parse_license _ _ Hp) as Hd.
  exists partial. auto.
Qed.

(** C3, as the code has it.  A license that is a non-empty string gives
    [license_id], equal to it, and nothing else.  A license that is a
    non-empty mapping in which [title] and [url] are both set or both
    unset gives [license_id] from [type], [license_title] from [title]
    and [license_url] from [url], each only when set.  The returned
    dataset has these three keys exactly as the license parser set them. *)
Theorem license_mapping :
  forall (slugify : string -> string) (json_dumps : value -> string)
         (datapackage : Package.t),
    (forall s,
        get (Package.descriptor datapackage) "license" = VStr s -> s <> "" ->
        _datapackage_parse_license (Package.descriptor datapackage)
        = Ok [(VStr "license_id", VStr s)])
    /\ (forall l,
          get (Package.descriptor datapackage) "license" = VDict l ->
          l <> [] ->
          truthy (get l "title") = truthy (get l "url") ->
          exists partial,
            _datapackage_parse_license (Package.descriptor datapackage)
            = Ok partial
            /\ lookup (VStr "license_id") partial
               = (if truthy (get l "type") then Some (get l "type") else None)
            /\ lookup (VStr "license_title") partial
               = (if truthy (get l "title") then Some (get l "title") else None)
            /\ lookup (VStr "license_url") partial
               = (if truthy (get l "url") then Some (get l "url") else None))
    /\ (forall out,
          datapackage_to_dataset slugify json_dumps datapackage = Ok out ->
          exists partial,
            _datapackage_parse_license (Package.descriptor datapackage)
            = Ok partial
            /\ lookup (VStr "license_id") out
               = lookup (VStr "license_id") partial
            /\ lookup (VStr "license_title") out
               = lookup (VStr "license_title") partial
            /\ lookup (VStr "license_url") out
               = lookup (VStr "license_url") partial).
Proof.
  intros slugify json_dumps datapackage. split; [|split].
  - intros s Hs Hne. unfold _datapackage_parse_license. rewrite Hs.
    simpl truthy. apply String.eqb_neq in Hne. rewrite Hne. reflexivity.
  - intros l Hl Hne Hboth. unfold _datapackage_parse_license. rewrite Hl.
    destruct l as [|entry l']; [contradiction|]. cbn [truthy].
    set (license := entry :: l') in *.
    destruct (truthy (get license "title")) eqn:Htitle.
    + symmetry in Hboth. rewrite (item_of_truthy_get _ _ Hboth), Hboth.
      cbn [bind]. eexists. split; [reflexivity|].
      repeat split; resource_keys. rewrite Htitle. reflexivity.
    + rewrite <- Hboth. eexists. split; [reflexivity|].
      repeat split; resource_keys. rewrite Htitle. reflexivity.
  - apply dataset_license_keys.
Qed.

Lemma license_mapping_witness :
  exists partial,
    _datapackage_parse_license
      [(VStr "name", VStr "gold");
       (VStr "license",
        VDict [(VStr "type", VStr "cc-by"); (VStr "title", VStr "CC BY 4.0");
               (VStr "url", VStr "http://cc.org/by")])] = Ok partial
    /\ lookup (VStr "license_id") partial = Some (VStr "cc-by")
    /\ lookup (VStr "license_title") partial = Some (VStr "CC BY 4.0")
    /\ lookup (VStr "license_url") partial = Some (VStr "http://cc.org/by").
Proof.
  exact (proj1 (proj2 (license_mapping Sample.slugify Sample.json_dumps
    {| Package.descriptor :=
         [(VStr "name", VStr "gold");
          (VStr "license",
           VDict [(VStr "type", VStr "cc-by");
                  (VStr "title", VStr "CC BY 4.0");
                  (VStr "url", VStr "http://cc.org/by")])];
       Package.resources := [] |}))
    [(VStr "type", VStr "cc-by"); (VStr "title", VStr "CC BY 4.0");
     (VStr "url", VStr "http://cc.org/by")]
    eq_refl ltac:(discriminate) eq_refl).
Defined.

(** C3 as stated fails twice: the [license_url] of the dataset is the
    [url] of the license object and not its [title], and an empty string
    license gives no [license_id]. *)
Lemma license_url_counterexample :
  (exists out,
      datapackage_to_dataset Sample.slugify Sample.json_dumps
        {| Package.descriptor :=
             [(VStr "name", VStr "gold");
              (VStr "license",
               VDict [(VStr "type", VStr "cc-by");
                      (VStr "title", VStr "CC BY 4.0");
                      (VStr "url", VStr "http://cc.org/by")])];
           Package.resources := [] |} = Ok out
      /\ lookup (VStr "license_url") out = Some (VStr "http://cc.org/by")
      /\ lookup (VStr "license_url") out <> Some (VStr "CC BY 4.0"))
  /\ (exists out,
         datapackage_to_dataset Sample.slugify Sample.json_dumps
           {| Package.descriptor :=
                [(VStr "name", VStr "gold"); (VStr "license", VStr "")];
              Package.resources := [] |} = Ok out
         /\ lookup (VStr "license_id") out = None
         /\ lookup (VStr "license_id") out <> Some (VStr "")).
Proof.
  split; eexists; (split; [reflexivity|]); split;
    try reflexivity; discriminate.
Qed.

(** ** The author *)

Lemma span_not_lt_no_lt :
  forall s, no_lt s = true -> span_not_lt s = (s, EmptyString).
Proof.
  unfold no_lt. induction s as [|c t IH]; simpl; intros H; [reflexivity|].
  apply andb_true_iff in H. destruct H as [Hc Ht].
  apply negb_true_iff in Hc. rewrite Hc, (IH Ht). reflexivity.
Qed.

Lemma author_re_match_no_lt (s : string) :
  s <> "" -> no_lt s = true ->
  author_re_match s = Some {| group_name := s; group_email := None |}.
Proof.
  intros Hne Hno. unfold author_re_match.
  rewrite (span_not_lt_no_lt s Hno).
  destruct s; [contradiction | reflexivity].
Qed.

Lemma distinct_datapackage_parse_author (d partial : dict) :
  _datapackage_parse_author d = Ok partial -> distinct partial.
Proof.
  unfold _datapackage_parse_author. intros H.
  invert_ok; split_ifs; distinct_tac.
Qed.

Lemma dataset_author_keys (slugify : string -> string)
  (json_dumps : value -> string) (datapackage : Package.t) (out : dict) :
  datapackage_to_dataset slugify json_dumps datapackage = Ok out ->
  exists partial,
    _datapackage_parse_author (Package.descriptor datapackage) = Ok partial
    /\ lookup (VStr "maintainer") out = lookup (VStr "maintainer") partial
    /\ lookup (VStr "maintainer_email") out
       = lookup (VStr "maintainer_email") partial.
Proof.
  intros H.
  pose proof (fun k Hb Ha Hn Hr =>
    dataset_key_of_parser slugify json_dumps k
      [ _rename_dict_key "title" "title";
        _rename_dict_key "version" "version";
        _rename_dict_key "description" "notes";
        _datapackage_parse_license;
        _datapackage_parse_sources ]
      _datapackage_parse_author
      [ _datapackage_parse_keywords slugify;
        _datapackage_parse_unknown_fields_as_extras json_dumps ]
      datapackage out eq_refl Hb Ha Hn Hr H) as Hkey.
  destruct (Hkey "maintainer") as [partial [Hp H1]];
    [silent_tac | silent_tac | reflexivity | reflexivity |].
  destruct (Hkey "maintainer_email") as [partial2 [Hp2 H2]];
    [silent_tac | silent_tac | reflexivity | reflexivity |].
  rewrite Hp in Hp2. injection Hp2 as <-.
  pose proof (distinct_datapackage_parse_author _ _ Hp) as Hd.
  exists partial. auto.
Qed.

(** C8, as the code has it.  The author ["Jane Doe <jane@x.org>"] gives
    [maintainer] ["Jane Doe"] and [maintainer_email] ["jane@x.org"].  A
    non-empty author string without any ['<'] gives [maintainer], equal
    to the string stripped of surrounding whitespace, and nothing else.
    The returned dataset has these two keys exactly as the author parser
    set them. *)
Theorem author_string :
  forall (slugify : string -> string) (json_dumps : value -> string)
         (datapackage : Package.t),
    (get (Package.descriptor datapackage) "author"
     = VStr "Jane Doe <jane@x.org>" ->
     _datapackage_parse_author (Package.descriptor datapackage)
     = Ok [(VStr "maintainer", VStr "Jane Doe");
           (VStr "maintainer_email", VStr "jane@x.org")])
    /\ (forall s,
          get (Package.descriptor datapackage) "author" = VStr s ->
          s <> "" -> no_lt s = true ->
          _datapackage_parse_author (Package.descriptor datapackage)
          = Ok [(VStr "maintainer", VStr (strip s))])
    /\ (forall out,
          datapackage_to_dataset slugify json_dumps datapackage = Ok out ->
          exists partial,
            _datapackage_parse_author (Package.descriptor datapackage)
            = Ok partial
            /\ lookup (VStr "maintainer") out
               = lookup (VStr "maintainer") partial
            /\ lookup (VStr "maintainer_email") out
               = lookup (VStr "maintainer_email") partial).
Proof.
  intros slugify json_dumps datapackage. split; [|split].
  - intros H. unfold _datapackage_parse_author. rewrite H. reflexivity.
  - intros s Hs Hne Hno. unfold _datapackage_parse_author. rewrite Hs.
    simpl truthy. rewrite (author_re_match_no_lt s Hne Hno).
    apply String.eqb_neq in Hne. rewrite Hne. cbn. rewrite Hne. reflexivity.
  - apply dataset_author_keys.
Qed.

Lemma author_string_witness :
  _datapackage_parse_author
    [(VStr "name", VStr "gold"); (VStr "author", VStr "  Jane Doe ")]
  = Ok [(VStr "maintainer", VStr "Jane Doe")].
Proof.
  exact (proj1 (proj2 (author_string Sample.slugify Sample.json_dumps
    {| Package.descriptor :=
         [(VStr "name", VStr "gold"); (VStr "author", VStr "  Jane Doe ")];
       Package.resources := [] |}))
    "  Jane Doe " eq_refl ltac:(discriminate) eq_refl).
Defined.

(** C8 as stated fails twice: an author with a ['<'] that opens no
    [<...>] group loses everything from the ['<'] on, and an empty
    author string gives no [maintainer]. *)
Lemma author_string_counterexample :
  (exists out,
      datapackage_to_dataset Sample.slugify Sample.json_dumps
        {| Package.descriptor :=
             [(VStr "name", VStr "gold"); (VStr "author", VStr "a < b")];
           Package.resources := [] |} = Ok out
      /\ lookup (VStr "maintainer") out = Some (VStr "a")
      /\ lookup (VStr "maintainer") out <> Some (VStr (strip "a < b")))
  /\ (exists out,
         datapackage_to_dataset Sample.slugify Sample.json_dumps
           {| Package.descriptor :=
                [(VStr "name", VStr "gold"); (VStr "author", VStr "")];
              Package.resources := [] |} = Ok out
         /\ lookup (VStr "maintainer") out = None
         /\ lookup (VStr "maintainer") out <> Some (VStr (strip ""))).
Proof.
  split; eexists; (split; [reflexivity|]); split;
    try reflexivity; discriminate.
Qed.

(** C4. Conversions fail in other ways than by a missing [name] or an
    unsupported storage mode: a license object with a [title] and no
    [url] raises [KeyError] on [url], an author string that starts with
    ['<'] raises [AttributeError] (the pattern does not match and the
    missing match is used), and a dataset resource with neither [name]
    nor [id] raises [KeyError] on [id]. *)
Theorem other_failures :
  forall (slugify : string -> string) (json_loads : string -> option value)
         (json_dumps : value -> string),
    datapackage_to_dataset slugify json_dumps
      {| Package.descriptor :=
           [(VStr "name", VStr "gold");
            (VStr "license", VDict [(VStr "title", VStr "CC BY 4.0")])];
         Package.resources := [] |}
    = Raise (KeyError (VStr "url"))
    /\ datapackage_to_dataset slugify json_dumps
         {| Package.descriptor :=
              [(VStr "name", VStr "gold");
               (VStr "author", VStr "<jane@x.org>")];
            Package.resources := [] |}
       = Raise AttributeError
    /\ dataset_to_datapackage slugify json_loads
         [(VStr "name", VStr "gold");
          (VStr "resources",
           VList [VDict [(VStr "url", VStr "http://x/y.csv")]])]
       = Raise (KeyError (VStr "id")).
Proof. intros slugify json_loads json_dumps. repeat split. Qed.

(** ** From a dataset to a package and back *)

Lemma map_result_exists {A B : Type} (f : A -> result B) (P : B -> Prop) :
  forall xs,
    (forall x, In x xs -> exists y, f x = Ok y /\ P y) ->
    exists ys, map_result f xs = Ok ys /\ Forall P ys.
Proof.
  induction xs as [|x xs IH]; simpl; intros H.
  - exists []. split; [reflexivity | constructor].
  - destruct (H x (or_introl eq_refl)) as [y [Hy HP]].
    destruct IH as [ys [Hys HPs]]; [intros x' Hx'; apply H; right; exact Hx'|].
    exists (y :: ys). rewrite Hy, Hys. split; [reflexivity|].
    constructor; assumption.
Qed.

Lemma py_dict_total :
  forall pairs acc,
    Forall (fun kv => hash_key (fst kv) <> None) pairs ->
    py_dict pairs acc = Ok (update acc pairs).
Proof.
  induction pairs as [|[k v] pairs IH]; simpl; intros acc H.
  - reflexivity.
  - inversion H as [|x l Hk Hl]; subst. simpl in Hk.
    destruct (hash_key k); [|contradiction]. apply IH, Hl.
Qed.

Lemma parse_tags_ready (d : dict) :
  tags_ok d = true ->
  _parse_tags d
  = Ok match dataset_tags d with
       | [] => []
       | tags => [(VStr "keywords", VList (map tag_name tags))]
       end.
Proof.
  unfold tags_ok, dataset_tags, _parse_tags.
  destruct (get_default d "tags" (VList [])) as [| | | |tags|];
    try discriminate.
  intros H. cbn [iter bind].
  rewrite (map_result_total _ tag_name).
  - cbn [bind]. destruct tags; reflexivity.
  - intros tag Hin. rewrite forallb_forall in H. specialize (H tag Hin).
    destruct tag as [| | | | |t]; try discriminate H. simpl in H |- *.
    unfold item, get, get_default.
    destruct (lookup (VStr "name") t); [reflexivity | discriminate H].
Qed.

Lemma parse_extras_ready (json_loads : string -> option value) (d : dict) :
  extras_ok d = true ->
  _parse_extras json_loads d
  = Ok match dataset_extras d with
       | [] => []
       | _ => [(VStr "extras", VDict (decoded_extras json_loads d))]
       end.
Proof.
  unfold extras_ok, decoded_extras, dataset_extras, _parse_extras.
  destruct (get_default d "extras" (VList [])) as [| | | |extras|];
    try discriminate.
  intros H. cbn [iter bind].
  rewrite (map_result_total _ extra_pair).
  - cbn [bind]. destruct extras as [|e extras]; [reflexivity|].
    rewrite map_map.
    set (pairs := map _ (e :: extras)).
    assert (Hp : pairs <> []) by discriminate.
    rewrite py_dict_total.
    + destruct pairs; [contradiction | reflexivity].
    + subst pairs. rewrite Forall_map, Forall_forall. intros x Hx.
      rewrite forallb_forall in H. specialize (H x Hx).
      destruct x as [| | | | |t]; try discriminate H. simpl in H |- *.
      unfold get, get_default.
      destruct (lookup (VStr "key") t) as [k|]; [|discriminate H].
      destruct (lookup (VStr "value") t); [|discriminate H].
      destruct (hash_key k); [discriminate | discriminate H].
  - intros extra Hin. rewrite forallb_forall in H. specialize (H extra Hin).
    destruct extra as [| | | | |t]; try discriminate H. simpl in H |- *.
    unfold item, get, get_default.
    destruct (lookup (VStr "key") t) as [k|]; [|discriminate H].
    destruct (lookup (VStr "value") t); [reflexivity | discriminate H].
Qed.

Lemma convert_resource_ready (slugify : string -> string)
  (json_loads : string -> option value) (r : value) :
  is_resource r = true ->
  exists out,
    _convert_to_datapackage_resource slugify json_loads r = Ok out
    /\ exists s, item out "name" = Ok (VStr s).
Proof.
  destruct r as [| | | | |rd]; try discriminate.
  unfold is_resource, _convert_to_datapackage_resource, item.
  destruct (truthy (get rd "name")); intros H.
  - destruct (get rd "name") as [| | |s| |]; try discriminate H.
    cbn [py_slugify bind].
    destruct (get rd "schema") as [| | |t| |];
      try destruct (json_loads t);
      (eexists; split; [reflexivity|]);
      resource_keys; eexists; reflexivity.
  - cbn [bind].
    destruct (lookup (VStr "id") rd) as [[| | |s| |]|]; try discriminate H.
    cbn [bind].
    destruct (get rd "schema") as [| | |t| |];
      try destruct (json_loads t);
      (eexists; split; [reflexivity|]);
      resource_keys; eexists; reflexivity.
Qed.

Lemma ensure_unique_names_total :
  forall rs names,
    Forall (fun r => exists s, item r "name" = Ok (VStr s)) rs ->
    exists out, ensure_unique_names rs names = Ok out.
Proof.
  induction rs as [|r rs IH]; intros names H.
  - exists []. reflexivity.
  - inversion H as [|x l [s Hs] Hl]; subst. simpl. rewrite Hs. simpl.
    destruct (lookup (VStr s) names) as [count|]; simpl.
    + destruct (IH (set_item (VStr s) (count + 1)%Z names) Hl) as [out Hout].
      rewrite Hout. eexists. reflexivity.
    + destruct (IH (set_item (VStr s) 0%Z names) Hl) as [out Hout].
      rewrite Hout. eexists. reflexivity.
Qed.

Lemma emits_incl (ks ks' : list string) (parser : dict -> result dict) :
  incl ks ks' -> emits ks parser -> emits ks' parser.
Proof.
  intros Hincl He source partial Hp.
  apply (keys_in_incl ks); [exact Hincl | apply (He source), Hp].
Qed.

Ltac incl_tac :=
  let x := fresh in let H := fresh in
  intros x H; simpl in H; destruct H as [<- | []];
  repeat first [left; reflexivity | right].

Section PackageKeys.

Variable slugify : string -> string.
Variable json_loads : string -> option value.

Lemma dataset_to_datapackage_inv (d p : dict) :
  dataset_to_datapackage slugify json_loads d = Ok p ->
  exists n acc,
    lookup (VStr "name") d = Some n
    /\ run_parsers (dataset_parsers json_loads) d [(VStr "name", n)] = Ok acc
    /\ (p = acc \/ exists v, p = set_item (VStr "resources") v acc).
Proof.
  unfold dataset_to_datapackage, item. intros H.
  destruct (lookup (VStr "name") d) as [n|]; [|discriminate H].
  cbn [bind] in H. apply bind_Ok_inv in H. destruct H as [acc [Hacc H]].
  exists n, acc. split; [reflexivity|]. split; [exact Hacc|].
  destruct (truthy (get d "resources")).
  - invert_ok. right. eexists. reflexivity.
  - injection H as <-. left. reflexivity.
Qed.

Lemma package_shape (d p : dict) :
  dataset_to_datapackage slugify json_loads d = Ok p ->
  keys_in package_keys p /\ distinct p.
Proof.
  intros H. apply dataset_to_datapackage_inv in H.
  destruct H as [n [acc [_ [Hacc Hp]]]].
  assert (Hk : keys_in package_keys acc).
  { apply (run_parsers_keys_in package_keys _ _ _ _) with (3 := Hacc).
    - unfold dataset_parsers.
      repeat (apply Forall_cons;
              [eapply emits_incl; [|solve [eauto with emitters]]; incl_tac|]).
      apply Forall_nil.
    - constructor; [|constructor].
      exists "name". split; [reflexivity | simpl; tauto]. }
  assert (Hd : distinct acc).
  { apply (run_parsers_distinct _ _ _ _) with (2 := Hacc).
    split; [reflexivity | exact I]. }
  destruct Hp as [-> | [v ->]]; [split; assumption|]. split.
  - apply keys_in_set_item; [simpl; tauto | exact Hk].
  - apply distinct_set_item, Hd.
Qed.

(** With [parser] the only one of the list that sets [k], and [k]
    neither [name] nor [resources], the package has [k] as [parser] left
    it. *)
Lemma package_key_of_parser (k : string) before parser after (d p : dict) :
  dataset_parsers json_loads = (before ++ parser :: after)%list ->
  Forall (silent_on (VStr k)) before ->
  Forall (silent_on (VStr k)) after ->
  String.eqb k "name" = false -> String.eqb k "resources" = false ->
  dataset_to_datapackage slugify json_loads d = Ok p ->
  exists partial,
    parser d = Ok partial
    /\ (distinct partial -> lookup (VStr k) p = lookup (VStr k) partial).
Proof.
  intros Hsplit Hb Ha Hname Hres H.
  apply dataset_to_datapackage_inv in H.
  destruct H as [n [acc [_ [Hacc Hp]]]].
  rewrite Hsplit in Hacc.
  destruct (run_parsers_emitter (VStr k) _ _ _ _ _ _ Hb Ha Hacc)
    as [partial [Hpart Hlook]].
  exists partial. split; [exact Hpart|]. intros Hd.
  assert (Hpk : lookup (VStr k) p = lookup (VStr k) acc).
  { destruct Hp as [-> | [v ->]]; [reflexivity|].
    rewrite lookup_set_item_str, Hres. reflexivity. }
  rewrite Hpk, (Hlook Hd). simpl. rewrite key_eqb_str, Hname.
  destruct (lookup (VStr k) partial); reflexivity.
Qed.

Lemma package_name (d p : dict) :
  dataset_to_datapackage slugify json_loads d = Ok p ->
  lookup (VStr "name") p = lookup (VStr "name") d.
Proof.
  intros H. apply dataset_to_datapackage_inv in H.
  destruct H as [n [acc [Hn [Hacc Hp]]]].
  assert (Hpk : lookup (VStr "name") p = lookup (VStr "name") acc).
  { destruct Hp as [-> | [v ->]]; [reflexivity|].
    rewrite lookup_set_item_str. reflexivity. }
  assert (Hs : Forall (silent_on (VStr "name")) (dataset_parsers json_loads))
    by (unfold dataset_parsers; silent_tac).
  rewrite Hpk, Hn, (run_parsers_silent (VStr "name") _ _ _ _ Hs Hacc).
  reflexivity.
Qed.

End PackageKeys.

Lemma text_lookup (d : dict) (k : value) :
  is_text (get d k) = true -> exists s, lookup k d = Some (VStr s).
Proof.
  unfold get, get_default. destruct (lookup k d) as [[| | |s| |]|];
    try discriminate. intros _. exists s. reflexivity.
Qed.

Lemma dataset_parsers_ready (json_loads : string -> option value) (d : dict) :
  tags_ok d = true -> extras_ok d = true ->
  Forall (fun parser => exists partial, parser d = Ok partial)
    (dataset_parsers json_loads).
Proof.
  intros Htags Hextras. unfold dataset_parsers.
  repeat apply Forall_cons; try apply Forall_nil.
  - eexists. reflexivity.
  - eexists. reflexivity.
  - eexists. reflexivity.
  - eexists. reflexivity.
  - unfold _parse_license.
    match goal with |- context [if ?b then _ else _] => destruct b end;
      eexists; reflexivity.
  - unfold _parse_author_and_source.
    match goal with |- context [if ?b then _ else _] => destruct b end;
      eexists; reflexivity.
  - unfold _parse_maintainer.
    match goal with |- context [if ?b then _ else _] => destruct b end;
      eexists; reflexivity.
  - rewrite (parse_tags_ready d Htags). eexists. reflexivity.
  - rewrite (parse_extras_ready json_loads d Hextras). eexists. reflexivity.
Qed.

Lemma dataset_to_datapackage_ready (slugify : string -> string)
  (json_loads : string -> option value) (d : dict) :
  roundtrip_ready d = true ->
  exists p, dataset_to_datapackage slugify json_loads d = Ok p.
Proof.
  unfold roundtrip_ready. intros H.
  repeat (apply andb_true_iff in H; destruct H as [H ?]).
  destruct (text_lookup d "name" H) as [n Hn].
  unfold dataset_to_datapackage, item. rewrite Hn. cbn [bind].
  destruct (run_parsers_total (dataset_parsers json_loads) d
              [(VStr "name", VStr n)]) as [acc Hacc];
    [apply dataset_parsers_ready; assumption|].
  rewrite Hacc. cbn [bind].
  match goal with Hr : resources_ok d = true |- _ =>
    unfold resources_ok in Hr; rename Hr into Hres end.
  destruct (get d "resources") as [|b|z|s|rs|m] eqn:Hget;
    try (apply negb_true_iff in Hres; rewrite Hres; eexists; reflexivity).
  destruct rs as [|r rs]; [eexists; reflexivity|].
  cbn [truthy iter bind].
  destruct (map_result_exists
              (_convert_to_datapackage_resource slugify json_loads)
              (fun out => exists s, item out "name" = Ok (VStr s))
              (r :: rs)) as [converted [Hconv Hnames]].
  { intros x Hx. rewrite forallb_forall in Hres.
    apply convert_resource_ready, Hres, Hx. }
  rewrite Hconv. cbn [bind].
  destruct (ensure_unique_names_total converted [] Hnames) as [unique Hu].
  rewrite Hu. eexists. reflexivity.
Qed.

(** The fields of the package made from a dataset. *)
Lemma package_fields (slugify : string -> string)
  (json_loads : string -> option value) (d p : dict) :
  tags_ok d = true -> extras_ok d = true ->
  dataset_to_datapackage slugify json_loads d = Ok p ->
  lookup (VStr "title") p
  = (if truthy (get d "title") then Some (get d "title") else None)
  /\ lookup (VStr "version") p
     = (if truthy (get d "version") then Some (get d "version") else None)
  /\ lookup (VStr "description") p
     = (if truthy (get d "notes") then Some (get d "notes") else None)
  /\ lookup (VStr "license") p
     = (if truthy (VDict (package_license d))
        then Some (VDict (package_license d)) else None)
  /\ lookup (VStr "sources") p
     = (if truthy (VDict (package_source d))
        then Some (VList [VDict (package_source d)]) else None)
  /\ lookup (VStr "author") p
     = (if truthy (VDict (package_author d))
        then Some (VDict (package_author d)) else None)
  /\ lookup (VStr "keywords") p
     = match dataset_tags d with
       | [] => None
       | tags => Some (VList (map tag_name tags))
       end
  /\ lookup (VStr "extras") p
     = match dataset_extras d with
       | [] => None
       | _ => Some (VDict (decoded_extras json_loads d))
       end.
Proof.
  intros Htags Hextras H.
  pose proof (fun k before parser after =>
    package_key_of_parser slugify json_loads k before parser after d p)
    as Hkey.
  repeat split.
  - destruct (Hkey "title" [] (_rename_dict_key "title" "title")
                (tl (dataset_parsers json_loads)))
      as [partial [Hp Hl]];
      [reflexivity | silent_tac | silent_tac | reflexivity | reflexivity
      | exact H |].
    injection Hp as <-. rewrite Hl by distinct_tac.
    rewrite lookup_copy_if. rewrite andb_true_r. reflexivity.
  - destruct (Hkey "version" [_rename_dict_key "title" "title"]
                (_rename_dict_key "version" "version")
                (tl (tl (dataset_parsers json_loads))))
      as [partial [Hp Hl]];
      [reflexivity | silent_tac | silent_tac | reflexivity | reflexivity
      | exact H |].
    injection Hp as <-. rewrite Hl by distinct_tac.
    rewrite lookup_copy_if. rewrite andb_true_r. reflexivity.
  - destruct (Hkey "description"
                (firstn 3 (dataset_parsers json_loads)) _parse_notes
                (skipn 4 (dataset_parsers json_loads)))
      as [partial [Hp Hl]];
      [reflexivity | silent_tac | silent_tac | reflexivity | reflexivity
      | exact H |].
    injection Hp as <-. rewrite Hl by distinct_tac.
    rewrite lookup_copy_if. rewrite andb_true_r. reflexivity.
  - destruct (Hkey "license"
                (firstn 4 (dataset_parsers json_loads)) _parse_license
                (skipn 5 (dataset_parsers json_loads)))
      as [partial [Hp Hl]];
      [reflexivity | silent_tac | silent_tac | reflexivity | reflexivity
      | exact H |].
    unfold _parse_license in Hp. fold (package_license d) in Hp.
    destruct (truthy (VDict (package_license d)));
      injection Hp as <-; rewrite Hl by distinct_tac; reflexivity.
  - destruct (Hkey "sources"
                (firstn 5 (dataset_parsers json_loads))
                _parse_author_and_source
                (skipn 6 (dataset_parsers json_loads)))
      as [partial [Hp Hl]];
      [reflexivity | silent_tac | silent_tac | reflexivity | reflexivity
      | exact H |].
    unfold _parse_author_and_source in Hp. fold (package_source d) in Hp.
    destruct (truthy (VDict (package_source d)));
      injection Hp as <-; rewrite Hl by distinct_tac; reflexivity.
  - destruct (Hkey "author"
                (firstn 6 (dataset_parsers json_loads)) _parse_maintainer
                (skipn 7 (dataset_parsers json_loads)))
      as [partial [Hp Hl]];
      [reflexivity | silent_tac | silent_tac | reflexivity | reflexivity
      | exact H |].
    unfold _parse_maintainer in Hp. fold (package_author d) in Hp.
    destruct (truthy (VDict (package_author d)));
      injection Hp as <-; rewrite Hl by distinct_tac; reflexivity.
  - destruct (Hkey "keywords"
                (firstn 7 (dataset_parsers json_loads)) _parse_tags
                (skipn 8 (dataset_parsers json_loads)))
      as [partial [Hp Hl]];
      [reflexivity | silent_tac | silent_tac | reflexivity | reflexivity
      | exact H |].
    rewrite (parse_tags_ready d Htags) in Hp. injection Hp as <-.
    destruct (dataset_tags d); rewrite Hl by distinct_tac; reflexivity.
  - destruct (Hkey "extras"
                (firstn 8 (dataset_parsers json_loads))
                (_parse_extras json_loads) [])
      as [partial [Hp Hl]];
      [reflexivity | silent_tac | silent_tac | reflexivity | reflexivity
      | exact H |].
    rewrite (parse_extras_ready json_loads d Hextras) in Hp.
    injection Hp as <-.
    destruct (dataset_extras d); rewrite Hl by distinct_tac; reflexivity.
Qed.

Lemma get_of_lookup (d : dict) (k : value) (found : option value) :
  lookup k d = found ->
  get d k = match found with Some v => v | None => VNone end.
Proof. intros <-. reflexivity. Qed.

(** Of the keys a dataset gives a package, [extras] is the only one that
    [datapackage_to_dataset] does not know. *)
Lemma unknown_fields_of_package :
  forall p,
    keys_in package_keys p -> distinct p ->
    filter (fun kv => negb (in_known_fields (fst kv))) p
    = match lookup (VStr "extras") p with
      | Some v => [(VStr "extras", v)]
      | None => []
      end.
Proof.
  induction p as [|[k v] p IH]; intros Hk Hd; [reflexivity|].
  inversion Hk as [|x l [s [Hs Hin]] Hl]; subst. simpl in Hs. subst k.
  destruct Hd as [Hfresh Hd]. specialize (IH Hl Hd).
  cbn [filter fst lookup]. rewrite IH.
  unfold package_keys in Hin. simpl in Hin.
  repeat (destruct Hin as [<- | Hin];
          [try solve [cbn; reflexivity];
           cbn; cbn in Hfresh; rewrite Hfresh; reflexivity|]).
  contradiction.
Qed.

Lemma keywords_of_package (slugify : string -> string) (d p : dict) :
  tags_ok d = true ->
  lookup (VStr "keywords") p
  = match dataset_tags d with
    | [] => None
    | tags => Some (VList (map tag_name tags))
    end ->
  _datapackage_parse_keywords slugify p
  = Ok match dataset_tags d with
       | [] => []
       | tags =>
           [(VStr "tags",
             VList (map (fun tag => slug_tag slugify (tag_name tag)) tags))]
       end.
Proof.
  unfold tags_ok, dataset_tags, _datapackage_parse_keywords.
  intros Hok Hl. rewrite (get_of_lookup _ _ _ Hl).
  destruct (get_default d "tags" (VList [])) as [| | | |tags|];
    try discriminate Hok.
  destruct tags as [|t tags]; [reflexivity|].
  cbn [truthy map iter bind].
  rewrite (map_result_total _ (slug_tag slugify)).
  - cbn [bind]. rewrite <- (map_map tag_name (slug_tag slugify)).
    reflexivity.
  - change (tag_name t :: map tag_name tags) with (map tag_name (t :: tags)).
    intros kw Hin. apply in_map_iff in Hin. destruct Hin as [tag [<- Hin]].
    rewrite forallb_forall in Hok. specialize (Hok tag Hin).
    destruct tag as [| | | | |td]; try discriminate Hok. simpl in Hok |- *.
    unfold get, get_default.
    destruct (lookup (VStr "name") td) as [[| | |s| |]|];
      try discriminate Hok.
    reflexivity.
Qed.

Lemma unknown_of_package (json_loads : string -> option value)
  (json_dumps : value -> string) (d p : dict) :
  keys_in package_keys p -> distinct p ->
  lookup (VStr "extras") p
  = match dataset_extras d with
    | [] => None
    | _ => Some (VDict (decoded_extras json_loads d))
    end ->
  _datapackage_parse_unknown_fields_as_extras json_dumps p
  = Ok match dataset_extras d with
       | [] => []
       | _ =>
           [(VStr "extras",
             VList [VDict [(VStr "key", VStr "extras");
                           (VStr "value",
                            VStr (json_dumps
                                    (VDict (decoded_extras json_loads d))))]])]
       end.
Proof.
  intros Hk Hd Hl. unfold _datapackage_parse_unknown_fields_as_extras.
  rewrite (unknown_fields_of_package p Hk Hd), Hl.
  destruct (dataset_extras d); reflexivity.
Qed.

Lemma license_of_package (d p : dict) :
  license_ok d = true ->
  lookup (VStr "license") p
  = (if truthy (VDict (package_license d))
     then Some (VDict (package_license d)) else None) ->
  exists partial, _datapackage_parse_license p = Ok partial.
Proof.
  unfold license_ok, _datapackage_parse_license. intros Hok Hl.
  rewrite (get_of_lookup _ _ _ Hl).
  destruct (truthy (VDict (package_license d))) eqn:Hlic;
    [rewrite Hlic | eexists; reflexivity].
  assert (Htitle : truthy (get (package_license d) "title")
                   = truthy (get d "license_title")).
  { unfold get at 1, get_default, package_license.
    rewrite !lookup_copy_if. cbn [String.eqb Ascii.eqb Bool.eqb andb].
    rewrite !andb_false_r, andb_true_r.
    destruct (truthy (get d "license_title")) eqn:E; [exact E | reflexivity]. }
  rewrite Htitle.
  destruct (truthy (get d "license_title")); [|eexists; reflexivity].
  simpl in Hok. unfold item, package_license.
  rewrite lookup_copy_if, Hok. cbn. eexists. reflexivity.
Qed.

Lemma sources_of_package (d p : dict) :
  lookup (VStr "sources") p
  = (if truthy (VDict (package_source d))
     then Some (VList [VDict (package_source d)]) else None) ->
  exists partial, _datapackage_parse_sources p = Ok partial.
Proof.
  unfold _datapackage_parse_sources. intros Hl.
  rewrite (get_of_lookup _ _ _ Hl).
  destruct (truthy (VDict (package_source d))); eexists; reflexivity.
Qed.

Lemma author_of_package (d p : dict) :
  text_if_set (get d "maintainer") = true ->
  lookup (VStr "author") p
  = (if truthy (VDict (package_author d))
     then Some (VDict (package_author d)) else None) ->
  exists partial, _datapackage_parse_author p = Ok partial.
Proof.
  unfold text_if_set, _datapackage_parse_author. intros Hok Hl.
  rewrite (get_of_lookup _ _ _ Hl).
  destruct (truthy (VDict (package_author d))) eqn:Ha;
    [rewrite Ha | eexists; reflexivity].
  cbn [bind].
  assert (Hm : get (package_author d) "name"
               = if truthy (get d "maintainer")
                 then get d "maintainer" else VNone).
  { unfold get at 1, get_default, package_author.
    rewrite !lookup_copy_if. cbn [String.eqb Ascii.eqb Bool.eqb andb].
    rewrite !andb_false_r, andb_true_r.
    destruct (truthy (get d "maintainer")); reflexivity. }
  rewrite Hm.
  destruct (truthy (get d "maintainer")) eqn:Ht.
  - rewrite Ht. rewrite orb_false_r in Hok.
    destruct (get d "maintainer"); try discriminate Hok.
    cbn [py_strip bind]. eexists. reflexivity.
  - cbn [truthy bind]. eexists. reflexivity.
Qed.

Lemma datapackage_parsers_ready (slugify : string -> string)
  (json_loads : string -> option value) (json_dumps : value -> string)
  (d p : dict) :
  roundtrip_ready d = true ->
  dataset_to_datapackage slugify json_loads d = Ok p ->
  Forall (fun parser => exists partial, parser p = Ok partial)
    (datapackage_parsers slugify json_dumps).
Proof.
  unfold roundtrip_ready. intros H Hp.
  repeat (apply andb_true_iff in H; destruct H as [H ?]).
  match goal with
  | Ht : tags_ok d = true, He : extras_ok d = true |- _ =>
      destruct (package_fields slugify json_loads d p Ht He Hp)
        as [_ [_ [_ [Hlic [Hsrc [Haut [Hkw Hex]]]]]]]
  end.
  destruct (package_shape slugify json_loads d p Hp) as [Hkeys Hdist].
  unfold datapackage_parsers.
  repeat apply Forall_cons; try apply Forall_nil.
  - eexists. reflexivity.
  - eexists. reflexivity.
  - eexists. reflexivity.
  - apply (license_of_package d); assumption.
  - apply (sources_of_package d); assumption.
  - apply (author_of_package d); assumption.
  - rewrite (keywords_of_package slugify d p) by assumption.
    eexists. reflexivity.
  - rewrite (unknown_of_package json_loads json_dumps d p) by assumption.
    eexists. reflexivity.
Qed.

Lemma resources_supported :
  forall rs,
    forallb supported rs = true ->
    exists outs, map_result _datapackage_resource_to_ckan_resource rs = Ok outs.
Proof.
  intros rs H.
  destruct (map_result_exists _datapackage_resource_to_ckan_resource
              (fun _ => True) rs) as [outs [Houts _]].
  - intros r Hr. rewrite forallb_forall in H. specialize (H r Hr).
    destruct (ckan_resource_cases r) as [[_ [out Hout]] | [Hno _]];
      [exists out; split; [exact Hout | exact I] | congruence].
  - exists outs. exact Houts.
Qed.

Lemma datapackage_to_dataset_ready (slugify : string -> string)
  (json_loads : string -> option value) (json_dumps : value -> string)
  (d p : dict) (rs : list Resource.t) :
  roundtrip_ready d = true ->
  forallb supported rs = true ->
  dataset_to_datapackage slugify json_loads d = Ok p ->
  exists n out,
    get d "name" = VStr n
    /\ datapackage_to_dataset slugify json_dumps
         {| Package.descriptor := p; Package.resources := rs |} = Ok out
    /\ lookup (VStr "name") out = Some (VStr (lower n)).
Proof.
  intros Hready Hrs Hp.
  pose proof (datapackage_parsers_ready slugify json_loads json_dumps d p
                Hready Hp) as Hparsers.
  unfold roundtrip_ready in Hready.
  repeat (apply andb_true_iff in Hready; destruct Hready as [Hready ?]).
  destruct (text_lookup d "name" Hready) as [n Hn].
  exists n.
  assert (Hpn : lookup (VStr "name") p = Some (VStr n))
    by (rewrite (package_name slugify json_loads d p Hp); exact Hn).
  destruct (run_parsers_total (datapackage_parsers slugify json_dumps) p
              [(VStr "name", VStr (lower n))] Hparsers) as [acc Hacc].
  assert (Hname : lookup (VStr "name") acc = Some (VStr (lower n))).
  { assert (Hs : Forall (silent_on (VStr "name"))
                   (datapackage_parsers slugify json_dumps))
      by (unfold datapackage_parsers; silent_tac).
    rewrite (run_parsers_silent (VStr "name") _ _ _ _ Hs Hacc). reflexivity. }
  destruct (resources_supported rs Hrs) as [outs Houts].
  unfold datapackage_to_dataset, item.
  cbn [Package.descriptor Package.resources].
  rewrite Hpn. cbn [bind py_lower]. rewrite Hacc. cbn [bind].
  destruct rs as [|r rs].
  - exists acc. split; [|split; [reflexivity | exact Hname]].
    unfold get, get_default. rewrite Hn. reflexivity.
  - rewrite Houts. cbn [bind]. eexists.
    split; [|split; [reflexivity|]].
    + unfold get, get_default. rewrite Hn. reflexivity.
    + rewrite lookup_set_item_str. exact Hname.
Qed.

(** C2, as the code has it.  A dataset of the shape [roundtrip_ready]
    converts to a package, and that package, with resource objects in
    supported modes, converts back to a dataset in which [name] is the
    lower-cased original, [title], [version] and [notes] are the originals
    (each only when set), [tags] are the originals' names slugified, and
    [extras], when the original has any, is a single entry whose key is
    ["extras"] and whose value is the text encoding of the mapping of the
    original pairs, values decoded where they decode. *)
Theorem roundtrip :
  forall (slugify : string -> string) (json_loads : string -> option value)
         (json_dumps : value -> string) (d : dict) (rs : list Resource.t),
    roundtrip_ready d = true ->
    forallb supported rs = true ->
    exists n p out,
      get d "name" = VStr n
      /\ dataset_to_datapackage slugify json_loads d = Ok p
      /\ datapackage_to_dataset slugify json_dumps
           {| Package.descriptor := p; Package.resources := rs |} = Ok out
      /\ lookup (VStr "name") out = Some (VStr (lower n))
      /\ lookup (VStr "title") out
         = (if truthy (get d "title") then Some (get d "title") else None)
      /\ lookup (VStr "version") out
         = (if truthy (get d "version") then Some (get d "version") else None)
      /\ lookup (VStr "notes") out
         = (if truthy (get d "notes") then Some (get d "notes") else None)
      /\ lookup (VStr "tags") out
         = match dataset_tags d with
           | [] => None
           | tags =>
               Some (VList (map (fun tag => slug_tag slugify (tag_name tag))
                              tags))
           end
      /\ lookup (VStr "extras") out
         = match dataset_extras d with
           | [] => None
           | _ =>
               Some (VList
                       [VDict [(VStr "key", VStr "extras");
                               (VStr "value",
                                VStr (json_dumps
                                        (VDict (decoded_extras json_loads d))))]])
           end.
Proof.
  intros slugify json_loads json_dumps d rs Hready Hrs.
  destruct (dataset_to_datapackage_ready slugify json_loads d Hready)
    as [p Hp].
  destruct (datapackage_to_dataset_ready slugify json_loads json_dumps
              d p rs Hready Hrs Hp) as [n [out [Hn [Hout Hname]]]].
  exists n, p, out.
  split; [exact Hn|]. split; [exact Hp|]. split; [exact Hout|].
  split; [exact Hname|].
  unfold roundtrip_ready in Hready.
  repeat (apply andb_true_iff in Hready; destruct Hready as [Hready ?]).
  match goal with
  | Ht : tags_ok d = true, He : extras_ok d = true |- _ =>
      destruct (package_fields slugify json_loads d p Ht He Hp)
        as [Htitle [Hversion [Hdescr [_ [_ [_ [Hkw Hex]]]]]]];
      rename Ht into Htags; rename He into Hextras
  end.
  destruct (package_shape slugify json_loads d p Hp) as [Hkeys Hdist].
  pose proof (fun k before parser after =>
    dataset_key_of_parser slugify json_dumps k before parser after
      {| Package.descriptor := p; Package.resources := rs |} out) as Hkey.
  cbn [Package.descriptor] in Hkey.
  repeat split.
  - destruct (Hkey "title" [] (_rename_dict_key "title" "title")
                (tl (datapackage_parsers slugify json_dumps)))
      as [partial [Hpart Hl]];
      [reflexivity | silent_tac | silent_tac | reflexivity | reflexivity
      | exact Hout |].
    injection Hpart as <-. rewrite Hl by distinct_tac.
    rewrite lookup_copy_if, andb_true_r, (get_of_lookup _ _ _ Htitle).
    destruct (truthy (get d "title")) eqn:E; [rewrite E|]; reflexivity.
  - destruct (Hkey "version" [_rename_dict_key "title" "title"]
                (_rename_dict_key "version" "version")
                (tl (tl (datapackage_parsers slugify json_dumps))))
      as [partial [Hpart Hl]];
      [reflexivity | silent_tac | silent_tac | reflexivity | reflexivity
      | exact Hout |].
    injection Hpart as <-. rewrite Hl by distinct_tac.
    rewrite lookup_copy_if, andb_true_r, (get_of_lookup _ _ _ Hversion).
    destruct (truthy (get d "version")) eqn:E; [rewrite E|]; reflexivity.
  - destruct (Hkey "notes"
                (firstn 2 (datapackage_parsers slugify json_dumps))
                (_rename_dict_key "description" "notes")
                (skipn 3 (datapackage_parsers slugify json_dumps)))
      as [partial [Hpart Hl]];
      [reflexivity | silent_tac | silent_tac | reflexivity | reflexivity
      | exact Hout |].
    injection Hpart as <-. rewrite Hl by distinct_tac.
    rewrite lookup_copy_if, andb_true_r, (get_of_lookup _ _ _ Hdescr).
    destruct (truthy (get d "notes")) eqn:E; [rewrite E|]; reflexivity.
  - destruct (Hkey "tags"
                (firstn 6 (datapackage_parsers slugify json_dumps))
                (_datapackage_parse_keywords slugify)
                (skipn 7 (datapackage_parsers slugify json_dumps)))
      as [partial [Hpart Hl]];
      [reflexivity | silent_tac | silent_tac | reflexivity | reflexivity
      | exact Hout |].
    rewrite (keywords_of_package slugify d p Htags Hkw) in Hpart.
    injection Hpart as <-.
    destruct (dataset_tags d); rewrite Hl by distinct_tac; reflexivity.
  - destruct (Hkey "extras"
                (firstn 7 (datapackage_parsers slugify json_dumps))
                (_datapackage_parse_unknown_fields_as_extras json_dumps) [])
      as [partial [Hpart Hl]];
      [reflexivity | silent_tac | silent_tac | reflexivity | reflexivity
      | exact Hout |].
    rewrite (unknown_of_package json_loads json_dumps d p Hkeys Hdist Hex)
      in Hpart.
    injection Hpart as <-.
    destruct (dataset_extras d); rewrite Hl by distinct_tac; reflexivity.
Qed.

Lemma roundtrip_witness :
  roundtrip_ready gold_dataset = true
  /\ forallb supported gold_resources = true
  /\ exists p out,
      dataset_to_datapackage Sample.slugify Sample.json_loads gold_dataset
      = Ok p
      /\ datapackage_to_dataset Sample.slugify Sample.json_dumps
           {| Package.descriptor := p; Package.resources := gold_resources |}
         = Ok out
      /\ lookup (VStr "name") out = Some (VStr "gold")
      /\ lookup (VStr "title") out = Some (VStr "Gold Prices")
      /\ lookup (VStr "version") out = Some (VStr "1.0")
      /\ lookup (VStr "notes") out = Some (VStr "Monthly gold prices")
      /\ lookup (VStr "tags") out
         = Some (VList [VDict [(VStr "name", VStr "big-data")]])
      /\ lookup (VStr "extras") out
         = Some (VList
                   [VDict [(VStr "key", VStr "extras");
                           (VStr "value",
                            VStr (Sample.json_dumps
                                    (VDict [(VStr "k", VStr "plain")])))]]).
Proof.
  split; [reflexivity|]. split; [reflexivity|].
  destruct (roundtrip Sample.slugify Sample.json_loads Sample.json_dumps
              gold_dataset gold_resources eq_refl eq_refl)
    as [n [p [out [Hn [Hp [Hout [Hname [Ht [Hv [Hnotes [Htags Hex]]]]]]]]]]].
  exists p, out. injection Hn as <-.
  repeat split; assumption.
Defined.

(** C2 as stated fails twice: the [name] comes back lower-cased, and the
    extras come back as one entry under the key ["extras"] that holds the
    text encoding of the original pairs together. *)
Lemma roundtrip_counterexample :
  exists p out,
    dataset_to_datapackage Sample.slugify Sample.json_loads gold_dataset
    = Ok p
    /\ datapackage_to_dataset Sample.slugify Sample.json_dumps
         {| Package.descriptor := p; Package.resources := gold_resources |}
       = Ok out
    /\ lookup (VStr "name") gold_dataset = Some (VStr "Gold")
    /\ lookup (VStr "name") out = Some (VStr "gold")
    /\ lookup (VStr "name") out <> lookup (VStr "name") gold_dataset
    /\ lookup (VStr "extras") gold_dataset
       = Some (VList [VDict [(VStr "key", VStr "k");
                             (VStr "value", VStr "plain")]])
    /\ lookup (VStr "extras") out
       = Some (VList
                 [VDict [(VStr "key", VStr "extras");
                         (VStr "value",
                          VStr (Sample.json_dumps
                                  (VDict [(VStr "k", VStr "plain")])))]])
    /\ lookup (VStr "extras") out <> lookup (VStr "extras") gold_dataset.
Proof.
  eexists. eexists. split; [vm_compute; reflexivity|].
  split; [vm_compute; reflexivity|].
  repeat split; try reflexivity; vm_compute; discriminate.
Qed.


(** * Further properties *)

(** ** The required name *)

(** X1. A dataset without [name] is not converted: the lookup of the
    name raises [KeyError] before any parser or resource is looked at,
    whatever else the dataset holds. *)
Theorem dataset_without_name :
  forall (slugify : string -> string) (json_loads : string -> option value)
         (d : dict),
    lookup (VStr "name") d = None ->
    dataset_to_datapackage slugify json_loads d
    = Raise (KeyError (VStr "name")).
Proof.
  intros slugify json_loads d H.
  unfold dataset_to_datapackage, item. rewrite H. reflexivity.
Qed.

Lemma dataset_without_name_witness :
  dataset_to_datapackage Sample.slugify Sample.json_loads
    [(VStr "title", VStr "Gold Prices"); (VStr "tags", VInt 3);
     (VStr "resources", VList [VNone])]
  = Raise (KeyError (VStr "name")).
Proof.
  apply (dataset_without_name Sample.slugify Sample.json_loads
           [(VStr "title", VStr "Gold Prices"); (VStr "tags", VInt 3);
            (VStr "resources", VList [VNone])]).
  reflexivity.
Defined.

(** ** The keys of a converted record *)

(** X2. A package made from a dataset has no key besides [name], [title],
    [version], [homepage], [description], [license], [sources], [author],
    [keywords], [extras] and [resources], has none of them twice, and has
    the [name] of the dataset unchanged. *)
Theorem package_invariant :
  forall (slugify : string -> string) (json_loads : string -> option value)
         (d p : dict),
    dataset_to_datapackage slugify json_loads d = Ok p ->
    keys_in package_keys p
    /\ distinct p
    /\ (exists n, lookup (VStr "name") d = Some n
                  /\ lookup (VStr "name") p = Some n).
Proof.
  intros slugify json_loads d p H.
  destruct (package_shape slugify json_loads d p H) as [Hk Hd].
  split; [exact Hk|]. split; [exact Hd|].
  pose proof (package_name slugify json_loads d p H) as Hn.
  apply dataset_to_datapackage_inv in H.
  destruct H as [n [acc [Hname _]]].
  exists n. split; [exact Hname | congruence].
Qed.

Lemma package_invariant_witness :
  exists p,
    dataset_to_datapackage Sample.slugify Sample.json_loads gold_dataset
    = Ok p
    /\ keys_in package_keys p
    /\ distinct p
    /\ lookup (VStr "name") p = Some (VStr "Gold").
Proof.
  eexists. split; [vm_compute; reflexivity|].
  destruct (package_invariant Sample.slugify Sample.json_loads gold_dataset
              _ eq_refl) as [Hk [Hd [n [Hn Hp]]]].
  split; [exact Hk|]. split; [exact Hd|].
  injection Hn as <-. exact Hp.
Defined.

Lemma char_lower_not_upper (c : ascii) : is_upper (char_lower c) = false.
Proof.
  destruct c as [b0 b1 b2 b3 b4 b5 b6 b7].
  destruct b0, b1, b2, b3, b4, b5, b6, b7; reflexivity.
Qed.

Lemma lower_all_lower : forall s, all_lower (lower s) = true.
Proof.
  unfold all_lower, lower. induction s as [|c t IH]; simpl; [reflexivity|].
  rewrite char_lower_not_upper. exact IH.
Qed.

Lemma lower_of_all_lower : forall s, all_lower s = true -> lower s = s.
Proof.
  unfold all_lower, lower. induction s as [|c t IH]; simpl; intros H;
    [reflexivity|].
  apply andb_true_iff in H. destruct H as [Hc Ht].
  rewrite (IH Ht). f_equal.
  unfold char_lower. apply negb_true_iff in Hc. rewrite Hc. reflexivity.
Qed.

Lemma datapackage_to_dataset_struct (slugify : string -> string)
  (json_dumps : value -> string) (datapackage : Package.t) (out : dict) :
  datapackage_to_dataset slugify json_dumps datapackage = Ok out ->
  exists n acc,
    lookup (VStr "name") (Package.descriptor datapackage) = Some (VStr n)
    /\ run_parsers (datapackage_parsers slugify json_dumps)
         (Package.descriptor datapackage)
         [(VStr "name", VStr (lower n))] = Ok acc
    /\ ((Package.resources datapackage = [] /\ out = acc)
        \/ exists rs,
            Package.resources datapackage <> []
            /\ map_result _datapackage_resource_to_ckan_resource
                 (Package.resources datapackage) = Ok rs
            /\ out = set_item (VStr "resources") (VList (map VDict rs)) acc).
Proof.
  unfold datapackage_to_dataset, item, py_lower. intros H.
  destruct (lookup (VStr "name") (Package.descriptor datapackage))
    as [v|]; [|discriminate H].
  cbn [bind] in H. destruct v; try discriminate H. cbn [bind] in H.
  apply bind_Ok_inv in H. destruct H as [acc [Hacc H]].
  exists s, acc. split; [reflexivity|]. split; [exact Hacc|].
  destruct (Package.resources datapackage) as [|r rest].
  - injection H as <-. left. split; reflexivity.
  - apply bind_Ok_inv in H. destruct H as [rs [Hrs H]]. injection H as <-.
    right. exists rs. split; [discriminate|]. split; [exact Hrs | reflexivity].
Qed.

Lemma dataset_shape (slugify : string -> string)
  (json_dumps : value -> string) (datapackage : Package.t) (out : dict) :
  datapackage_to_dataset slugify json_dumps datapackage = Ok out ->
  keys_in dataset_keys out /\ distinct out.
Proof.
  intros H. apply datapackage_to_dataset_struct in H.
  destruct H as [n [acc [Hn [Hacc Hout]]]].
  assert (Hk : keys_in dataset_keys acc).
  { apply (run_parsers_keys_in dataset_keys _ _ _ _) with (3 := Hacc).
    - unfold datapackage_parsers.
      repeat (apply Forall_cons;
              [eapply emits_incl; [|solve [eauto with emitters]];
               let x := fresh in let Hx := fresh in
               intros x Hx; simpl in Hx;
               repeat (destruct Hx as [<- | Hx];
                       [repeat first [left; reflexivity | right]|]);
               contradiction|]).
      apply Forall_nil.
    - constructor; [|constructor].
      exists "name". split; [reflexivity | simpl; tauto]. }
  assert (Hd : distinct acc).
  { apply (run_parsers_distinct _ _ _ _) with (2 := Hacc).
    split; [reflexivity | exact I]. }
  destruct Hout as [[_ ->] | [rs [_ [_ ->]]]]; [split; assumption|].
  split; [apply keys_in_set_item; [simpl; tauto | exact Hk]
         | apply distinct_set_item, Hd].
Qed.

(** X3. A dataset made from a package has no key besides [name], [title],
    [version], [notes], the three license keys, [author], [author_email],
    [url], [maintainer], [maintainer_email], [tags], [extras] and
    [resources] (so the [homepage] of the package is dropped), has none of
    them twice, and its [name] is the descriptor's name lower-cased: a
    text without upper-case letter, which lower-casing again leaves
    as it is. *)
Theorem dataset_invariant :
  forall (slugify : string -> string) (json_dumps : value -> string)
         (datapackage : Package.t) (out : dict),
    datapackage_to_dataset slugify json_dumps datapackage = Ok out ->
    keys_in dataset_keys out
    /\ distinct out
    /\ lookup (VStr "homepage") out = None
    /\ exists n,
        lookup (VStr "name") (Package.descriptor datapackage)
        = Some (VStr n)
        /\ lookup (VStr "name") out = Some (VStr (lower n))
        /\ all_lower (lower n) = true
        /\ lower (lower n) = lower n.
Proof.
  intros slugify json_dumps datapackage out H.
  destruct (dataset_shape slugify json_dumps _ _ H) as [Hko Hdo].
  split; [exact Hko|]. split; [exact Hdo|]. split.
  - apply (keys_in_lookup dataset_keys); [exact Hko|].
    simpl. intuition discriminate.
  - apply datapackage_to_dataset_inv in H.
    destruct H as [n [acc [Hn [Hacc Hlook]]]].
    exists n. split; [exact Hn|]. split.
    + rewrite (Hlook "name" eq_refl).
      assert (Hs : Forall (silent_on (VStr "name"))
                     (datapackage_parsers slugify json_dumps))
        by (unfold datapackage_parsers; silent_tac).
      rewrite (run_parsers_silent (VStr "name") _ _ _ _ Hs Hacc).
      reflexivity.
    + split; [apply lower_all_lower|].
      apply lower_of_all_lower, lower_all_lower.
Qed.

Lemma dataset_invariant_witness :
  exists out,
    datapackage_to_dataset Sample.slugify Sample.json_dumps
      {| Package.descriptor :=
           [(VStr "name", VStr "Gold"); (VStr "homepage", VStr "http://x");
            (VStr "title", VStr "Gold Prices")];
         Package.resources := gold_resources |} = Ok out
    /\ keys_in dataset_keys out
    /\ lookup (VStr "homepage") out = None
    /\ lookup (VStr "name") out = Some (VStr "gold").
Proof.
  eexists. split; [vm_compute; reflexivity|].
  destruct (dataset_invariant Sample.slugify Sample.json_dumps
              {| Package.descriptor :=
                   [(VStr "name", VStr "Gold");
                    (VStr "homepage", VStr "http://x");
                    (VStr "title", VStr "Gold Prices")];
                 Package.resources := gold_resources |} _ eq_refl)
    as [Hk [_ [Hh [n [Hn [Hname _]]]]]].
  split; [exact Hk|]. split; [exact Hh|].
  injection Hn as <-. exact Hname.
Defined.


(** ** Nothing empty is emitted *)

Lemma copy_if_truthy (src : dict) (a b : string) (dst : dict) (k v : value) :
  (forall v', lookup k dst = Some v' -> truthy v' = true) ->
  lookup k (copy_if src a b dst) = Some v -> truthy v = true.
Proof.
  unfold copy_if. intros Hdst.
  destruct (truthy (get src a)) eqn:E; [|apply Hdst].
  rewrite lookup_set_item. destruct (key_eqb k (VStr b)); [|apply Hdst].
  intros H. injection H as <-. exact E.
Qed.

Lemma copy_if_nil_truthy (src : dict) (a b : string) (k v : value) :
  lookup k (copy_if src a b []) = Some v -> truthy v = true.
Proof.
  apply copy_if_truthy. intros v' H. discriminate H.
Qed.

Lemma set_item_nonempty {A : Type} (k : value) (v : A) (d : list (value * A)) :
  set_item k v d <> [].
Proof.
  destruct d as [|[k0 v0] d]; simpl; [discriminate|].
  destruct (key_eqb k k0); discriminate.
Qed.

Lemma py_dict_nonempty :
  forall pairs acc r,
    py_dict pairs acc = Ok r -> pairs <> [] \/ acc <> [] -> r <> [].
Proof.
  induction pairs as [|[k v] pairs IH]; simpl; intros acc r H Hne.
  - injection H as <-. destruct Hne as [Hne | Hne]; [contradiction | exact Hne].
  - destruct (hash_key k); [|discriminate H].
    apply (IH _ _ H). right. apply set_item_nonempty.
Qed.

Lemma truthy_dict (d : dict) : d <> [] -> truthy (VDict d) = true.
Proof. destruct d; [contradiction | reflexivity]. Qed.

Lemma truthy_list (l : list value) : l <> [] -> truthy (VList l) = true.
Proof. destruct l; [contradiction | reflexivity]. Qed.

Ltac single_truthy :=
  match goal with
  | H : lookup _ [] = Some _ |- _ => discriminate H
  | H : lookup ?k [(_, ?x)] = Some ?v |- truthy ?v = true =>
      simpl in H; destruct (key_eqb k _); [|discriminate H];
      injection H as <-
  end.

Lemma dataset_parsers_truthy (json_loads : string -> option value) :
  Forall sets_truthy (dataset_parsers json_loads).
Proof.
  unfold dataset_parsers.
  repeat apply Forall_cons; try apply Forall_nil;
    intros source partial k v Hp Hl.
  - unfold _rename_dict_key in Hp. injection Hp as <-.
    apply (copy_if_nil_truthy _ _ _ _ _ Hl).
  - unfold _rename_dict_key in Hp. injection Hp as <-.
    apply (copy_if_nil_truthy _ _ _ _ _ Hl).
  - unfold _parse_ckan_url in Hp. injection Hp as <-.
    apply (copy_if_nil_truthy _ _ _ _ _ Hl).
  - unfold _parse_notes in Hp. injection Hp as <-.
    apply (copy_if_nil_truthy _ _ _ _ _ Hl).
  - unfold _parse_license in Hp. invert_ok; single_truthy. assumption.
  - unfold _parse_author_and_source in Hp. invert_ok; single_truthy.
    reflexivity.
  - unfold _parse_maintainer in Hp. invert_ok; single_truthy. assumption.
  - unfold _parse_tags in Hp. invert_ok; single_truthy. assumption.
  - unfold _parse_extras in Hp. invert_ok; single_truthy.
    apply truthy_dict.
    match goal with
    | H : py_dict _ [] = Ok _ |- _ =>
        apply (py_dict_nonempty _ _ _ H); left; discriminate
    end.
Qed.

Lemma dataset_parsers_distinct (json_loads : string -> option value) :
  Forall sets_distinct (dataset_parsers json_loads).
Proof.
  unfold dataset_parsers.
  repeat apply Forall_cons; try apply Forall_nil;
    intros source partial Hp.
  - unfold _rename_dict_key in Hp. injection Hp as <-. distinct_tac.
  - unfold _rename_dict_key in Hp. injection Hp as <-. distinct_tac.
  - unfold _parse_ckan_url in Hp. injection Hp as <-. distinct_tac.
  - unfold _parse_notes in Hp. injection Hp as <-. distinct_tac.
  - unfold _parse_license in Hp. invert_ok; distinct_tac.
  - unfold _parse_author_and_source in Hp. invert_ok; distinct_tac.
  - unfold _parse_maintainer in Hp. invert_ok; distinct_tac.
  - unfold _parse_tags in Hp. invert_ok; distinct_tac.
  - unfold _parse_extras in Hp. invert_ok; distinct_tac.
Qed.

Lemma run_parsers_truthy :
  forall parsers source acc out,
    Forall sets_truthy parsers -> Forall sets_distinct parsers ->
    truthy_but_name acc ->
    run_parsers parsers source acc = Ok out ->
    truthy_but_name out.
Proof.
  induction parsers as [|p ps IH]; intros source acc out Ht Hd Hacc H.
  - simpl in H. injection H as <-. exact Hacc.
  - inversion Ht as [|x l Htp Htps]; subst.
    inversion Hd as [|x l Hdp Hdps]; subst.
    apply run_parsers_cons in H. destruct H as [partial [Hpart H]].
    apply (IH _ _ _ Htps Hdps) with (2 := H).
    intros k v Hl. rewrite (lookup_update k partial acc (Hdp _ _ Hpart)) in Hl.
    destruct (lookup k partial) as [v'|] eqn:E.
    + injection Hl as <-. right. apply (Htp _ _ _ _ Hpart E).
    + apply Hacc, Hl.
Qed.

Lemma map_result_length {A B : Type} (f : A -> result B) :
  forall xs ys, map_result f xs = Ok ys -> List.length ys = List.length xs.
Proof.
  induction xs as [|x xs IH]; simpl; intros ys H.
  - injection H as <-. reflexivity.
  - apply bind_Ok_inv in H. destruct H as [y [_ H]].
    apply bind_Ok_inv in H. destruct H as [ys' [Hys H]].
    injection H as <-. simpl. f_equal. apply IH. exact Hys.
Qed.

Lemma iter_truthy (v : value) (items : list value) :
  truthy v = true -> iter v = Ok items -> items <> [].
Proof.
  destruct v as [|b|z|s|l|m]; simpl; intros Ht H; try discriminate H;
    injection H as <-.
  - destruct s; [discriminate Ht | discriminate].
  - destruct l; [discriminate Ht | discriminate].
  - destruct m; [discriminate Ht | discriminate].
Qed.

(** The de-duplicator keeps the resources in number and order, and at
    most gives one a new [name]. *)
Lemma ensure_unique_names_renames :
  forall rs names out,
    ensure_unique_names rs names = Ok out ->
    Forall2 renamed_or_same rs out.
Proof.
  induction rs as [|r rs IH]; simpl; intros names out H.
  - injection H as <-. constructor.
  - apply bind_Ok_inv in H. destruct H as [name [_ H]].
    destruct (hash_key name); [|discriminate H].
    destruct (lookup name names) as [count|].
    + apply bind_Ok_inv in H. destruct H as [renamed [_ H]].
      apply bind_Ok_inv in H. destruct H as [rest' [Hrest H]].
      injection H as <-. constructor; [|apply (IH _ _ Hrest)].
      right. exists renamed. reflexivity.
    + apply bind_Ok_inv in H. destruct H as [rest' [Hrest H]].
      injection H as <-. constructor; [|apply (IH _ _ Hrest)].
      left. reflexivity.
Qed.

Lemma dataset_to_datapackage_struct (slugify : string -> string)
  (json_loads : string -> option value) (d p : dict) :
  dataset_to_datapackage slugify json_loads d = Ok p ->
  exists n acc,
    lookup (VStr "name") d = Some n
    /\ run_parsers (dataset_parsers json_loads) d [(VStr "name", n)] = Ok acc
    /\ ((truthy (get d "resources") = false /\ p = acc)
        \/ exists rs converted unique,
            truthy (get d "resources") = true
            /\ iter (get d "resources") = Ok rs
            /\ map_result
                 (_convert_to_datapackage_resource slugify json_loads) rs
               = Ok converted
            /\ ensure_unique_names converted [] = Ok unique
            /\ p = set_item (VStr "resources") (VList (map VDict unique)) acc).
Proof.
  unfold dataset_to_datapackage, item. intros H.
  destruct (lookup (VStr "name") d) as [n|]; [|discriminate H].
  cbn [bind] in H. apply bind_Ok_inv in H. destruct H as [acc [Hacc H]].
  exists n, acc. split; [reflexivity|]. split; [exact Hacc|].
  destruct (truthy (get d "resources")) eqn:Ht.
  - apply bind_Ok_inv in H. destruct H as [rs [Hrs H]].
    apply bind_Ok_inv in H. destruct H as [converted [Hconv H]].
    apply bind_Ok_inv in H. destruct H as [unique [Hu H]].
    injection H as <-. right. exists rs, converted, unique. auto.
  - injection H as <-. left. split; reflexivity.
Qed.

(** X4. A package made from a dataset holds no empty value: whatever is
    under a key other than [name] is truthy (not [None], not an empty
    string, list or mapping, not zero, not [False]). *)
Theorem package_values_truthy :
  forall (slugify : string -> string) (json_loads : string -> option value)
         (d p : dict),
    dataset_to_datapackage slugify json_loads d = Ok p ->
    forall (k : string) (v : value),
      lookup (VStr k) p = Some v -> k <> "name" -> truthy v = true.
Proof.
  intros slugify json_loads d p H k v Hl Hk.
  apply dataset_to_datapackage_struct in H.
  destruct H as [n [acc [_ [Hacc Hp]]]].
  assert (Hinv : truthy_but_name acc).
  { apply (run_parsers_truthy _ _ _ _ (dataset_parsers_truthy json_loads)
             (dataset_parsers_distinct json_loads)) with (2 := Hacc).
    intros k0 v0 H0. left. simpl in H0.
    destruct (key_eqb k0 (VStr "name")); [reflexivity | discriminate H0]. }
  assert (Hname : key_eqb (VStr k) (VStr "name") = false)
    by (rewrite key_eqb_str; apply String.eqb_neq; exact Hk).
  destruct Hp as [[_ ->] | [rs [converted [unique [Ht [Hrs [Hc [Hu ->]]]]]]]].
  - destruct (Hinv _ _ Hl) as [E | E]; [congruence | exact E].
  - rewrite lookup_set_item_str in Hl.
    destruct (String.eqb k "resources").
    + injection Hl as <-. apply truthy_list.
      pose proof (iter_truthy _ _ Ht Hrs) as Hne.
      pose proof (map_result_length _ _ _ Hc) as Hlen.
      pose proof (Forall2_length (ensure_unique_names_renames _ _ _ Hu))
        as Hlen'.
      destruct unique; [|discriminate]. simpl in Hlen'.
      destruct rs; [contradiction|]. simpl in Hlen. lia.
    + destruct (Hinv _ _ Hl) as [E | E]; [congruence | exact E].
Qed.

Lemma package_values_truthy_witness :
  exists p,
    dataset_to_datapackage Sample.slugify Sample.json_loads
      [(VStr "name", VStr "gold"); (VStr "title", VStr "");
       (VStr "version", VStr "1.0"); (VStr "tags", VList []);
       (VStr "license_id", VNone)] = Ok p
    /\ lookup (VStr "version") p = Some (VStr "1.0")
    /\ truthy (VStr "1.0") = true.
Proof.
  eexists. split; [vm_compute; reflexivity|]. split; [reflexivity|].
  apply (package_values_truthy Sample.slugify Sample.json_loads
           [(VStr "name", VStr "gold"); (VStr "title", VStr "");
            (VStr "version", VStr "1.0"); (VStr "tags", VList []);
            (VStr "license_id", VNone)] _ eq_refl "version");
    [reflexivity | discriminate].
Defined.

(** ** The converted resource list *)

Lemma get_of_item (r : dict) (k v : value) :
  item r k = Ok v -> get r k = v.
Proof.
  unfold item, get, get_default. destruct (lookup k r); intros H;
    [injection H as <-; reflexivity | discriminate H].
Qed.

(** Names that are all different go through the de-duplicator
    untouched. *)
Lemma ensure_unique_names_distinct :
  forall rs names,
    Forall (fun r => exists s, item r "name" = Ok (VStr s)) rs ->
    NoDup (map (fun r => get r "name") rs) ->
    (forall r, In r rs -> lookup (get r "name") names = None) ->
    ensure_unique_names rs names = Ok rs.
Proof.
  induction rs as [|r rs IH]; intros names Htext Hnodup Hfresh;
    [reflexivity|].
  inversion Htext as [|x l [s Hs] Hl]; subst.
  inversion Hnodup as [|x l Hnotin Hnd]; subst.
  simpl. rewrite Hs. simpl.
  pose proof (Hfresh r (or_introl eq_refl)) as Hr.
  rewrite (get_of_item _ _ _ Hs) in Hr, Hnotin. rewrite Hr.
  rewrite IH; [reflexivity | exact Hl | exact Hnd |].
  intros r' Hr'. rewrite lookup_set_item.
  rewrite Forall_forall in Hl. destruct (Hl r' Hr') as [s' Hs'].
  rewrite (get_of_item _ _ _ Hs'), key_eqb_str.
  destruct (String.eqb s' s) eqn:E.
  - apply String.eqb_eq in E. subst s'. exfalso. apply Hnotin.
    apply in_map_iff. exists r'. split; [|exact Hr'].
    apply (get_of_item _ _ _ Hs').
  - rewrite <- (get_of_item _ _ _ Hs'). apply Hfresh. right. exact Hr'.
Qed.

(** X5. The resources of a dataset and of the package made from it
    correspond one to one, in order: each package resource is the
    conversion of the dataset resource at its place, as it is or with
    nothing but a new [name].  A dataset whose [resources] are unset or
    empty gives a package without [resources]. *)
Theorem package_resources :
  forall (slugify : string -> string) (json_loads : string -> option value)
         (d p : dict),
    dataset_to_datapackage slugify json_loads d = Ok p ->
    (truthy (get d "resources") = false ->
     lookup (VStr "resources") p = None)
    /\ (forall rs,
          get d "resources" = VList rs -> rs <> [] ->
          exists converted unique,
            map_result (_convert_to_datapackage_resource slugify json_loads)
              rs = Ok converted
            /\ lookup (VStr "resources") p = Some (VList (map VDict unique))
            /\ Forall2 renamed_or_same converted unique
            /\ List.length unique = List.length rs).
Proof.
  intros slugify json_loads d p H.
  apply dataset_to_datapackage_struct in H.
  destruct H as [n [acc [_ [Hacc Hp]]]].
  assert (Hs : Forall (silent_on (VStr "resources"))
                 (dataset_parsers json_loads))
    by (unfold dataset_parsers; silent_tac).
  pose proof (run_parsers_silent (VStr "resources") _ _ _ _ Hs Hacc) as Hr.
  simpl in Hr. split.
  - intros Hf.
    destruct Hp as [[_ ->] | [rs [converted [unique [Ht _]]]]];
      [exact Hr | congruence].
  - intros rs Hrs Hne.
    destruct Hp as [[Hf _] | [rs' [converted [unique [_ [Hi [Hc [Hu ->]]]]]]]].
    + rewrite Hrs in Hf. destruct rs; [contradiction | discriminate Hf].
    + rewrite Hrs in Hi. injection Hi as <-.
      exists converted, unique. split; [exact Hc|]. split.
      * rewrite lookup_set_item_str. reflexivity.
      * pose proof (ensure_unique_names_renames _ _ _ Hu) as Hren.
        split; [exact Hren|].
        transitivity (List.length converted);
          [symmetry; apply (Forall2_length Hren)
          | apply (map_result_length _ _ _ Hc)].
Qed.

Lemma package_resources_witness :
  exists p converted unique,
    dataset_to_datapackage Sample.slugify Sample.json_loads gold_dataset
    = Ok p
    /\ map_result
         (_convert_to_datapackage_resource Sample.slugify Sample.json_loads)
         [VDict [(VStr "name", VStr "Data File");
                 (VStr "url", VStr "http://x/y.csv")]] = Ok converted
    /\ lookup (VStr "resources") p = Some (VList (map VDict unique))
    /\ List.length unique = 1%nat.
Proof.
  eexists.
  assert (Hp : dataset_to_datapackage Sample.slugify Sample.json_loads
                 gold_dataset = Ok _) by (vm_compute; reflexivity).
  destruct (proj2 (package_resources Sample.slugify Sample.json_loads
                     gold_dataset _ Hp)
              [VDict [(VStr "name", VStr "Data File");
                      (VStr "url", VStr "http://x/y.csv")]]
              eq_refl ltac:(discriminate))
    as [converted [unique [Hc [Hl [_ Hlen]]]]].
  exists converted, unique. repeat split; assumption.
Defined.

(** X6. When the converted resources carry textual names that are all
    different, the de-duplicator changes nothing: the package resources
    are exactly the converted ones. *)
Theorem distinct_names_kept :
  forall (slugify : string -> string) (json_loads : string -> option value)
         (d p : dict) (rs : list value) (converted : list dict),
    dataset_to_datapackage slugify json_loads d = Ok p ->
    get d "resources" = VList rs -> rs <> [] ->
    map_result (_convert_to_datapackage_resource slugify json_loads) rs
    = Ok converted ->
    Forall (fun r => exists s, item r "name" = Ok (VStr s)) converted ->
    NoDup (map (fun r => get r "name") converted) ->
    lookup (VStr "resources") p = Some (VList (map VDict converted)).
Proof.
  intros slugify json_loads d p rs converted H Hrs Hne Hc Htext Hnodup.
  apply dataset_to_datapackage_struct in H.
  destruct H as [n [acc [_ [_ Hp]]]].
  destruct Hp as [[Hf _] | [rs' [conv' [unique [_ [Hi [Hc' [Hu ->]]]]]]]].
  - rewrite Hrs in Hf. destruct rs; [contradiction | discriminate Hf].
  - rewrite Hrs in Hi. injection Hi as <-.
    rewrite Hc in Hc'. injection Hc' as <-.
    rewrite (ensure_unique_names_distinct converted [] Htext Hnodup) in Hu
      by (intros; reflexivity).
    injection Hu as <-. rewrite lookup_set_item_str. reflexivity.
Qed.

Lemma distinct_names_kept_witness :
  lookup (VStr "resources")
    [(VStr "name", VStr "gold");
     (VStr "resources",
      VList [VDict [(VStr "name", VStr "r1")];
             VDict [(VStr "name", VStr "r2")]])]
  = Some (VList [VDict [(VStr "name", VStr "r1")];
                 VDict [(VStr "name", VStr "r2")]]).
Proof.
  apply (distinct_names_kept Sample.slugify Sample.json_loads
           [(VStr "name", VStr "gold");
            (VStr "resources",
             VList [VDict [(VStr "id", VStr "r1")];
                    VDict [(VStr "id", VStr "r2")]])]
           [(VStr "name", VStr "gold");
            (VStr "resources",
             VList [VDict [(VStr "name", VStr "r1")];
                    VDict [(VStr "name", VStr "r2")]])]
           [VDict [(VStr "id", VStr "r1")]; VDict [(VStr "id", VStr "r2")]]
           [[(VStr "name", VStr "r1")]; [(VStr "name", VStr "r2")]]).
  - reflexivity.
  - reflexivity.
  - discriminate.
  - reflexivity.
  - repeat constructor; eexists; reflexivity.
  - repeat constructor; simpl; intuition discriminate.
Defined.

(** ** The nested objects of a package *)

Lemma package_license_truthy (d : dict) :
  truthy (VDict (package_license d))
  = truthy (get d "license_id") || truthy (get d "license_title")
    || truthy (get d "license_url").
Proof.
  unfold package_license, copy_if.
  destruct (truthy (get d "license_id")), (truthy (get d "license_title")),
    (truthy (get d "license_url")); reflexivity.
Qed.

Lemma package_source_truthy (d : dict) :
  truthy (VDict (package_source d))
  = truthy (get d "author") || truthy (get d "author_email")
    || truthy (get d "url").
Proof.
  unfold package_source, copy_if.
  destruct (truthy (get d "author")), (truthy (get d "author_email")),
    (truthy (get d "url")); reflexivity.
Qed.

Lemma package_author_truthy (d : dict) :
  truthy (VDict (package_author d))
  = truthy (get d "maintainer") || truthy (get d "maintainer_email").
Proof.
  unfold package_author, copy_if.
  destruct (truthy (get d "maintainer")),
    (truthy (get d "maintainer_email")); reflexivity.
Qed.

Lemma package_nested_lookups (slugify : string -> string)
  (json_loads : string -> option value) (d p : dict) :
  dataset_to_datapackage slugify json_loads d = Ok p ->
  lookup (VStr "license") p
  = (if truthy (VDict (package_license d))
     then Some (VDict (package_license d)) else None)
  /\ lookup (VStr "sources") p
     = (if truthy (VDict (package_source d))
        then Some (VList [VDict (package_source d)]) else None)
  /\ lookup (VStr "author") p
     = (if truthy (VDict (package_author d))
        then Some (VDict (package_author d)) else None).
Proof.
  intros H.
  pose proof (fun k before parser after =>
    package_key_of_parser slugify json_loads k before parser after d p)
    as Hkey.
  repeat split.
  - destruct (Hkey "license"
                (firstn 4 (dataset_parsers json_loads)) _parse_license
                (skipn 5 (dataset_parsers json_loads)))
      as [partial [Hp Hl]];
      [reflexivity | silent_tac | silent_tac | reflexivity | reflexivity
      | exact H |].
    unfold _parse_license in Hp. fold (package_license d) in Hp.
    destruct (truthy (VDict (package_license d)));
      injection Hp as <-; rewrite Hl by distinct_tac; reflexivity.
  - destruct (Hkey "sources"
                (firstn 5 (dataset_parsers json_loads))
                _parse_author_and_source
                (skipn 6 (dataset_parsers json_loads)))
      as [partial [Hp Hl]];
      [reflexivity | silent_tac | silent_tac | reflexivity | reflexivity
      | exact H |].
    unfold _parse_author_and_source in Hp. fold (package_source d) in Hp.
    destruct (truthy (VDict (package_source d)));
      injection Hp as <-; rewrite Hl by distinct_tac; reflexivity.
  - destruct (Hkey "author"
                (firstn 6 (dataset_parsers json_loads)) _parse_maintainer
                (skipn 7 (dataset_parsers json_loads)))
      as [partial [Hp Hl]];
      [reflexivity | silent_tac | silent_tac | reflexivity | reflexivity
      | exact H |].
    unfold _parse_maintainer in Hp. fold (package_author d) in Hp.
    destruct (truthy (VDict (package_author d)));
      injection Hp as <-; rewrite Hl by distinct_tac; reflexivity.
Qed.

Ltac nested_keys :=
  unfold package_license, package_source, package_author;
  rewrite !lookup_copy_if; cbn [String.eqb Ascii.eqb Bool.eqb andb];
  rewrite ?andb_false_r, ?andb_true_r;
  repeat match goal with
    | |- context [if truthy ?x then _ else _] => destruct (truthy x)
    end;
  reflexivity.

(** X7. In a package made from a dataset, [license] is there exactly
    when one of [license_id], [license_title], [license_url] is set, and
    holds them as [type], [title] and [url], each only when set; in the
    same way [sources] is a one-element list holding [author],
    [author_email] and [url] as [name], [email] and [web], and [author]
    holds [maintainer] and [maintainer_email] as [name] and [email]. *)
Theorem package_nested_objects :
  forall (slugify : string -> string) (json_loads : string -> option value)
         (d p : dict),
    dataset_to_datapackage slugify json_loads d = Ok p ->
    (lookup (VStr "license") p
     = (if truthy (get d "license_id") || truthy (get d "license_title")
           || truthy (get d "license_url")
        then Some (VDict (package_license d)) else None)
     /\ lookup (VStr "type") (package_license d)
        = (if truthy (get d "license_id")
           then Some (get d "license_id") else None)
     /\ lookup (VStr "title") (package_license d)
        = (if truthy (get d "license_title")
           then Some (get d "license_title") else None)
     /\ lookup (VStr "url") (package_license d)
        = (if truthy (get d "license_url")
           then Some (get d "license_url") else None))
    /\ (lookup (VStr "sources") p
        = (if truthy (get d "author") || truthy (get d "author_email")
              || truthy (get d "url")
           then Some (VList [VDict (package_source d)]) else None)
        /\ lookup (VStr "name") (package_source d)
           = (if truthy (get d "author") then Some (get d "author") else None)
        /\ lookup (VStr "email") (package_source d)
           = (if truthy (get d "author_email")
              then Some (get d "author_email") else None)
        /\ lookup (VStr "web") (package_source d)
           = (if truthy (get d "url") then Some (get d "url") else None))
    /\ (lookup (VStr "author") p
        = (if truthy (get d "maintainer") || truthy (get d "maintainer_email")
           then Some (VDict (package_author d)) else None)
        /\ lookup (VStr "name") (package_author d)
           = (if truthy (get d "maintainer")
              then Some (get d "maintainer") else None)
        /\ lookup (VStr "email") (package_author d)
           = (if truthy (get d "maintainer_email")
              then Some (get d "maintainer_email") else None)).
Proof.
  intros slugify json_loads d p H.
  destruct (package_nested_lookups slugify json_loads d p H)
    as [Hlic [Hsrc Haut]].
  rewrite package_license_truthy in Hlic.
  rewrite package_source_truthy in Hsrc.
  rewrite package_author_truthy in Haut.
  repeat split; try assumption; nested_keys.
Qed.

Lemma package_nested_objects_witness :
  exists p,
    dataset_to_datapackage Sample.slugify Sample.json_loads gold_dataset
    = Ok p
    /\ lookup (VStr "license") p = Some (VDict [(VStr "type", VStr "cc-by")])
    /\ lookup (VStr "sources") p = None
    /\ lookup (VStr "author") p
       = Some (VDict [(VStr "name", VStr "Jane Doe")]).
Proof.
  eexists.
  assert (Hp : dataset_to_datapackage Sample.slugify Sample.json_loads
                 gold_dataset = Ok _) by (vm_compute; reflexivity).
  destruct (package_nested_objects Sample.slugify Sample.json_loads
              gold_dataset _ Hp) as [[Hlic _] [[Hsrc _] [Haut _]]].
  split; [exact Hp|]. split; [exact Hlic|]. split; [exact Hsrc | exact Haut].
Defined.

(** ** License, sources and author on the way back *)

(** What the sources parser gives on the package made from [d]. *)
Lemma sources_partial_of_package (d p : dict) :
  lookup (VStr "sources") p
  = (if truthy (VDict (package_source d))
     then Some (VList [VDict (package_source d)]) else None) ->
  _datapackage_parse_sources p
  = Ok (copy_if d "url" "url"
          (copy_if d "author_email" "author_email"
             (copy_if d "author" "author" []))).
Proof.
  intros Hl. unfold _datapackage_parse_sources.
  rewrite (get_of_lookup _ _ _ Hl). clear Hl.
  unfold package_source, copy_if.
  set (a := get d "author"). set (e := get d "author_email").
  set (u := get d "url").
  destruct (truthy a) eqn:Ea, (truthy e) eqn:Ee, (truthy u) eqn:Eu;
    cbn; rewrite ?Ea, ?Ee, ?Eu; reflexivity.
Qed.

(** What the author parser gives on the package made from [d], for a
    maintainer that is text when set. *)
Lemma author_partial_of_package (d p : dict) :
  text_if_set (get d "maintainer") = true ->
  lookup (VStr "author") p
  = (if truthy (VDict (package_author d))
     then Some (VDict (package_author d)) else None) ->
  _datapackage_parse_author p
  = Ok (copy_if d "maintainer_email" "maintainer_email"
          match get d "maintainer" with
          | VStr m =>
              if truthy (VStr m) then [(VStr "maintainer", VStr (strip m))]
              else []
          | _ => []
          end).
Proof.
  unfold text_if_set. intros Hok Hl. unfold _datapackage_parse_author.
  rewrite (get_of_lookup _ _ _ Hl). clear Hl.
  unfold package_author, copy_if.
  set (m := get d "maintainer") in *. set (e := get d "maintainer_email").
  destruct (truthy m) eqn:Em, (truthy e) eqn:Ee.
  - destruct m; try discriminate Hok.
    cbn in Em |- *. rewrite ?Em, ?Ee. cbn. rewrite ?Em, ?Ee. reflexivity.
  - destruct m; try discriminate Hok.
    cbn in Em |- *. rewrite ?Em, ?Ee. cbn. rewrite ?Em, ?Ee. reflexivity.
  - destruct m; try discriminate Em;
      cbn in Em |- *; rewrite ?Em, ?Ee; cbn; rewrite ?Em, ?Ee; reflexivity.
  - destruct m; try discriminate Em;
      cbn in Em |- *; rewrite ?Em, ?Ee; cbn; rewrite ?Em, ?Ee; reflexivity.
Qed.

(** What the license parser gives on the package made from [d], when a
    [license_title] comes with a [license_url]. *)
Lemma license_partial_of_package (d p : dict) :
  license_ok d = true ->
  lookup (VStr "license") p
  = (if truthy (VDict (package_license d))
     then Some (VDict (package_license d)) else None) ->
  _datapackage_parse_license p
  = Ok ((if truthy (get d "license_title")
         then set_item (VStr "license_url") (get d "license_url")
         else fun partial => partial)
          (copy_if d "license_title" "license_title"
             (copy_if d "license_id" "license_id" []))).
Proof.
  unfold license_ok. intros Hok Hl. unfold _datapackage_parse_license.
  rewrite (get_of_lookup _ _ _ Hl). clear Hl.
  unfold package_license, copy_if, item.
  set (i := get d "license_id"). set (t := get d "license_title") in *.
  set (u := get d "license_url") in *.
  destruct (truthy i) eqn:Ei, (truthy t) eqn:Et, (truthy u) eqn:Eu;
    try discriminate Hok;
    cbn; rewrite ?Ei, ?Et, ?Eu; cbn; rewrite ?Ei, ?Et, ?Eu; reflexivity.
Qed.

Ltac back_key Hkey k ps n parser H Hpart Hl :=
  let partial := fresh "partial" in
  destruct (Hkey k (firstn n ps) parser (skipn (S n) ps))
    as [partial [Hpart Hl]];
  [reflexivity | silent_tac | silent_tac | reflexivity | reflexivity
  | exact H |].

(** X8. For a dataset of the shape [roundtrip_ready], converted to a
    package and back: [author], [author_email] and [url] come back as
    they were, [maintainer] comes back stripped of surrounding
    whitespace, [maintainer_email], [license_id] and [license_title] come
    back as they were (each of them only when set), [license_url] comes
    back whenever it and [license_title] are both set or both unset, and
    [ckan_url] does not come back. *)
Theorem roundtrip_nested :
  forall (slugify : string -> string) (json_loads : string -> option value)
         (json_dumps : value -> string) (d : dict) (rs : list Resource.t),
    roundtrip_ready d = true ->
    forallb supported rs = true ->
    exists p out,
      dataset_to_datapackage slugify json_loads d = Ok p
      /\ datapackage_to_dataset slugify json_dumps
           {| Package.descriptor := p; Package.resources := rs |} = Ok out
      /\ lookup (VStr "author") out
         = (if truthy (get d "author") then Some (get d "author") else None)
      /\ lookup (VStr "author_email") out
         = (if truthy (get d "author_email")
            then Some (get d "author_email") else None)
      /\ lookup (VStr "url") out
         = (if truthy (get d "url") then Some (get d "url") else None)
      /\ lookup (VStr "maintainer") out
         = match get d "maintainer" with
           | VStr m => if truthy (VStr m) then Some (VStr (strip m)) else None
           | _ => None
           end
      /\ lookup (VStr "maintainer_email") out
         = (if truthy (get d "maintainer_email")
            then Some (get d "maintainer_email") else None)
      /\ lookup (VStr "license_id") out
         = (if truthy (get d "license_id")
            then Some (get d "license_id") else None)
      /\ lookup (VStr "license_title") out
         = (if truthy (get d "license_title")
            then Some (get d "license_title") else None)
      /\ (truthy (get d "license_title") = truthy (get d "license_url") ->
          lookup (VStr "license_url") out
          = (if truthy (get d "license_url")
             then Some (get d "license_url") else None))
      /\ lookup (VStr "ckan_url") out = None.
Proof.
  intros slugify json_loads json_dumps d rs Hready Hrs.
  destruct (dataset_to_datapackage_ready slugify json_loads d Hready)
    as [p Hp].
  destruct (datapackage_to_dataset_ready slugify json_loads json_dumps
              d p rs Hready Hrs Hp) as [n [out [_ [Hout _]]]].
  exists p, out. split; [exact Hp|]. split; [exact Hout|].
  destruct (package_nested_lookups slugify json_loads d p Hp)
    as [Hlic [Hsrc Haut]].
  unfold roundtrip_ready in Hready.
  repeat (apply andb_true_iff in Hready; destruct Hready as [Hready ?]).
  match goal with
  | Hl : license_ok d = true, Hm : text_if_set _ = true |- _ =>
      pose proof (license_partial_of_package d p Hl Hlic) as Elic;
      pose proof (author_partial_of_package d p Hm Haut) as Eaut
  end.
  pose proof (sources_partial_of_package d p Hsrc) as Esrc.
  pose proof (fun k before parser after =>
    dataset_key_of_parser slugify json_dumps k before parser after
      {| Package.descriptor := p; Package.resources := rs |} out) as Hkey.
  cbn [Package.descriptor] in Hkey.
  assert (Dsrc : distinct
                   (copy_if d "url" "url"
                      (copy_if d "author_email" "author_email"
                         (copy_if d "author" "author" []))))
    by distinct_tac.
  assert (Daut : distinct
                   (copy_if d "maintainer_email" "maintainer_email"
                      match get d "maintainer" with
                      | VStr m =>
                          if truthy (VStr m)
                          then [(VStr "maintainer", VStr (strip m))] else []
                      | _ => []
                      end)).
  { apply distinct_copy_if. destruct (get d "maintainer"); try exact I.
    destruct (truthy (VStr s)); [split; [reflexivity | exact I] | exact I]. }
  assert (Dlic : distinct
                   ((if truthy (get d "license_title")
                     then set_item (VStr "license_url") (get d "license_url")
                     else fun partial => partial)
                      (copy_if d "license_title" "license_title"
                         (copy_if d "license_id" "license_id" []))))
    by (destruct (truthy (get d "license_title")); distinct_tac).
  repeat split.
  - back_key Hkey "author" (datapackage_parsers slugify json_dumps) 4%nat
      _datapackage_parse_sources Hout Hpart Hl.
    rewrite Esrc in Hpart. injection Hpart as <-. rewrite (Hl Dsrc).
    resource_keys.
  - back_key Hkey "author_email" (datapackage_parsers slugify json_dumps) 4%nat
      _datapackage_parse_sources Hout Hpart Hl.
    rewrite Esrc in Hpart. injection Hpart as <-. rewrite (Hl Dsrc).
    resource_keys.
  - back_key Hkey "url" (datapackage_parsers slugify json_dumps) 4%nat
      _datapackage_parse_sources Hout Hpart Hl.
    rewrite Esrc in Hpart. injection Hpart as <-. rewrite (Hl Dsrc).
    resource_keys.
  - back_key Hkey "maintainer" (datapackage_parsers slugify json_dumps) 5%nat
      _datapackage_parse_author Hout Hpart Hl.
    rewrite Eaut in Hpart. injection Hpart as <-. rewrite (Hl Daut).
    rewrite lookup_copy_if. cbn [String.eqb Ascii.eqb Bool.eqb andb].
    rewrite andb_false_r.
    destruct (get d "maintainer"); try reflexivity.
    cbn [truthy]. destruct (negb (String.eqb s "")); reflexivity.
  - back_key Hkey "maintainer_email" (datapackage_parsers slugify json_dumps) 5%nat
      _datapackage_parse_author Hout Hpart Hl.
    rewrite Eaut in Hpart. injection Hpart as <-. rewrite (Hl Daut).
    rewrite lookup_copy_if. cbn [String.eqb Ascii.eqb Bool.eqb andb].
    rewrite andb_true_r.
    destruct (truthy (get d "maintainer_email")); [reflexivity|].
    destruct (get d "maintainer"); try reflexivity.
    cbn [truthy]. destruct (negb (String.eqb s "")); reflexivity.
  - back_key Hkey "license_id" (datapackage_parsers slugify json_dumps) 3%nat
      _datapackage_parse_license Hout Hpart Hl.
    rewrite Elic in Hpart. injection Hpart as <-. rewrite (Hl Dlic).
    destruct (truthy (get d "license_title")); resource_keys.
  - back_key Hkey "license_title" (datapackage_parsers slugify json_dumps) 3%nat
      _datapackage_parse_license Hout Hpart Hl.
    rewrite Elic in Hpart. injection Hpart as <-. rewrite (Hl Dlic).
    destruct (truthy (get d "license_title")) eqn:E; resource_keys;
      rewrite E; reflexivity.
  - intros Hboth.
    back_key Hkey "license_url" (datapackage_parsers slugify json_dumps) 3%nat
      _datapackage_parse_license Hout Hpart Hl.
    rewrite Elic in Hpart. injection Hpart as <-. rewrite (Hl Dlic).
    rewrite <- Hboth.
    destruct (truthy (get d "license_title")); resource_keys.
  - destruct (dataset_shape slugify json_dumps _ _ Hout) as [Hk _].
    apply (keys_in_lookup dataset_keys); [exact Hk|].
    simpl. intuition discriminate.
Qed.

Lemma roundtrip_nested_witness :
  roundtrip_ready gold_dataset = true
  /\ forallb supported gold_resources = true
  /\ exists p out,
      dataset_to_datapackage Sample.slugify Sample.json_loads gold_dataset
      = Ok p
      /\ datapackage_to_dataset Sample.slugify Sample.json_dumps
           {| Package.descriptor := p; Package.resources := gold_resources |}
         = Ok out
      /\ lookup (VStr "maintainer") out = Some (VStr "Jane Doe")
      /\ lookup (VStr "license_id") out = Some (VStr "cc-by")
      /\ lookup (VStr "author") out = None.
Proof.
  split; [reflexivity|]. split; [reflexivity|].
  destruct (roundtrip_nested Sample.slugify Sample.json_loads
              Sample.json_dumps gold_dataset gold_resources eq_refl eq_refl)
    as [p [out [Hp [Hout [Ha [_ [_ [Hm [_ [Hl _]]]]]]]]]].
  exists p, out. repeat split; assumption.
Defined.

(** ** Malformed tags and extras *)

Lemma run_parsers_raise (e : exn) :
  forall before parser after source acc,
    Forall (fun p => exists partial, p source = Ok partial) before ->
    parser source = Raise e ->
    run_parsers (before ++ parser :: after) source acc = Raise e.
Proof.
  induction before as [|p ps IH]; intros parser after source acc Hb Hp.
  - simpl. rewrite Hp. reflexivity.
  - inversion Hb as [|x l [partial Hpart] Hps]; subst.
    simpl. rewrite Hpart. simpl. apply IH; assumption.
Qed.

Lemma dataset_parsers_before_tags (json_loads : string -> option value)
  (d : dict) :
  Forall (fun p => exists partial, p d = Ok partial)
    (firstn 7 (dataset_parsers json_loads)).
Proof.
  simpl. repeat apply Forall_cons; try apply Forall_nil;
    try (eexists; reflexivity).
  - unfold _parse_license.
    match goal with |- context [if ?b then _ else _] => destruct b end;
      eexists; reflexivity.
  - unfold _parse_author_and_source.
    match goal with |- context [if ?b then _ else _] => destruct b end;
      eexists; reflexivity.
  - unfold _parse_maintainer.
    match goal with |- context [if ?b then _ else _] => destruct b end;
      eexists; reflexivity.
Qed.

Lemma dataset_raises_in_tags (slugify : string -> string)
  (json_loads : string -> option value) (d : dict) (e : exn) :
  lookup (VStr "name") d <> None ->
  _parse_tags d = Raise e ->
  dataset_to_datapackage slugify json_loads d = Raise e.
Proof.
  intros Hn Ht. unfold dataset_to_datapackage, item.
  destruct (lookup (VStr "name") d) as [n|]; [|contradiction].
  cbn [bind].
  change (dataset_parsers json_loads)
    with (firstn 7 (dataset_parsers json_loads)
            ++ _parse_tags :: [_parse_extras json_loads])%list.
  rewrite (run_parsers_raise e _ _ _ _ _
             (dataset_parsers_before_tags json_loads d) Ht).
  reflexivity.
Qed.

(** X9. A dataset with a [name] whose [tags] are malformed is not
    converted: [tags] that are [None], a boolean or a number raise
    [TypeError] (they cannot be iterated); a list of tags that are all
    mappings, one of them without [name], raises [KeyError] on [name];
    and a list that starts with a tag given as plain text raises
    [TypeError]. *)
Theorem malformed_tags :
  forall (slugify : string -> string) (json_loads : string -> option value)
         (d : dict),
    lookup (VStr "name") d <> None ->
    (forall v,
        lookup (VStr "tags") d = Some v ->
        (v = VNone \/ (exists b, v = VBool b) \/ (exists z, v = VInt z)) ->
        dataset_to_datapackage slugify json_loads d = Raise TypeError)
    /\ (forall tags,
          lookup (VStr "tags") d = Some (VList tags) ->
          Forall (fun tag => exists t, tag = VDict t) tags ->
          Exists (fun tag => exists t, tag = VDict t
                                       /\ lookup (VStr "name") t = None)
            tags ->
          dataset_to_datapackage slugify json_loads d
          = Raise (KeyError (VStr "name")))
    /\ (forall s tags,
          lookup (VStr "tags") d = Some (VList (VStr s :: tags)) ->
          dataset_to_datapackage slugify json_loads d = Raise TypeError).
Proof.
  intros slugify json_loads d Hn. split; [|split].
  - intros v Hv Hshape. apply dataset_raises_in_tags; [exact Hn|].
    unfold _parse_tags, get_default. rewrite Hv.
    destruct Hshape as [-> | [[b ->] | [z ->]]]; reflexivity.
  - intros tags Hv Hall Hex. apply dataset_raises_in_tags; [exact Hn|].
    unfold _parse_tags, get_default. rewrite Hv. cbn [iter bind].
    rewrite (map_result_Raise _ (KeyError (VStr "name"))); [reflexivity| |].
    + apply Exists_exists in Hex. destruct Hex as [tag [Hin [t [-> Ht]]]].
      exists (VDict t). split; [exact Hin|].
      simpl. unfold item. rewrite Ht. reflexivity.
    + intros tag Hin. rewrite Forall_forall in Hall.
      destruct (Hall tag Hin) as [t ->]. simpl. unfold item.
      destruct (lookup (VStr "name") t) as [v|];
        [right; exists v; reflexivity | left; reflexivity].
  - intros s tags Hv. apply dataset_raises_in_tags; [exact Hn|].
    unfold _parse_tags, get_default. rewrite Hv. reflexivity.
Qed.

Lemma malformed_tags_witness :
  dataset_to_datapackage Sample.slugify Sample.json_loads
    [(VStr "name", VStr "gold");
     (VStr "tags",
      VList [VDict [(VStr "name", VStr "metals")];
             VDict [(VStr "display_name", VStr "prices")]])]
  = Raise (KeyError (VStr "name")).
Proof.
  apply (proj1 (proj2 (malformed_tags Sample.slugify Sample.json_loads
    [(VStr "name", VStr "gold");
     (VStr "tags",
      VList [VDict [(VStr "name", VStr "metals")];
             VDict [(VStr "display_name", VStr "prices")]])]
    ltac:(discriminate)))
    [VDict [(VStr "name", VStr "metals")];
     VDict [(VStr "display_name", VStr "prices")]]).
  - reflexivity.
  - repeat constructor; eexists; reflexivity.
  - apply Exists_cons_tl, Exists_cons_hd. eexists. split; reflexivity.
Defined.

Lemma py_dict_unhashable :
  forall pairs acc,
    Exists (fun kv => hash_key (fst kv) = None) pairs ->
    py_dict pairs acc = Raise TypeError.
Proof.
  induction pairs as [|[k v] pairs IH]; intros acc H.
  - inversion H.
  - simpl. destruct (hash_key k) eqn:E; [|reflexivity].
    inversion H as [x l Hx | x l Hl]; subst.
    + simpl in Hx. congruence.
    + apply IH, Hl.
Qed.

Lemma dataset_raises_in_extras (slugify : string -> string)
  (json_loads : string -> option value) (d : dict) (e : exn) :
  lookup (VStr "name") d <> None ->
  tags_ok d = true ->
  _parse_extras json_loads d = Raise e ->
  dataset_to_datapackage slugify json_loads d = Raise e.
Proof.
  intros Hn Htags He. unfold dataset_to_datapackage, item.
  destruct (lookup (VStr "name") d) as [n|]; [|contradiction].
  cbn [bind].
  change (dataset_parsers json_loads)
    with ((firstn 7 (dataset_parsers json_loads) ++ [_parse_tags])
            ++ _parse_extras json_loads :: [])%list.
  assert (Hb : Forall (fun p => exists partial, p d = Ok partial)
                 (firstn 7 (dataset_parsers json_loads) ++ [_parse_tags])).
  { apply Forall_app. split; [apply dataset_parsers_before_tags|].
    apply Forall_cons; [|apply Forall_nil].
    rewrite (parse_tags_ready d Htags). eexists. reflexivity. }
  rewrite (run_parsers_raise e _ _ _ _ _ Hb He).
  reflexivity.
Qed.

(** X10. A dataset with a [name] and well-formed tags whose [extras] are
    malformed is not converted: [extras] that are [None], a boolean or a
    number raise [TypeError]; a list of extras that are all mappings with
    a [value], one of them without [key], raises [KeyError] on [key]; and
    a list of extras that all have [key] and [value], one of the keys
    being a list or a mapping, raises [TypeError] (the key is
    unhashable). *)
Theorem malformed_extras :
  forall (slugify : string -> string) (json_loads : string -> option value)
         (d : dict),
    lookup (VStr "name") d <> None ->
    tags_ok d = true ->
    (forall v,
        lookup (VStr "extras") d = Some v ->
        (v = VNone \/ (exists b, v = VBool b) \/ (exists z, v = VInt z)) ->
        dataset_to_datapackage slugify json_loads d = Raise TypeError)
    /\ (forall extras,
          lookup (VStr "extras") d = Some (VList extras) ->
          Forall (fun extra => exists e, extra = VDict e
                                         /\ lookup (VStr "value") e <> None)
            extras ->
          Exists (fun extra => exists e, extra = VDict e
                                         /\ lookup (VStr "key") e = None)
            extras ->
          dataset_to_datapackage slugify json_loads d
          = Raise (KeyError (VStr "key")))
    /\ (forall extras,
          lookup (VStr "extras") d = Some (VList extras) ->
          Forall (fun extra => exists e, extra = VDict e
                                         /\ lookup (VStr "key") e <> None
                                         /\ lookup (VStr "value") e <> None)
            extras ->
          Exists (fun extra => exists e, extra = VDict e
                                         /\ is_structured (get e "key") = true)
            extras ->
          dataset_to_datapackage slugify json_loads d = Raise TypeError).
Proof.
  intros slugify json_loads d Hn Htags. split; [|split].
  - intros v Hv Hshape.
    apply dataset_raises_in_extras; [exact Hn | exact Htags |].
    unfold _parse_extras, get_default. rewrite Hv.
    destruct Hshape as [-> | [[b ->] | [z ->]]]; reflexivity.
  - intros extras Hv Hall Hex.
    apply dataset_raises_in_extras; [exact Hn | exact Htags |].
    unfold _parse_extras, get_default. rewrite Hv. cbn [iter bind].
    rewrite (map_result_Raise _ (KeyError (VStr "key"))); [reflexivity| |].
    + apply Exists_exists in Hex. destruct Hex as [x [Hin [e [-> He]]]].
      exists (VDict e). split; [exact Hin|].
      simpl. unfold item. rewrite He. reflexivity.
    + intros x Hin. rewrite Forall_forall in Hall.
      destruct (Hall x Hin) as [e [-> Hval]]. simpl. unfold item.
      destruct (lookup (VStr "key") e) as [k|]; [|left; reflexivity].
      destruct (lookup (VStr "value") e) as [v|]; [|contradiction].
      right. eexists. reflexivity.
  - intros extras Hv Hall Hex.
    apply dataset_raises_in_extras; [exact Hn | exact Htags |].
    unfold _parse_extras, get_default. rewrite Hv. cbn [iter bind].
    rewrite (map_result_total _ extra_pair).
    + cbn [bind]. rewrite map_map.
      assert (Hbad : Exists (fun kv => hash_key (fst kv) = None)
                       (map (fun x => (fst (extra_pair x),
                                       loads_or_keep json_loads
                                         (snd (extra_pair x)))) extras)).
      { apply Exists_exists in Hex. destruct Hex as [x [Hin [e [-> He]]]].
        apply Exists_exists. eexists. split.
        - apply in_map_iff. exists (VDict e). split; [reflexivity | exact Hin].
        - simpl. destruct (get e "key"); try discriminate He; reflexivity. }
      destruct (map _ extras) as [|pair pairs] eqn:Emap; [inversion Hbad|].
      rewrite (py_dict_unhashable _ [] Hbad). reflexivity.
    + intros x Hin. rewrite Forall_forall in Hall.
      destruct (Hall x Hin) as [e [-> [Hk Hval]]]. simpl.
      unfold item, get, get_default.
      destruct (lookup (VStr "key") e); [|contradiction].
      destruct (lookup (VStr "value") e); [reflexivity | contradiction].
Qed.

Lemma malformed_extras_witness :
  dataset_to_datapackage Sample.slugify Sample.json_loads
    [(VStr "name", VStr "gold");
     (VStr "extras",
      VList [VDict [(VStr "key", VList [VStr "a"]);
                    (VStr "value", VStr "1")]])]
  = Raise TypeError.
Proof.
  apply (proj2 (proj2 (malformed_extras Sample.slugify Sample.json_loads
    [(VStr "name", VStr "gold");
     (VStr "extras",
      VList [VDict [(VStr "key", VList [VStr "a"]);
                    (VStr "value", VStr "1")]])]
    ltac:(discriminate) eq_refl))
    [VDict [(VStr "key", VList [VStr "a"]); (VStr "value", VStr "1")]]).
  - reflexivity.
  - repeat constructor. eexists. split; [reflexivity|].
    split; discriminate.
  - apply Exists_cons_hd. eexists. split; reflexivity.
Defined.

(** ** The author pattern, group by group *)

Lemma span_not_lt_spec :
  forall s name rest,
    span_not_lt s = (name, rest) ->
    s = name ++ rest
    /\ no_lt name = true
    /\ (rest = "" \/ exists t, rest = String "<" t).
Proof.
  unfold no_lt. induction s as [|c t IH]; simpl; intros name rest H.
  - injection H as <- <-. repeat split. left. reflexivity.
  - destruct (Ascii.eqb c "<") eqn:E.
    + injection H as <- <-. apply Ascii.eqb_eq in E. subst c.
      repeat split. right. exists t. reflexivity.
    + destruct (span_not_lt t) as [a b]. injection H as <- <-.
      destruct (IH a b eq_refl) as [Ht [Hno Hrest]].
      simpl. rewrite E, Hno. rewrite <- Ht. repeat split. exact Hrest.
Qed.

Lemma nonspace_run_spec :
  forall t, no_space (nonspace_run t) = true
            /\ exists t', t = nonspace_run t ++ t'.
Proof.
  unfold no_space. induction t as [|c t [IHn [t' IHt]]]; simpl.
  - split; [reflexivity | exists ""; reflexivity].
  - destruct (isspace c) eqn:E; simpl.
    + split; [reflexivity | exists (String c t); reflexivity].
    + rewrite E, IHn. split; [reflexivity|].
      exists t'. rewrite <- IHt. reflexivity.
Qed.

Lemma rindex_gt_spec :
  forall s i,
    rindex_gt s = Some i ->
    exists tail, s = substring 0 i s ++ String ">" tail.
Proof.
  induction s as [|c t IH]; simpl; intros i H; [discriminate H|].
  destruct (rindex_gt t) as [j|].
  - injection H as <-. destruct (IH j eq_refl) as [tail Ht].
    exists tail. simpl. rewrite <- Ht. reflexivity.
  - destruct (Ascii.eqb c ">") eqn:E; [|discriminate H].
    injection H as <-. apply Ascii.eqb_eq in E. subst c.
    exists t. destruct t; reflexivity.
Qed.

Lemma no_space_prefix :
  forall s i, no_space s = true -> no_space (substring 0 i s) = true.
Proof.
  unfold no_space. induction s as [|c t IH]; intros i H.
  - destruct i; reflexivity.
  - destruct i; [reflexivity|]. simpl in H |- *.
    apply andb_true_iff in H. destruct H as [Hc Ht].
    rewrite Hc. apply IH, Ht.
Qed.

Lemma str_append_assoc :
  forall a b c : string, (a ++ b) ++ c = a ++ (b ++ c).
Proof.
  induction a as [|x a IH]; intros b c; simpl; [reflexivity|].
  rewrite IH. reflexivity.
Qed.

Lemma email_group_spec (rest e : string) :
  email_group rest = Some e ->
  e <> ""
  /\ no_space e = true
  /\ exists tail, rest = String "<" (e ++ String ">" tail).
Proof.
  unfold email_group. destruct rest as [|c t]; [discriminate|].
  destruct (Ascii.eqb c "<") eqn:E; [|discriminate].
  apply Ascii.eqb_eq in E. subst c.
  destruct (nonspace_run_spec t) as [Hns [t' Ht]].
  destruct (rindex_gt (nonspace_run t)) as [[|i]|] eqn:Er; try discriminate.
  intros H. injection H as <-.
  destruct (rindex_gt_spec _ _ Er) as [tail Htail].
  split; [|split].
  - destruct (nonspace_run t); [discriminate Er | discriminate].
  - apply no_space_prefix, Hns.
  - exists (tail ++ t'). f_equal.
    rewrite Ht at 1. rewrite Htail at 1.
    rewrite str_append_assoc. reflexivity.
Qed.

Lemma nonspace_run_app (e tail : string) :
  no_space e = true ->
  nonspace_run (e ++ String ">" tail) = e ++ String ">" (nonspace_run tail).
Proof.
  unfold no_space. induction e as [|c e IH]; simpl; intros H.
  - reflexivity.
  - apply andb_true_iff in H. destruct H as [Hc He].
    apply negb_true_iff in Hc. rewrite Hc, (IH He). reflexivity.
Qed.

Lemma rindex_gt_app :
  forall a b, exists j,
    rindex_gt (a ++ String ">" b) = Some j /\ (String.length a <= j)%nat.
Proof.
  induction a as [|c a IH]; intros b.
  - simpl. destruct (rindex_gt b) as [i|]; eexists; split;
      try reflexivity; lia.
  - simpl. destruct (IH b) as [j [Hj Hle]]. rewrite Hj.
    exists (S j). split; [reflexivity | lia].
Qed.

Lemma email_group_complete (e tail : string) :
  e <> "" -> no_space e = true ->
  exists e', email_group (String "<" (e ++ String ">" tail)) = Some e'.
Proof.
  intros Hne Hns. unfold email_group. simpl.
  rewrite (nonspace_run_app e tail Hns).
  destruct (rindex_gt_app e (nonspace_run tail)) as [j [Hj Hle]].
  rewrite Hj. destruct e; [contradiction|]. simpl in Hle.
  destruct j as [|i]; [lia|]. eexists. reflexivity.
Qed.

(** X11. A string author, group by group.  The empty string gives
    nothing; a string that starts with ['<'] raises [AttributeError];
    any other string splits into the text up to its first ['<'] and the
    rest, and gives [maintainer], that text stripped, followed by
    [maintainer_email] exactly when the rest opens with a [<...>] group
    of non-space characters, the email then being non-empty, free of
    whitespace and followed by its ['>']. *)
Theorem author_string_groups :
  forall (d : dict) (s : string),
    get d "author" = VStr s ->
    (s = "" -> _datapackage_parse_author d = Ok [])
    /\ (forall t, s = String "<" t ->
                  _datapackage_parse_author d = Raise AttributeError)
    /\ (forall c t,
          s = String c t -> c <> "<"%char ->
          exists name rest,
            s = name ++ rest
            /\ name <> ""
            /\ no_lt name = true
            /\ (rest = "" \/ exists t', rest = String "<" t')
            /\ _datapackage_parse_author d
               = Ok ((VStr "maintainer", VStr (strip name))
                       :: match email_group rest with
                          | Some e => [(VStr "maintainer_email", VStr e)]
                          | None => []
                          end)
            /\ (forall e,
                  email_group rest = Some e ->
                  e <> "" /\ no_space e = true
                  /\ exists tail, rest = String "<" (e ++ String ">" tail))
            /\ (forall e tail,
                  rest = String "<" (e ++ String ">" tail) ->
                  e <> "" -> no_space e = true ->
                  email_group rest <> None)).
Proof.
  intros d s Hs. split; [|split].
  - intros ->. unfold _datapackage_parse_author. rewrite Hs. reflexivity.
  - intros t ->. unfold _datapackage_parse_author. rewrite Hs. reflexivity.
  - intros c t -> Hc.
    destruct (span_not_lt (String c t)) as [name rest] eqn:Hspan.
    destruct (span_not_lt_spec _ _ _ Hspan) as [Hcat [Hno Hrest]].
    assert (Hname : name <> "").
    { simpl in Hspan. apply Ascii.eqb_neq in Hc. rewrite Hc in Hspan.
      destruct (span_not_lt t). injection Hspan as <- _. discriminate. }
    exists name, rest.
    split; [exact Hcat|]. split; [exact Hname|]. split; [exact Hno|].
    split; [exact Hrest|]. split; [|split].
    + unfold _datapackage_parse_author, author_re_match.
      rewrite Hs, Hspan. cbn [truthy String.eqb negb].
      destruct name as [|c0 name0]; [contradiction|].
      cbn [group_name group_email bind truthy String.eqb negb py_strip].
      destruct (email_group rest) as [e|] eqn:He; [|reflexivity].
      destruct (email_group_spec _ _ He) as [Hne _].
      destruct e; [contradiction | reflexivity].
    + apply email_group_spec.
    + intros e tail -> Hne Hns.
      destruct (email_group_complete e tail Hne Hns) as [e' He'].
      rewrite He'. discriminate.
Qed.

Lemma author_string_groups_witness :
  exists name rest,
    "Jane Doe <jane@x.org> (owner)" = name ++ rest
    /\ no_lt name = true
    /\ _datapackage_parse_author
         [(VStr "name", VStr "gold");
          (VStr "author", VStr "Jane Doe <jane@x.org> (owner)")]
       = Ok ((VStr "maintainer", VStr (strip name))
               :: match email_group rest with
                  | Some e => [(VStr "maintainer_email", VStr e)]
                  | None => []
                  end).
Proof.
  destruct (proj2 (proj2 (author_string_groups
              [(VStr "name", VStr "gold");
               (VStr "author", VStr "Jane Doe <jane@x.org> (owner)")]
              "Jane Doe <jane@x.org> (owner)" eq_refl))
              "J"%char "ane Doe <jane@x.org> (owner)" eq_refl
              ltac:(discriminate))
    as [name [rest [Hcat [_ [Hno [_ [Hparse _]]]]]]].
  exists name, rest. repeat split; assumption.
Defined.

(** ** Sources *)

Lemma subscript_first (x : value) (l : list value) :
  subscript (VList (x :: l)) (VInt 0) = Ok x.
Proof.
  unfold subscript, index_of, seq_item.
  change (0 <? 0)%Z with false. cbv iota.
  replace ((0 <=? 0) && (0 <? Z.of_nat (List.length (x :: l))))%Z with true.
  - reflexivity.
  - symmetry. apply andb_true_iff. split; [reflexivity|].
    apply Z.ltb_lt. simpl List.length. lia.
Qed.

Lemma distinct_datapackage_parse_sources (d partial : dict) :
  _datapackage_parse_sources d = Ok partial -> distinct partial.
Proof.
  unfold _datapackage_parse_sources. intros H.
  invert_ok; split_ifs; distinct_tac.
Qed.

Lemma sources_partial (d m : dict) (rest : list value) :
  get d "sources" = VList (VDict m :: rest) ->
  _datapackage_parse_sources d
  = Ok (copy_if m "web" "url"
          (copy_if m "email" "author_email"
             (copy_if m "name" "author" []))).
Proof.
  intros H. unfold _datapackage_parse_sources. rewrite H.
  cbn [truthy]. rewrite subscript_first. reflexivity.
Qed.

(** X12. Of the [sources] of a descriptor only the first counts.  When
    it is a mapping, its [name], [email] and [web] become the [author],
    [author_email] and [url] of the dataset, each only when set, whatever
    the sources after it are; when it is anything but a mapping the
    conversion raises [AttributeError]; and an empty list of sources
    gives none of the three keys. *)
Theorem sources_first_only :
  forall (slugify : string -> string) (json_dumps : value -> string)
         (datapackage : Package.t),
    (forall m rest out,
        get (Package.descriptor datapackage) "sources"
        = VList (VDict m :: rest) ->
        datapackage_to_dataset slugify json_dumps datapackage = Ok out ->
        lookup (VStr "author") out
        = (if truthy (get m "name") then Some (get m "name") else None)
        /\ lookup (VStr "author_email") out
           = (if truthy (get m "email") then Some (get m "email") else None)
        /\ lookup (VStr "url") out
           = (if truthy (get m "web") then Some (get m "web") else None))
    /\ (forall first rest,
          get (Package.descriptor datapackage) "sources"
          = VList (first :: rest) ->
          (forall m, first <> VDict m) ->
          _datapackage_parse_sources (Package.descriptor datapackage)
          = Raise AttributeError
          /\ forall out,
              datapackage_to_dataset slugify json_dumps datapackage
              <> Ok out)
    /\ (get (Package.descriptor datapackage) "sources" = VList [] ->
        _datapackage_parse_sources (Package.descriptor datapackage) = Ok []).
Proof.
  intros slugify json_dumps datapackage. split; [|split].
  - intros m rest out Hs Hout.
    pose proof (sources_partial _ m rest Hs) as Epart.
    pose proof (fun k before parser after =>
      dataset_key_of_parser slugify json_dumps k before parser after
        datapackage out) as Hkey.
    repeat split.
    + back_key Hkey "author" (datapackage_parsers slugify json_dumps) 4%nat
        _datapackage_parse_sources Hout Hpart Hl.
      rewrite Epart in Hpart. injection Hpart as <-.
      rewrite Hl by distinct_tac. resource_keys.
    + back_key Hkey "author_email" (datapackage_parsers slugify json_dumps)
        4%nat _datapackage_parse_sources Hout Hpart Hl.
      rewrite Epart in Hpart. injection Hpart as <-.
      rewrite Hl by distinct_tac. resource_keys.
    + back_key Hkey "url" (datapackage_parsers slugify json_dumps) 4%nat
        _datapackage_parse_sources Hout Hpart Hl.
      rewrite Epart in Hpart. injection Hpart as <-.
      rewrite Hl by distinct_tac. resource_keys.
  - intros first rest Hs Hnot.
    assert (Hraise : _datapackage_parse_sources
                       (Package.descriptor datapackage)
                     = Raise AttributeError).
    { unfold _datapackage_parse_sources. rewrite Hs. cbn [truthy].
      rewrite subscript_first. cbn [bind].
      destruct first; try reflexivity. exfalso. eapply Hnot. reflexivity. }
    split; [exact Hraise|]. intros out Hout.
    pose proof (fun k before parser after =>
      dataset_key_of_parser slugify json_dumps k before parser after
        datapackage out) as Hkey.
    back_key Hkey "author" (datapackage_parsers slugify json_dumps) 4%nat
      _datapackage_parse_sources Hout Hpart Hl.
    rewrite Hraise in Hpart. discriminate Hpart.
  - intros Hs. unfold _datapackage_parse_sources. rewrite Hs. reflexivity.
Qed.

Lemma sources_first_only_witness :
  exists out,
    datapackage_to_dataset Sample.slugify Sample.json_dumps
      {| Package.descriptor :=
           [(VStr "name", VStr "gold");
            (VStr "sources",
             VList [VDict [(VStr "name", VStr "World Bank");
                           (VStr "web", VStr "http://wb.org")];
                    VDict [(VStr "name", VStr "IMF")]])];
         Package.resources := [] |} = Ok out
    /\ lookup (VStr "author") out = Some (VStr "World Bank")
    /\ lookup (VStr "author_email") out = None
    /\ lookup (VStr "url") out = Some (VStr "http://wb.org").
Proof.
  eexists. split; [vm_compute; reflexivity|].
  apply (proj1 (sources_first_only Sample.slugify Sample.json_dumps
    {| Package.descriptor :=
         [(VStr "name", VStr "gold");
          (VStr "sources",
           VList [VDict [(VStr "name", VStr "World Bank");
                         (VStr "web", VStr "http://wb.org")];
                  VDict [(VStr "name", VStr "IMF")]])];
       Package.resources := [] |})
    [(VStr "name", VStr "World Bank"); (VStr "web", VStr "http://wb.org")]
    [VDict [(VStr "name", VStr "IMF")]] _ eq_refl eq_refl).
Defined.

(** ** Package-side resources, field by field *)

Lemma keys_in_ckan_resource_name (descriptor : dict) :
  keys_in ckan_resource_keys (ckan_resource_name descriptor).
Proof.
  unfold ckan_resource_name.
  destruct (truthy (get descriptor "name")); [|constructor].
  constructor; [|constructor].
  exists "name". split; [reflexivity | simpl; tauto].
Qed.

Lemma distinct_ckan_resource_name (descriptor : dict) :
  distinct (ckan_resource_name descriptor).
Proof.
  unfold ckan_resource_name.
  destruct (truthy (get descriptor "name")); [|exact I].
  split; [reflexivity | exact I].
Qed.

Lemma ckan_resource_shape (descriptor : dict) (k : string) (v : value) :
  In k ["path"; "url"; "data"] ->
  keys_in ckan_resource_keys
    (ckan_resource_tail descriptor
       (set_item (VStr k) v (ckan_resource_name descriptor)))
  /\ distinct
       (ckan_resource_tail descriptor
          (set_item (VStr k) v (ckan_resource_name descriptor))).
Proof.
  intros Hk. unfold ckan_resource_tail. split.
  - repeat (apply keys_in_copy_if; [simpl; tauto|]).
    apply keys_in_set_item; [|apply keys_in_ckan_resource_name].
    simpl in Hk |- *. intuition.
  - repeat apply distinct_copy_if.
    apply distinct_set_item, distinct_ckan_resource_name.
Qed.

(** X13. A package-side resource in a supported mode converts to a
    record whose only keys are [name], one of [path], [url] and [data],
    [description], [format], [hash] and [schema], none of them twice.
    Its [name] is the descriptor's [title] when that is set and the
    descriptor's [name] otherwise, and is left out, with any title, when
    the descriptor has no [name]; [description], [format], [hash] and
    [schema] are copied, each only when set. *)
Theorem ckan_resource_fields :
  forall r : Resource.t,
    supported r = true ->
    exists out,
      _datapackage_resource_to_ckan_resource r = Ok out
      /\ keys_in ckan_resource_keys out
      /\ distinct out
      /\ lookup (VStr "name") out
         = (if truthy (get (Resource.descriptor r) "name")
            then Some (py_or (get (Resource.descriptor r) "title")
                         (get (Resource.descriptor r) "name"))
            else None)
      /\ lookup (VStr "title") out = None
      /\ (forall k,
            In k ["description"; "format"; "hash"; "schema"] ->
            lookup (VStr k) out
            = (if truthy (get (Resource.descriptor r) k)
               then Some (get (Resource.descriptor r) k) else None)).
Proof.
  intros r Hs. rewrite ckan_resource_unfold. cbv zeta. unfold supported in Hs.
  set (descriptor := Resource.descriptor r).
  assert (Hname : forall k v,
             In k ["path"; "url"; "data"] ->
             lookup (VStr "name")
               (ckan_resource_tail descriptor
                  (set_item (VStr k) v (ckan_resource_name descriptor)))
             = (if truthy (get descriptor "name")
                then Some (py_or (get descriptor "title")
                             (get descriptor "name"))
                else None)).
  { intros k v Hk. rewrite lookup_ckan_resource_tail by reflexivity.
    rewrite lookup_set_item_str.
    replace (String.eqb "name" k) with false
      by (simpl in Hk; intuition (subst; reflexivity)).
    unfold ckan_resource_name.
    destruct (truthy (get descriptor "name")); reflexivity. }
  assert (Htitle : forall k v,
             In k ["path"; "url"; "data"] ->
             lookup (VStr "title")
               (ckan_resource_tail descriptor
                  (set_item (VStr k) v (ckan_resource_name descriptor)))
             = None).
  { intros k v Hk. rewrite lookup_ckan_resource_tail by reflexivity.
    rewrite lookup_set_item_str.
    replace (String.eqb "title" k) with false
      by (simpl in Hk; intuition (subst; reflexivity)).
    apply lookup_ckan_resource_name. reflexivity. }
  assert (Hcopy : forall k0 v k,
             In k0 ["path"; "url"; "data"] ->
             In k ["description"; "format"; "hash"; "schema"] ->
             lookup (VStr k)
               (ckan_resource_tail descriptor
                  (set_item (VStr k0) v (ckan_resource_name descriptor)))
             = (if truthy (get descriptor k)
                then Some (get descriptor k) else None)).
  { intros k0 v k Hk0 Hk. unfold ckan_resource_tail.
    rewrite !lookup_copy_if, lookup_set_item_str.
    rewrite lookup_ckan_resource_name
      by (simpl in Hk; intuition (subst; reflexivity)).
    simpl in Hk0, Hk.
    destruct Hk as [<- | [<- | [<- | [<- | []]]]];
      destruct Hk0 as [<- | [<- | [<- | []]]];
      cbn [String.eqb Ascii.eqb Bool.eqb andb];
      rewrite ?andb_false_r, ?andb_true_r;
      repeat match goal with
        | |- context [if truthy ?x then _ else _] => destruct (truthy x)
        end; reflexivity. }
  assert (Hall : forall k0 v,
             In k0 ["path"; "url"; "data"] ->
             exists out,
               Ok (ckan_resource_tail descriptor
                     (set_item (VStr k0) v (ckan_resource_name descriptor)))
               = Ok out
               /\ keys_in ckan_resource_keys out
               /\ distinct out
               /\ lookup (VStr "name") out
                  = (if truthy (get descriptor "name")
                     then Some (py_or (get descriptor "title")
                                  (get descriptor "name"))
                     else None)
               /\ lookup (VStr "title") out = None
               /\ (forall k,
                     In k ["description"; "format"; "hash"; "schema"] ->
                     lookup (VStr k) out
                     = (if truthy (get descriptor k)
                        then Some (get descriptor k) else None))).
  { intros k0 v Hk0. eexists. split; [reflexivity|].
    split; [apply ckan_resource_shape, Hk0|].
    split; [apply ckan_resource_shape, Hk0|].
    split; [apply Hname, Hk0|]. split; [apply Htitle, Hk0|].
    intros k Hk. apply Hcopy; assumption. }
  destruct (Resource.local r); [apply Hall; simpl; tauto|].
  destruct (Resource.remote r); [apply Hall; simpl; tauto|].
  destruct (Resource.inline r); [apply Hall; simpl; tauto|].
  discriminate Hs.
Qed.

Lemma ckan_resource_fields_witness :
  exists out,
    _datapackage_resource_to_ckan_resource
      {| Resource.descriptor :=
           [(VStr "name", VStr "data-file"); (VStr "title", VStr "Data File");
            (VStr "format", VStr "csv")];
         Resource.local := false;
         Resource.remote := true;
         Resource.inline := false;
         Resource.source := VStr "http://x/y.csv" |} = Ok out
    /\ lookup (VStr "name") out = Some (VStr "Data File")
    /\ lookup (VStr "title") out = None
    /\ lookup (VStr "format") out = Some (VStr "csv").
Proof.
  destruct (ckan_resource_fields
              {| Resource.descriptor :=
                   [(VStr "name", VStr "data-file");
                    (VStr "title", VStr "Data File");
                    (VStr "format", VStr "csv")];
                 Resource.local := false;
                 Resource.remote := true;
                 Resource.inline := false;
                 Resource.source := VStr "http://x/y.csv" |} eq_refl)
    as [out [Hout [_ [_ [Hname [Htitle Hcopy]]]]]].
  exists out. split; [exact Hout|]. split; [exact Hname|].
  split; [exact Htitle|]. apply (Hcopy "format"). simpl. tauto.
Defined.

(** ** Unknown fields *)

(** X14. The [extras] of a dataset made from a package are the fields of
    the descriptor that are not among the ten known ones, in descriptor
    order and one entry [{key, value}] each; a value that is a mapping or
    a list is replaced by its text encoding, so that no entry holds a
    structured value; and there is no [extras] key when every field is
    known. *)
Theorem unknown_fields_as_extras :
  forall (slugify : string -> string) (json_dumps : value -> string)
         (datapackage : Package.t) (out : dict),
    datapackage_to_dataset slugify json_dumps datapackage = Ok out ->
    lookup (VStr "extras") out
    = match unknown_fields (Package.descriptor datapackage) with
      | [] => None
      | fields =>
          Some (VList
                  (map (fun kv =>
                          VDict [(VStr "key", fst kv);
                                 (VStr "value",
                                  dumps_structured json_dumps (snd kv))])
                     fields))
      end
    /\ (forall kv,
          In kv (unknown_fields (Package.descriptor datapackage))
          <-> In kv (Package.descriptor datapackage)
              /\ in_known_fields (fst kv) = false)
    /\ (forall v, is_structured (dumps_structured json_dumps v) = false).
Proof.
  intros slugify json_dumps datapackage out Hout. split; [|split].
  - pose proof (fun k before parser after =>
      dataset_key_of_parser slugify json_dumps k before parser after
        datapackage out) as Hkey.
    destruct (Hkey "extras"
                (firstn 7 (datapackage_parsers slugify json_dumps))
                (_datapackage_parse_unknown_fields_as_extras json_dumps) [])
      as [partial [Hpart Hl]];
      [reflexivity | silent_tac | silent_tac | reflexivity | reflexivity
      | exact Hout |].
    unfold _datapackage_parse_unknown_fields_as_extras in Hpart.
    fold (unknown_fields (Package.descriptor datapackage)) in Hpart.
    destruct (unknown_fields (Package.descriptor datapackage))
      as [|field fields].
    + injection Hpart as <-. rewrite Hl by exact I. reflexivity.
    + cbn [map] in Hpart. injection Hpart as <-.
      rewrite Hl by (split; [reflexivity | exact I]).
      cbn [lookup]. rewrite key_eqb_str. cbn [String.eqb Ascii.eqb Bool.eqb].
      cbn [map fst snd]. rewrite map_map. reflexivity.
  - intros kv. unfold unknown_fields. rewrite filter_In.
    rewrite negb_true_iff. reflexivity.
  - intros v. destruct v; reflexivity.
Qed.

Lemma unknown_fields_as_extras_witness :
  exists out,
    datapackage_to_dataset Sample.slugify Sample.json_dumps
      {| Package.descriptor :=
           [(VStr "name", VStr "gold");
            (VStr "title_cn", VStr "gold prices");
            (VStr "homepage", VStr "http://x");
            (VStr "years", VList [VInt 2014; VInt 2015])];
         Package.resources := [] |} = Ok out
    /\ lookup (VStr "extras") out
       = Some (VList
                 [VDict [(VStr "key", VStr "title_cn");
                         (VStr "value", VStr "gold prices")];
                  VDict [(VStr "key", VStr "years");
                         (VStr "value", VStr "[2014, 2015]")]]).
Proof.
  eexists. split; [vm_compute; reflexivity|].
  apply (proj1 (unknown_fields_as_extras Sample.slugify Sample.json_dumps
    {| Package.descriptor :=
         [(VStr "name", VStr "gold");
          (VStr "title_cn", VStr "gold prices");
          (VStr "homepage", VStr "http://x");
          (VStr "years", VList [VInt 2014; VInt 2015])];
       Package.resources := [] |} _ eq_refl)).
Defined.

(** ** Plain fields *)

(** X15. In a package made from a dataset, [title] and [version] are the
    dataset's, [homepage] is its [ckan_url] and [description] its
    [notes], each there exactly when the dataset's field is set. *)
Theorem plain_fields_forward :
  forall (slugify : string -> string) (json_loads : string -> option value)
         (d p : dict),
    dataset_to_datapackage slugify json_loads d = Ok p ->
    lookup (VStr "title") p
    = (if truthy (get d "title") then Some (get d "title") else None)
    /\ lookup (VStr "version") p
       = (if truthy (get d "version") then Some (get d "version") else None)
    /\ lookup (VStr "homepage") p
       = (if truthy (get d "ckan_url") then Some (get d "ckan_url") else None)
    /\ lookup (VStr "description") p
       = (if truthy (get d "notes") then Some (get d "notes") else None).
Proof.
  intros slugify json_loads d p H.
  pose proof (fun k before parser after =>
    package_key_of_parser slugify json_loads k before parser after d p)
    as Hkey.
  repeat split.
  - destruct (Hkey "title" [] (_rename_dict_key "title" "title")
                (tl (dataset_parsers json_loads)))
      as [partial [Hp Hl]];
      [reflexivity | silent_tac | silent_tac | reflexivity | reflexivity
      | exact H |].
    injection Hp as <-. rewrite Hl by distinct_tac. resource_keys.
  - destruct (Hkey "version" (firstn 1 (dataset_parsers json_loads))
                (_rename_dict_key "version" "version")
                (skipn 2 (dataset_parsers json_loads)))
      as [partial [Hp Hl]];
      [reflexivity | silent_tac | silent_tac | reflexivity | reflexivity
      | exact H |].
    injection Hp as <-. rewrite Hl by distinct_tac. resource_keys.
  - destruct (Hkey "homepage" (firstn 2 (dataset_parsers json_loads))
                _parse_ckan_url (skipn 3 (dataset_parsers json_loads)))
      as [partial [Hp Hl]];
      [reflexivity | silent_tac | silent_tac | reflexivity | reflexivity
      | exact H |].
    injection Hp as <-. rewrite Hl by distinct_tac. resource_keys.
  - destruct (Hkey "description" (firstn 3 (dataset_parsers json_loads))
                _parse_notes (skipn 4 (dataset_parsers json_loads)))
      as [partial [Hp Hl]];
      [reflexivity | silent_tac | silent_tac | reflexivity | reflexivity
      | exact H |].
    injection Hp as <-. rewrite Hl by distinct_tac. resource_keys.
Qed.

Lemma plain_fields_forward_witness :
  exists p,
    dataset_to_datapackage Sample.slugify Sample.json_loads
      [(VStr "name", VStr "gold"); (VStr "title", VStr "");
       (VStr "ckan_url", VStr "http://ckan/gold");
       (VStr "notes", VStr "Monthly")] = Ok p
    /\ lookup (VStr "title") p = None
    /\ lookup (VStr "homepage") p = Some (VStr "http://ckan/gold")
    /\ lookup (VStr "description") p = Some (VStr "Monthly").
Proof.
  eexists.
  assert (Hp : dataset_to_datapackage Sample.slugify Sample.json_loads
                 [(VStr "name", VStr "gold"); (VStr "title", VStr "");
                  (VStr "ckan_url", VStr "http://ckan/gold");
                  (VStr "notes", VStr "Monthly")] = Ok _)
    by (vm_compute; reflexivity).
  destruct (plain_fields_forward Sample.slugify Sample.json_loads _ _ Hp)
    as [Ht [_ [Hh Hd]]].
  split; [exact Hp|]. split; [exact Ht|]. split; [exact Hh | exact Hd].
Defined.

(** X16. In a dataset made from a package, [title] and [version] are the
    descriptor's and [notes] is its [description], each there exactly
    when the descriptor's field is set; and [tags] holds one [{name}] per
    keyword, the keyword slugified, when the keywords are a non-empty
    list of texts, and is absent when they are unset or empty. *)
Theorem plain_fields_back :
  forall (slugify : string -> string) (json_dumps : value -> string)
         (datapackage : Package.t) (out : dict),
    datapackage_to_dataset slugify json_dumps datapackage = Ok out ->
    lookup (VStr "title") out
    = (if truthy (get (Package.descriptor datapackage) "title")
       then Some (get (Package.descriptor datapackage) "title") else None)
    /\ lookup (VStr "version") out
       = (if truthy (get (Package.descriptor datapackage) "version")
          then Some (get (Package.descriptor datapackage) "version")
          else None)
    /\ lookup (VStr "notes") out
       = (if truthy (get (Package.descriptor datapackage) "description")
          then Some (get (Package.descriptor datapackage) "description")
          else None)
    /\ (truthy (get (Package.descriptor datapackage) "keywords") = false ->
        lookup (VStr "tags") out = None)
    /\ (forall keywords,
          get (Package.descriptor datapackage) "keywords" = VList keywords ->
          keywords <> [] -> forallb is_text keywords = true ->
          lookup (VStr "tags") out
          = Some (VList (map (slug_tag slugify) keywords))).
Proof.
  intros slugify json_dumps datapackage out H.
  pose proof (fun k before parser after =>
    dataset_key_of_parser slugify json_dumps k before parser after
      datapackage out) as Hkey.
  repeat split.
  - back_key Hkey "title" (datapackage_parsers slugify json_dumps) 0%nat
      (_rename_dict_key "title" "title") H Hpart Hl.
    injection Hpart as <-. rewrite Hl by distinct_tac. resource_keys.
  - back_key Hkey "version" (datapackage_parsers slugify json_dumps) 1%nat
      (_rename_dict_key "version" "version") H Hpart Hl.
    injection Hpart as <-. rewrite Hl by distinct_tac. resource_keys.
  - back_key Hkey "notes" (datapackage_parsers slugify json_dumps) 2%nat
      (_rename_dict_key "description" "notes") H Hpart Hl.
    injection Hpart as <-. rewrite Hl by distinct_tac. resource_keys.
  - intros Hf.
    back_key Hkey "tags" (datapackage_parsers slugify json_dumps) 6%nat
      (_datapackage_parse_keywords slugify) H Hpart Hl.
    unfold _datapackage_parse_keywords in Hpart. rewrite Hf in Hpart.
    injection Hpart as <-. rewrite Hl by exact I. reflexivity.
  - intros keywords Hk Hne Htext.
    back_key Hkey "tags" (datapackage_parsers slugify json_dumps) 6%nat
      (_datapackage_parse_keywords slugify) H Hpart Hl.
    unfold _datapackage_parse_keywords in Hpart. rewrite Hk in Hpart.
    rewrite (truthy_list _ Hne) in Hpart. cbn [iter bind] in Hpart.
    rewrite (map_result_total _ (slug_tag slugify)) in Hpart.
    + injection Hpart as <-.
      rewrite Hl by (split; [reflexivity | exact I]). reflexivity.
    + intros kw Hin. rewrite forallb_forall in Htext.
      specialize (Htext kw Hin). destruct kw; try discriminate Htext.
      reflexivity.
Qed.

Lemma plain_fields_back_witness :
  exists out,
    datapackage_to_dataset Sample.slugify Sample.json_dumps
      {| Package.descriptor :=
           [(VStr "name", VStr "gold");
            (VStr "description", VStr "Monthly");
            (VStr "keywords", VList [VStr "Big Data"; VStr "Gold"])];
         Package.resources := [] |} = Ok out
    /\ lookup (VStr "notes") out = Some (VStr "Monthly")
    /\ lookup (VStr "tags") out
       = Some (VList [VDict [(VStr "name", VStr "big-data")];
                      VDict [(VStr "name", VStr "gold")]]).
Proof.
  eexists.
  assert (Hout : datapackage_to_dataset Sample.slugify Sample.json_dumps
                   {| Package.descriptor :=
                        [(VStr "name", VStr "gold");
                         (VStr "description", VStr "Monthly");
                         (VStr "keywords",
                          VList [VStr "Big Data"; VStr "Gold"])];
                      Package.resources := [] |} = Ok _)
    by (vm_compute; reflexivity).
  destruct (plain_fields_back Sample.slugify Sample.json_dumps _ _ Hout)
    as [_ [_ [Hn [_ Htags]]]].
  split; [exact Hout|]. split; [exact Hn|].
  apply (Htags [VStr "Big Data"; VStr "Gold"] eq_refl);
    [discriminate | reflexivity].
Defined.

(** ** Extras of a dataset *)

(** In [d.update(e)] the last entry of [e] under a key wins. *)
Lemma lookup_update_rev (k : value) :
  forall e d,
    lookup k (update d e)
    = match lookup k (rev e) with
      | Some v => Some v
      | None => lookup k d
      end.
Proof.
  unfold update. induction e as [|[k0 v0] e IH] using rev_ind; intros d.
  - reflexivity.
  - rewrite fold_left_app, rev_app_distr. simpl.
    rewrite lookup_set_item, IH.
    destruct (key_eqb k k0); reflexivity.
Qed.

(** X17. The [extras] of a dataset with well-formed tags and extras
    become one mapping in the package: under each key the value of the
    last extra that has this key, decoded when it is a string that
    decodes as JSON and kept as it is otherwise (a string that does not
    decode, or a value that is not a string).  A dataset without extras
    gives a package without [extras]. *)
Theorem package_extras :
  forall (slugify : string -> string) (json_loads : string -> option value)
         (d p : dict),
    tags_ok d = true -> extras_ok d = true ->
    dataset_to_datapackage slugify json_loads d = Ok p ->
    (dataset_extras d = [] -> lookup (VStr "extras") p = None)
    /\ (dataset_extras d <> [] ->
        exists m,
          lookup (VStr "extras") p = Some (VDict m)
          /\ distinct m
          /\ forall k,
              lookup k m
              = lookup k
                  (rev (map (fun extra =>
                               (fst (extra_pair extra),
                                loads_or_keep json_loads
                                  (snd (extra_pair extra))))
                          (dataset_extras d))))
    /\ (forall s v, json_loads s = Some v ->
                    loads_or_keep json_loads (VStr s) = v)
    /\ (forall s, json_loads s = None ->
                  loads_or_keep json_loads (VStr s) = VStr s)
    /\ (forall v, is_text v = false -> loads_or_keep json_loads v = v).
Proof.
  intros slugify json_loads d p Htags Hextras H.
  destruct (package_fields slugify json_loads d p Htags Hextras H)
    as [_ [_ [_ [_ [_ [_ [_ Hex]]]]]]].
  split; [|split; [|split; [|split]]].
  - intros He. rewrite He in Hex. exact Hex.
  - intros Hne. exists (decoded_extras json_loads d).
    split; [destruct (dataset_extras d); [contradiction | exact Hex]|].
    unfold decoded_extras. split.
    + apply distinct_update. exact I.
    + intros k. rewrite lookup_update_rev.
      destruct (lookup k (rev _)); reflexivity.
  - intros s v Hs. simpl. rewrite Hs. reflexivity.
  - intros s Hs. simpl. rewrite Hs. reflexivity.
  - intros v Hv. destruct v; try reflexivity. discriminate Hv.
Qed.

Lemma package_extras_witness :
  exists p m,
    dataset_to_datapackage Sample.slugify Sample.json_loads
      [(VStr "name", VStr "gold");
       (VStr "extras",
        VList [VDict [(VStr "key", VStr "k"); (VStr "value", VStr "plain")];
               VDict [(VStr "key", VStr "flag"); (VStr "value", VStr "true")];
               VDict [(VStr "key", VStr "k"); (VStr "value", VStr "{}")]])]
    = Ok p
    /\ lookup (VStr "extras") p = Some (VDict m)
    /\ lookup (VStr "k") m = Some (VDict [])
    /\ lookup (VStr "flag") m = Some (VBool true).
Proof.
  eexists.
  assert (Hp : dataset_to_datapackage Sample.slugify Sample.json_loads
                 [(VStr "name", VStr "gold");
                  (VStr "extras",
                   VList [VDict [(VStr "key", VStr "k");
                                 (VStr "value", VStr "plain")];
                          VDict [(VStr "key", VStr "flag");
                                 (VStr "value", VStr "true")];
                          VDict [(VStr "key", VStr "k");
                                 (VStr "value", VStr "{}")]])] = Ok _)
    by (vm_compute; reflexivity).
  destruct (proj1 (proj2 (package_extras Sample.slugify Sample.json_loads
              [(VStr "name", VStr "gold");
               (VStr "extras",
                VList [VDict [(VStr "key", VStr "k");
                              (VStr "value", VStr "plain")];
                       VDict [(VStr "key", VStr "flag");
                              (VStr "value", VStr "true")];
                       VDict [(VStr "key", VStr "k");
                              (VStr "value", VStr "{}")]])]
              _ eq_refl eq_refl Hp)) ltac:(discriminate))
    as [m [Hm [_ Hlook]]].
  exists m. split; [exact Hp|]. split; [exact Hm|].
  split; rewrite Hlook; reflexivity.
Defined.

(** ** The maintainer is trimmed *)

Lemma lstrip_starts_clean : forall s, starts_clean (lstrip s) = true.
Proof.
  induction s as [|c t IH]; simpl; [reflexivity|].
  destruct (isspace c) eqn:E; [exact IH|]. simpl. rewrite E. reflexivity.
Qed.

Lemma lstrip_fixed : forall s, starts_clean s = true -> lstrip s = s.
Proof.
  destruct s as [|c t]; simpl; intros H; [reflexivity|].
  apply negb_true_iff in H. rewrite H. reflexivity.
Qed.

Lemma str_rev_involutive : forall s, str_rev (str_rev s) = s.
Proof.
  intros s. unfold str_rev.
  rewrite list_ascii_of_string_of_list_ascii, rev_involutive.
  apply string_of_list_ascii_of_string.
Qed.

Lemma ends_clean_cons (c : ascii) (t : string) :
  t <> "" -> ends_clean (String c t) = ends_clean t.
Proof.
  intros Hne. unfold ends_clean, str_rev. simpl.
  destruct (rev (list_ascii_of_string t)) as [|x l] eqn:E.
  - exfalso. apply Hne.
    rewrite <- (string_of_list_ascii_of_string t).
    rewrite <- (rev_involutive (list_ascii_of_string t)), E. reflexivity.
  - reflexivity.
Qed.

Lemma lstrip_ends_clean :
  forall s, ends_clean s = true -> ends_clean (lstrip s) = true.
Proof.
  induction s as [|c t IH]; intros H; [exact H|]. simpl.
  destruct (isspace c) eqn:E; [|exact H].
  destruct t as [|c' t'].
  - reflexivity.
  - apply IH. rewrite <- (ends_clean_cons c) by discriminate. exact H.
Qed.

Lemma rstrip_ends_clean : forall s, ends_clean (rstrip s) = true.
Proof.
  intros s. unfold ends_clean, rstrip. rewrite str_rev_involutive.
  apply lstrip_starts_clean.
Qed.

Lemma rstrip_fixed : forall s, ends_clean s = true -> rstrip s = s.
Proof.
  intros s H. unfold rstrip. rewrite (lstrip_fixed _ H).
  apply str_rev_involutive.
Qed.

Lemma strip_clean (s : string) :
  starts_clean (strip s) = true /\ ends_clean (strip s) = true.
Proof.
  unfold strip. split; [apply lstrip_starts_clean|].
  apply lstrip_ends_clean, rstrip_ends_clean.
Qed.

Lemma strip_fixed (s : string) :
  starts_clean s = true -> ends_clean s = true -> strip s = s.
Proof.
  intros Hs He. unfold strip. rewrite (rstrip_fixed s He).
  apply lstrip_fixed, Hs.
Qed.

Lemma author_partial_maintainer (d partial : dict) (v : value) :
  _datapackage_parse_author d = Ok partial ->
  lookup (VStr "maintainer") partial = Some v ->
  exists s, v = VStr (strip s).
Proof.
  unfold _datapackage_parse_author, py_strip. intros H Hl.
  invert_ok; revert Hl; split_ifs;
    rewrite ?lookup_set_item_str; cbn [String.eqb Ascii.eqb Bool.eqb lookup];
    intros Hl; try discriminate Hl;
    injection Hl as <-; eexists; reflexivity.
Qed.

(** X18. The [maintainer] of a dataset made from a package, whenever
    there is one, is a text with no whitespace at its start or its end,
    which stripping again leaves as it is. *)
Theorem maintainer_trimmed :
  forall (slugify : string -> string) (json_dumps : value -> string)
         (datapackage : Package.t) (out : dict) (v : value),
    datapackage_to_dataset slugify json_dumps datapackage = Ok out ->
    lookup (VStr "maintainer") out = Some v ->
    exists m,
      v = VStr m
      /\ starts_clean m = true
      /\ ends_clean m = true
      /\ strip m = m.
Proof.
  intros slugify json_dumps datapackage out v Hout Hl.
  destruct (dataset_author_keys slugify json_dumps datapackage out Hout)
    as [partial [Hpart [Hm _]]].
  rewrite Hm in Hl.
  destruct (author_partial_maintainer _ _ _ Hpart Hl) as [s ->].
  destruct (strip_clean s) as [Hs He].
  exists (strip s). split; [reflexivity|]. split; [exact Hs|].
  split; [exact He|]. apply strip_fixed; assumption.
Qed.

Lemma maintainer_trimmed_witness :
  exists m,
    VStr "Jane Doe" = VStr m
    /\ starts_clean m = true
    /\ ends_clean m = true
    /\ strip m = m.
Proof.
  apply (maintainer_trimmed Sample.slugify Sample.json_dumps
           {| Package.descriptor :=
                [(VStr "name", VStr "gold");
                 (VStr "author", VStr "  Jane Doe  <jane@x.org>")];
              Package.resources := [] |}
           [(VStr "name", VStr "gold"); (VStr "maintainer", VStr "Jane Doe");
            (VStr "maintainer_email", VStr "jane@x.org")]
           (VStr "Jane Doe")).
  - reflexivity.
  - reflexivity.
Defined.

(** ** The de-duplicator, by counting *)

Lemma counts_seen_step (seen : list string) (names : list (value * Z))
  (s : string) :
  counts_seen seen names ->
  counts_seen (s :: seen)
    (set_item (VStr s)
       match lookup (VStr s) names with
       | Some count => (count + 1)%Z
       | None => 0%Z
       end names).
Proof.
  intros H s'. rewrite lookup_set_item, key_eqb_str.
  simpl count_occ. destruct (string_dec s s') as [<- | Hne].
  - rewrite String.eqb_refl, (H s).
    destruct (count_occ string_dec seen s); f_equal; lia.
  - replace (String.eqb s' s) with false
      by (symmetry; apply String.eqb_neq; congruence).
    apply H.
Qed.

Lemma ensure_unique_names_counted :
  forall rs seen names,
    counts_seen seen names ->
    Forall (fun r => exists s, item r "name" = Ok (VStr s)) rs ->
    exists out,
      ensure_unique_names rs names = Ok out
      /\ map (fun r => get r "name") out
         = map VStr
             (deduplicated seen
                (map (fun r => match get r "name" with
                               | VStr s => s
                               | _ => EmptyString
                               end) rs)).
Proof.
  induction rs as [|r rs IH]; intros seen names Hc Hall.
  - exists []. split; reflexivity.
  - inversion Hall as [|x l [s Hs] Hl]; subst.
    pose proof (counts_seen_step seen names s Hc) as Hstep.
    simpl ensure_unique_names. rewrite Hs. cbn [bind hash_key].
    cbn [map]. rewrite (get_of_item _ _ _ Hs). cbn [deduplicated].
    rewrite (Hc s) in Hstep |- *.
    destruct (count_occ string_dec seen s) as [|c].
    + destruct (IH _ _ Hstep Hl) as [out [Hout Hnames]].
      rewrite Hout. cbn [bind]. eexists. split; [reflexivity|].
      cbn [map]. rewrite (get_of_item _ _ _ Hs), Hnames. reflexivity.
    + cbn [py_add_str bind].
      destruct (IH _ _ Hstep Hl) as [out [Hout Hnames]].
      rewrite Hout. cbn [bind]. eexists. split; [reflexivity|].
      cbn [map]. unfold get at 1, get_default.
      rewrite lookup_set_item_str. cbn [String.eqb Ascii.eqb Bool.eqb].
      rewrite Hnames. reflexivity.
Qed.

(** X19. On resources that all have a textual name the de-duplicator
    never fails, and the names come out as counting says: a name that
    did not occur earlier in the list is kept, and a name that occurred
    [c + 1] times earlier is followed by the decimal text of [c],
    whatever other names lie in between. *)
Theorem dedup_by_counting :
  forall rs : list dict,
    Forall (fun r => exists s, item r "name" = Ok (VStr s)) rs ->
    exists out,
      ensure_unique_names rs [] = Ok out
      /\ Forall2 renamed_or_same rs out
      /\ map (fun r => get r "name") out
         = map VStr
             (deduplicated []
                (map (fun r => match get r "name" with
                               | VStr s => s
                               | _ => EmptyString
                               end) rs)).
Proof.
  intros rs Hall.
  destruct (ensure_unique_names_counted rs [] [] (fun s => eq_refl) Hall)
    as [out [Hout Hnames]].
  exists out. split; [exact Hout|]. split; [|exact Hnames].
  apply (ensure_unique_names_renames _ _ _ Hout).
Qed.

Lemma dedup_by_counting_witness :
  exists out,
    ensure_unique_names
      [[(VStr "name", VStr "a")]; [(VStr "name", VStr "b")];
       [(VStr "name", VStr "a")]; [(VStr "name", VStr "b")];
       [(VStr "name", VStr "a")]] [] = Ok out
    /\ map (fun r => get r "name") out
       = [VStr "a"; VStr "b"; VStr "a0"; VStr "b0"; VStr "a1"].
Proof.
  destruct (dedup_by_counting
              [[(VStr "name", VStr "a")]; [(VStr "name", VStr "b")];
               [(VStr "name", VStr "a")]; [(VStr "name", VStr "b")];
               [(VStr "name", VStr "a")]])
    as [out [Hout [_ Hnames]]].
  - repeat constructor; eexists; reflexivity.
  - exists out. split; [exact Hout | exact Hnames].
Defined.

(** ** The resources of a dataset made from a package *)

(** X20. The resources of a package and of the dataset made from it
    correspond one to one, in order: the dataset's [resources] are the
    conversions of the package's resource objects, as many as there are;
    a package without resource objects gives a dataset without
    [resources]. *)
Theorem dataset_resources :
  forall (slugify : string -> string) (json_dumps : value -> string)
         (datapackage : Package.t) (out : dict),
    datapackage_to_dataset slugify json_dumps datapackage = Ok out ->
    (Package.resources datapackage = [] ->
     lookup (VStr "resources") out = None)
    /\ (Package.resources datapackage <> [] ->
        exists outs,
          map_result _datapackage_resource_to_ckan_resource
            (Package.resources datapackage) = Ok outs
          /\ lookup (VStr "resources") out = Some (VList (map VDict outs))
          /\ List.length outs = List.length (Package.resources datapackage)
          /\ forallb supported (Package.resources datapackage) = true).
Proof.
  intros slugify json_dumps datapackage out H.
  apply datapackage_to_dataset_struct in H.
  destruct H as [n [acc [_ [Hacc Hout]]]].
  assert (Hs : Forall (silent_on (VStr "resources"))
                 (datapackage_parsers slugify json_dumps))
    by (unfold datapackage_parsers; silent_tac).
  pose proof (run_parsers_silent (VStr "resources") _ _ _ _ Hs Hacc) as Hr.
  simpl in Hr. split.
  - intros He. destruct Hout as [[_ ->] | [rs [Hne _]]];
      [exact Hr | contradiction].
  - intros Hne. destruct Hout as [[He _] | [rs [_ [Hrs ->]]]];
      [contradiction|].
    exists rs. split; [exact Hrs|]. split.
    + rewrite lookup_set_item_str. reflexivity.
    + split; [apply (map_result_length _ _ _ Hrs)|].
      apply forallb_forall. intros r Hin.
      destruct (map_result_In _ _ _ Hrs r Hin) as [y [Hy _]].
      destruct (ckan_resource_cases r) as [[Hsup _] | [_ Hraise]];
        [exact Hsup | congruence].
Qed.

Lemma dataset_resources_witness :
  exists out outs,
    datapackage_to_dataset Sample.slugify Sample.json_dumps
      {| Package.descriptor := [(VStr "name", VStr "gold")];
         Package.resources := gold_resources |} = Ok out
    /\ lookup (VStr "resources") out = Some (VList (map VDict outs))
    /\ List.length outs = 1%nat.
Proof.
  eexists.
  assert (Hout : datapackage_to_dataset Sample.slugify Sample.json_dumps
                   {| Package.descriptor := [(VStr "name", VStr "gold")];
                      Package.resources := gold_resources |} = Ok _)
    by (vm_compute; reflexivity).
  destruct (proj2 (dataset_resources Sample.slugify Sample.json_dumps
                     _ _ Hout) ltac:(discriminate))
    as [outs [_ [Hl [Hlen _]]]].
  exists outs. split; [exact Hout|]. split; [exact Hl | exact Hlen].
Defined.

(** ** Storage modes *)

Lemma ckan_resource_mode_keys (r : Resource.t) (o : dict) :
  _datapackage_resource_to_ckan_resource r = Ok o ->
  (Resource.local r = true ->
   lookup (VStr "path") o = Some (Resource.source r)
   /\ lookup (VStr "url") o = None /\ lookup (VStr "data") o = None)
  /\ (Resource.local r = false -> Resource.remote r = true ->
      lookup (VStr "url") o = Some (Resource.source r)
      /\ lookup (VStr "path") o = None /\ lookup (VStr "data") o = None)
  /\ (Resource.local r = false -> Resource.remote r = false ->
      Resource.inline r = true ->
      lookup (VStr "data") o = Some (Resource.source r)
      /\ lookup (VStr "path") o = None /\ lookup (VStr "url") o = None).
Proof.
  rewrite ckan_resource_unfold. cbv zeta. intros H.
  split; [|split].
  - intros Hl. rewrite Hl in H. injection H as <-. repeat split; tail_keys.
  - intros Hl Hr. rewrite Hl, Hr in H. injection H as <-.
    repeat split; tail_keys.
  - intros Hl Hr Hi. rewrite Hl, Hr, Hi in H. injection H as <-.
    repeat split; tail_keys.
Qed.

(** A package whose resources are all in supported modes converts
    whenever its descriptor alone does, to the same record with the
    converted resources added. *)
Lemma datapackage_to_dataset_with_resources (slugify : string -> string)
  (json_dumps : value -> string) (descriptor acc : dict)
  (resources : list Resource.t) :
  resources <> [] ->
  forallb supported resources = true ->
  datapackage_to_dataset slugify json_dumps
    {| Package.descriptor := descriptor; Package.resources := [] |} = Ok acc ->
  exists outs,
    map_result _datapackage_resource_to_ckan_resource resources = Ok outs
    /\ datapackage_to_dataset slugify json_dumps
         {| Package.descriptor := descriptor;
            Package.resources := resources |}
       = Ok (set_item (VStr "resources") (VList (map VDict outs)) acc).
Proof.
  intros Hne Hsup Hacc.
  destruct (resources_supported resources Hsup) as [outs Houts].
  exists outs. split; [exact Houts|].
  apply datapackage_to_dataset_struct in Hacc.
  cbn [Package.descriptor Package.resources] in Hacc.
  destruct Hacc as [n [acc0 [Hn [Hrun [[_ ->] | [rs [Hno _]]]]]]];
    [|contradiction].
  unfold datapackage_to_dataset, item.
  cbn [Package.descriptor Package.resources].
  rewrite Hn. cbn [bind py_lower]. rewrite Hrun. cbn [bind].
  destruct resources as [|r0 rest]; [contradiction|].
  rewrite Houts. reflexivity.
Qed.

(** C6. A package-side resource converts by its storage mode: [local]
    gives [path], [remote] gives [url], [inline] gives [data], each set to
    the resource's source and without the other two keys; a resource in
    none of the three modes raises [NotImplementedError].  A package that
    holds such a resource is never converted: unless its descriptor alone
    already fails, the conversion raises [NotImplementedError], and no
    record is returned.  When a package is converted, every resource of
    it was, and its record is among the [resources] of the result.  And
    packages are converted: one whose resources are all in supported
    modes converts whenever its descriptor alone does, to the descriptor's
    record with the converted resources added under [resources], the
    record of each resource holding its source under the key of its mode;
    in particular every package whose descriptor is a textual [name] and
    whose resources are in supported modes converts. *)
Theorem resource_storage_modes :
  forall (slugify : string -> string) (json_dumps : value -> string)
         (r : Resource.t),
    (Resource.local r = true ->
     exists out,
       _datapackage_resource_to_ckan_resource r = Ok out
       /\ lookup (VStr "path") out = Some (Resource.source r)
       /\ lookup (VStr "url") out = None
       /\ lookup (VStr "data") out = None)
    /\ (Resource.local r = false -> Resource.remote r = true ->
        exists out,
          _datapackage_resource_to_ckan_resource r = Ok out
          /\ lookup (VStr "url") out = Some (Resource.source r)
          /\ lookup (VStr "path") out = None
          /\ lookup (VStr "data") out = None)
    /\ (Resource.local r = false -> Resource.remote r = false ->
        Resource.inline r = true ->
        exists out,
          _datapackage_resource_to_ckan_resource r = Ok out
          /\ lookup (VStr "data") out = Some (Resource.source r)
          /\ lookup (VStr "path") out = None
          /\ lookup (VStr "url") out = None)
    /\ (supported r = false ->
        _datapackage_resource_to_ckan_resource r = Raise NotImplementedError)
    /\ (forall datapackage : Package.t,
          In r (Package.resources datapackage) -> supported r = false ->
          datapackage_to_dataset slugify json_dumps datapackage
          = Raise NotImplementedError
          \/ exists e,
              datapackage_to_dataset slugify json_dumps
                {| Package.descriptor := Package.descriptor datapackage;
                   Package.resources := [] |} = Raise e
              /\ datapackage_to_dataset slugify json_dumps datapackage
                 = Raise e)
    /\ (forall (datapackage : Package.t) (dataset_dict : dict),
          datapackage_to_dataset slugify json_dumps datapackage
          = Ok dataset_dict ->
          In r (Package.resources datapackage) ->
          exists out rs,
            _datapackage_resource_to_ckan_resource r = Ok out
            /\ lookup (VStr "resources") dataset_dict = Some (VList rs)
            /\ In (VDict out) rs)
    /\ (forall (descriptor acc : dict) (resources : list Resource.t),
          In r resources ->
          forallb supported resources = true ->
          datapackage_to_dataset slugify json_dumps
            {| Package.descriptor := descriptor; Package.resources := [] |}
          = Ok acc ->
          exists outs o,
            datapackage_to_dataset slugify json_dumps
              {| Package.descriptor := descriptor;
                 Package.resources := resources |}
            = Ok (set_item (VStr "resources") (VList (map VDict outs)) acc)
            /\ map_result _datapackage_resource_to_ckan_resource resources
               = Ok outs
            /\ _datapackage_resource_to_ckan_resource r = Ok o
            /\ In o outs
            /\ (Resource.local r = true ->
                lookup (VStr "path") o = Some (Resource.source r))
            /\ (Resource.local r = false -> Resource.remote r = true ->
                lookup (VStr "url") o = Some (Resource.source r))
            /\ (Resource.local r = false -> Resource.remote r = false ->
                Resource.inline r = true ->
                lookup (VStr "data") o = Some (Resource.source r)))
    /\ (forall (n : string) (resources : list Resource.t),
          In r resources ->
          forallb supported resources = true ->
          exists outs o,
            datapackage_to_dataset slugify json_dumps
              {| Package.descriptor := [(VStr "name", VStr n)];
                 Package.resources := resources |}
            = Ok [(VStr "name", VStr (lower n));
                  (VStr "resources", VList (map VDict outs))]
            /\ _datapackage_resource_to_ckan_resource r = Ok o
            /\ In o outs
            /\ (Resource.local r = true ->
                lookup (VStr "path") o = Some (Resource.source r))
            /\ (Resource.local r = false -> Resource.remote r = true ->
                lookup (VStr "url") o = Some (Resource.source r))
            /\ (Resource.local r = false -> Resource.remote r = false ->
                Resource.inline r = true ->
                lookup (VStr "data") o = Some (Resource.source r))).
Proof.
  intros slugify json_dumps r.
  assert (Hconv : forall (descriptor acc : dict) (resources : list Resource.t),
             In r resources ->
             forallb supported resources = true ->
             datapackage_to_dataset slugify json_dumps
               {| Package.descriptor := descriptor;
                  Package.resources := [] |} = Ok acc ->
             exists outs o,
               datapackage_to_dataset slugify json_dumps
                 {| Package.descriptor := descriptor;
                    Package.resources := resources |}
               = Ok (set_item (VStr "resources") (VList (map VDict outs)) acc)
               /\ map_result _datapackage_resource_to_ckan_resource resources
                  = Ok outs
               /\ _datapackage_resource_to_ckan_resource r = Ok o
               /\ In o outs
               /\ (Resource.local r = true ->
                   lookup (VStr "path") o = Some (Resource.source r))
               /\ (Resource.local r = false -> Resource.remote r = true ->
                   lookup (VStr "url") o = Some (Resource.source r))
               /\ (Resource.local r = false -> Resource.remote r = false ->
                   Resource.inline r = true ->
                   lookup (VStr "data") o = Some (Resource.source r))).
  { intros descriptor acc resources Hin Hsup Hacc.
    assert (Hne : resources <> []) by (intros ->; contradiction).
    destruct (datapackage_to_dataset_with_resources slugify json_dumps
                descriptor acc resources Hne Hsup Hacc) as [outs [Houts Hd]].
    destruct (map_result_In _ _ _ Houts r Hin) as [o [Ho Hino]].
    destruct (ckan_resource_mode_keys r o Ho) as [Hl [Hr Hi]].
    exists outs, o. split; [exact Hd|]. split; [exact Houts|].
    split; [exact Ho|]. split; [exact Hino|].
    split; [intros H; apply (Hl H)|].
    split; [intros H1 H2; apply (Hr H1 H2)|].
    intros H1 H2 H3. apply (Hi H1 H2 H3). }
  split; [|split; [|split; [|split; [|split; [|split; [|split]]]]]].
  - intros Hl. rewrite ckan_resource_unfold, Hl. cbv zeta.
    eexists. split; [reflexivity|]. repeat split; tail_keys.
  - intros Hl Hr. rewrite ckan_resource_unfold, Hl, Hr. cbv zeta.
    eexists. split; [reflexivity|]. repeat split; tail_keys.
  - intros Hl Hr Hi. rewrite ckan_resource_unfold, Hl, Hr, Hi. cbv zeta.
    eexists. split; [reflexivity|]. repeat split; tail_keys.
  - intros Hs. destruct (ckan_resource_cases r) as [[H _]|[_ H]];
      [congruence | exact H].
  - intros [descriptor resources] Hin Hs. unfold datapackage_to_dataset.
    cbn [Package.descriptor Package.resources] in *.
    destruct (item descriptor "name") as [n|e]; cbn [bind];
      [|right; exists e; split; reflexivity].
    destruct (py_lower n) as [n'|e]; cbn [bind];
      [|right; exists e; split; reflexivity].
    destruct (run_parsers _ descriptor [(VStr "name", n')])
      as [acc|e]; cbn [bind]; [|right; exists e; split; reflexivity].
    left. destruct resources as [|r0 rest]; [contradiction|].
    rewrite (map_result_Raise _ NotImplementedError); [reflexivity| |].
    + exists r. split; [exact Hin|].
      destruct (ckan_resource_cases r) as [[H _]|[_ H]];
        [congruence | exact H].
    + intros x _. destruct (ckan_resource_cases x) as [[_ H]|[_ H]];
        [right; exact H | left; exact H].
  - intros [descriptor resources] dataset_dict. unfold datapackage_to_dataset.
    cbn [Package.descriptor Package.resources]. intros H Hin.
    apply bind_Ok_inv in H. destruct H as [n [_ H]].
    apply bind_Ok_inv in H. destruct H as [n' [_ H]].
    apply bind_Ok_inv in H. destruct H as [acc [_ H]].
    destruct resources as [|r0 rest]; [contradiction|].
    apply bind_Ok_inv in H. destruct H as [rs [Hrs H]].
    injection H as <-.
    destruct (map_result_In _ _ _ Hrs r Hin) as [out [Hout Hmem]].
    exists out, (map VDict rs). split; [exact Hout|]. split.
    + rewrite lookup_set_item_str. reflexivity.
    + apply in_map. exact Hmem.
  - exact Hconv.
  - intros n resources Hin Hsup.
    destruct (Hconv [(VStr "name", VStr n)] [(VStr "name", VStr (lower n))]
                resources Hin Hsup eq_refl)
      as [outs [o [Hd [_ [Ho [Hino Hmodes]]]]]].
    exists outs, o. split; [exact Hd|]. split; [exact Ho|].
    split; [exact Hino | exact Hmodes].
Qed.

Lemma resource_storage_modes_witness :
  exists outs o,
    datapackage_to_dataset Sample.slugify Sample.json_dumps
      {| Package.descriptor := [(VStr "name", VStr "Gold")];
         Package.resources :=
           [ {| Resource.descriptor := [(VStr "name", VStr "x")];
                Resource.local := true;
                Resource.remote := false;
                Resource.inline := false;
                Resource.source := VStr "/tmp/x.csv" |} ] |}
    = Ok [(VStr "name", VStr "gold");
          (VStr "resources", VList (map VDict outs))]
    /\ In o outs
    /\ lookup (VStr "path") o = Some (VStr "/tmp/x.csv").
Proof.
  destruct (proj2 (proj2 (proj2 (proj2 (proj2 (proj2 (proj2
              (resource_storage_modes Sample.slugify Sample.json_dumps
                 {| Resource.descriptor := [(VStr "name", VStr "x")];
                    Resource.local := true;
                    Resource.remote := false;
                    Resource.inline := false;
                    Resource.source := VStr "/tmp/x.csv" |})))))))
              "Gold"
              [ {| Resource.descriptor := [(VStr "name", VStr "x")];
                   Resource.local := true;
                   Resource.remote := false;
                   Resource.inline := false;
                   Resource.source := VStr "/tmp/x.csv" |} ]
              (or_introl eq_refl) eq_refl)
    as [outs [o [Hd [_ [Hino [Hpath _]]]]]].
  exists outs, o. split; [exact Hd|]. split; [exact Hino|].
  exact (Hpath eq_refl).
Defined.
